(** * A shallow embedding of the Discord AI bot
      (context store, text gateway, slash-command and message routers)

    The TypeScript sources are asynchronous, effectful and fallible.  They
    are embedded here as functions in a small state-and-exception monad
    [Async] over an explicit [World]: the Redis cache (with expiry times),
    the PostgreSQL tables, the wall clock, the scripted behaviour of the
    external collaborators (which call rejects, what the text service
    answers) and the trace of observable effects (log lines, HTTP requests,
    Discord replies). *)

From Stdlib Require Import ZArith String Ascii List Lia Bool DecimalString.
From stdpp Require Import base option gmap strings list fin_maps.
Import ListNotations.

Local Open Scope Z_scope.
Local Open Scope string_scope.

(* ===================================================================== *)
(** ** JavaScript values used by the sources                              *)
(* ===================================================================== *)

(** A [Date] is its time value in milliseconds since the epoch.  Every Date
    of the sources comes from [new Date()] or from reviving a cached one,
    so only valid Dates are modelled. *)
Definition Date := Z.

(** A thrown JavaScript [Error] with its [message].  Whatever the clients
    of Redis, PostgreSQL and HTTP reject with is an [Error], so
    [error instanceof Error ? error.message : 'Unknown error'] is
    [error.message]. *)
Record Error := Err { err_message : string }.

(** Plain JSON data ([any] in the sources: tool inputs and outputs). *)
#[local] Unset Elimination Schemes.
Inductive json :=
| JNull
| JBool (b : bool)
| JNum (n : Z)
| JStr (s : string)
| JArr (items : list json)
| JObj (fields : list (string * json)).
#[local] Set Elimination Schemes.

(** [Array.prototype.slice(-n)]: the last [n] elements, all of them when
    the array is shorter. *)
Definition slice_last {A} (n : nat) (l : list A) : list A :=
  skipn (length l - n)%nat l.

(** JavaScript truthiness of a string: non-empty. *)
Definition truthy_string (s : string) : bool :=
  match s with EmptyString => false | _ => true end.

(** The line feed and the double quote of the sources' template strings. *)
Definition nl : string := String (ascii_of_nat 10) EmptyString.
Definition dq : string := String (ascii_of_nat 34) EmptyString.

(** An integer in a template string: its decimal digits. *)
Definition Number_toString (n : Z) : string := NilZero.string_of_int (Z.to_int n).

(** [a || b] on strings and on numbers. *)
Definition or_string (a : option string) (b : string) : string :=
  match a with
  | Some s => if truthy_string s then s else b
  | None => b
  end.

Definition or_number (a : option Z) (b : Z) : Z :=
  match a with
  | Some n => if Z.eqb n 0 then b else n
  | None => b
  end.

(* ===================================================================== *)
(** ** Data model (bot/src/types/index.ts)                                *)
(* ===================================================================== *)

Inductive InteractionType := Slash | Message | Voice | Autocomplete.

Inductive Role := User | Assistant | System.

Record ToolResult := {
  tr_name : string;
  tr_input : json;
  tr_output : json;
  tr_success : bool;
  tr_error : option string
}.

Record NotificationSettings := {
  reminders : bool;
  mentions : bool;
  dms : bool
}.

Record UserPreferences := {
  language : string;
  voiceModel : option string;
  textModel : string;
  autoJoinVoice : bool;
  notificationSettings : NotificationSettings
}.

(** [Partial<UserPreferences>]: [None] is an absent key. *)
Record PartialUserPreferences := {
  p_language : option string;
  p_voiceModel : option string;
  p_textModel : option string;
  p_autoJoinVoice : option bool;
  p_notificationSettings : option NotificationSettings
}.

Record MessageMetadata := {
  md_tools : option (list ToolResult);
  md_interactionType : option InteractionType
}.

(** The history entries and the context are declared once, over the
    representation [D] of their dates: [Date] in memory, [IsoString] in
    JSON text. *)
Record MessageHistoryOf (D : Type) := {
  msg_role : Role;
  msg_content : string;
  msg_timestamp : D;
  msg_metadata : option MessageMetadata
}.
Arguments msg_role {D}.
Arguments msg_content {D}.
Arguments msg_timestamp {D}.
Arguments msg_metadata {D}.

Record ConversationContextOf (D : Type) := {
  userId : string;
  guildId : option string;
  channelId : string;
  interactionType : InteractionType;
  history : list (MessageHistoryOf D);
  tools : list string;
  preferences : UserPreferences;
  timestamp : D
}.
Arguments userId {D}.
Arguments guildId {D}.
Arguments channelId {D}.
Arguments interactionType {D}.
Arguments history {D}.
Arguments tools {D}.
Arguments preferences {D}.
Arguments timestamp {D}.

(** What [JSON.stringify] makes of a Date: its ISO-8601 text.  The text of
    a valid Date denotes the millisecond value exactly, and is represented
    by the value it denotes. *)
Record IsoString := Iso { iso_ms : Z }.

Definition Date_toJSON (d : Date) : IsoString := Iso d.

(** [new Date(text)] on ISO text. *)
Definition new_Date_of (s : IsoString) : Date := iso_ms s.

Definition MessageHistory := MessageHistoryOf Date.
Definition ConversationContext := ConversationContextOf Date.

Record AIMetadata := {
  ai_model : string;
  ai_tokens : Z;
  ai_latency : Z
}.

(** The body the text service answers with: every metadata field may be
    missing ([response.data.metadata?.model]). *)
Record AIMetadataWire := {
  aw_model : option string;
  aw_tokens : option Z;
  aw_latency : option Z
}.

Record AIResponseOf (Md : Type) := {
  content : string;
  ai_tools : option (list ToolResult);
  ai_metadata : option Md
}.
Arguments content {Md}.
Arguments ai_tools {Md}.
Arguments ai_metadata {Md}.

Definition AIResponse := AIResponseOf AIMetadata.

Inductive HealthStatus := Healthy | Degraded | Unhealthy.

Record ServiceMetrics := {
  requestsPerMinute : Z;
  averageLatency : Z;
  errorRate : Z
}.

Record ServiceStatus := {
  status : HealthStatus;
  uptime : Z;
  lastCheck : Date;
  errors : list string;
  metrics : ServiceMetrics
}.

(* ===================================================================== *)
(** ** The world the bot runs in                                          *)
(* ===================================================================== *)

(** JSON text held by Redis, as the value it parses to.  Contexts are
    stored with their dates as ISO text. *)
Inductive JsonText :=
| JsonContext (c : ConversationContextOf IsoString)
| JsonPreferences (p : UserPreferences).

(** A Redis key set with [setEx]: the value and the instant it expires. *)
Record RedisEntry := {
  re_value : JsonText;
  re_expiresAt : Z
}.

(** A row of [conversation_contexts], keyed by (user_id, channel_id). *)
Record ContextRow := {
  row_guild_id : option string;
  row_interaction_type : InteractionType;
  row_history : list (MessageHistoryOf IsoString);
  row_tools : list string;
  row_preferences : UserPreferences
}.

Inductive LogLevel := LError | LWarn | LInfo | LDebug.

(** The body of [POST /process]. *)
Record ProcessRequest := {
  rq_message : string;
  rq_userId : string;
  rq_guildId : option string;
  rq_channelId : string;
  rq_interactionType : InteractionType;
  rq_history : list MessageHistory;
  rq_tools : list string;
  rq_preferences : UserPreferences
}.

Inductive HttpRequest :=
| PostProcess (body : ProcessRequest)
| PostToolsExecute (tool : string) (parameters : json)
| GetHealth.

(** The content of a Discord reply.  The cooldown notice embeds
    [((expirationTime - now) / 1000).toFixed(1)]; the remaining time is
    kept in milliseconds instead of the formatted decimal.  The ping, info
    and status texts embed measurements of the running process (gateway
    latency, uptime, heap size) and are kept as tags, the status text with
    the two figures it takes from the services. *)
Inductive ReplyContent :=
| Text (s : string)
| PleaseWait (msLeft : Z)
| Pong
| BotInformation
| StatusReport (griptape : HealthStatus) (messages : nat).

Inductive Event :=
| Log (level : LogLevel) (msg : string)
| Http (rq : HttpRequest)
| InteractionReply (interactionId : string) (c : ReplyContent) (ephemeral : bool)
| InteractionDeferReply (interactionId : string) (ephemeral : bool)
| InteractionEditReply (interactionId : string) (c : ReplyContent)
| InteractionFollowUp (interactionId : string) (c : ReplyContent) (ephemeral : bool)
| MessageReply (messageId : string) (c : ReplyContent)
| MessageEdit (messageId : string) (c : ReplyContent)
| SendTyping (channel : string).

(** How one HTTP call to the text service ends: after [elapsed]
    milliseconds it resolves with a body or rejects (transport error,
    timeout or a status that is not 2xx).  [response_status] is the status
    of the response, 0 when the call ends without a response. *)
Record HttpOutcome (A : Type) := {
  elapsed : Z;
  response_status : Z;
  outcome : Error + A
}.
Arguments elapsed {A}.
Arguments response_status {A}.
Arguments outcome {A}.

Record World := {
  redis : gmap string RedisEntry;
  users : gmap string UserPreferences;
  conversation_contexts : gmap (string * string) ContextRow;
  clock : Z;
  (** outcome of the coming Redis calls, in order: [Some e] rejects with
      [e]; past the end of the list every call succeeds *)
  redis_faults : list (option Error);
  (** the same for the coming PostgreSQL queries *)
  pg_faults : list (option Error);
  (** the coming answers of [POST /process], [POST /tools/execute] and
      [GET /health]; past the end of the list the call times out *)
  process_script : list (HttpOutcome (AIResponseOf AIMetadataWire));
  tools_script : list (HttpOutcome ToolResult);
  health_script : list (HttpOutcome ServiceStatus);
  (** per-command, per-user instant of the last dispatch
      ([SlashCommandHandler.cooldowns]) *)
  cooldowns : gmap string (gmap string Z);
  (** interactions already replied to / deferred *)
  replied : gset string;
  deferred : gset string;
  (** observable effects, most recent first *)
  trace : list Event
}.

Definition with_redis (r : gmap string RedisEntry) (w : World) : World :=
  {| redis := r; users := users w; conversation_contexts := conversation_contexts w;
     clock := clock w; redis_faults := redis_faults w; pg_faults := pg_faults w;
     process_script := process_script w; tools_script := tools_script w;
     health_script := health_script w; cooldowns := cooldowns w;
     replied := replied w; deferred := deferred w; trace := trace w |}.

Definition with_users (u : gmap string UserPreferences) (w : World) : World :=
  {| redis := redis w; users := u; conversation_contexts := conversation_contexts w;
     clock := clock w; redis_faults := redis_faults w; pg_faults := pg_faults w;
     process_script := process_script w; tools_script := tools_script w;
     health_script := health_script w; cooldowns := cooldowns w;
     replied := replied w; deferred := deferred w; trace := trace w |}.

Definition with_conversation_contexts (c : gmap (string * string) ContextRow)
    (w : World) : World :=
  {| redis := redis w; users := users w; conversation_contexts := c;
     clock := clock w; redis_faults := redis_faults w; pg_faults := pg_faults w;
     process_script := process_script w; tools_script := tools_script w;
     health_script := health_script w; cooldowns := cooldowns w;
     replied := replied w; deferred := deferred w; trace := trace w |}.

Definition with_clock (t : Z) (w : World) : World :=
  {| redis := redis w; users := users w; conversation_contexts := conversation_contexts w;
     clock := t; redis_faults := redis_faults w; pg_faults := pg_faults w;
     process_script := process_script w; tools_script := tools_script w;
     health_script := health_script w; cooldowns := cooldowns w;
     replied := replied w; deferred := deferred w; trace := trace w |}.

Definition with_redis_faults (f : list (option Error)) (w : World) : World :=
  {| redis := redis w; users := users w; conversation_contexts := conversation_contexts w;
     clock := clock w; redis_faults := f; pg_faults := pg_faults w;
     process_script := process_script w; tools_script := tools_script w;
     health_script := health_script w; cooldowns := cooldowns w;
     replied := replied w; deferred := deferred w; trace := trace w |}.

Definition with_pg_faults (f : list (option Error)) (w : World) : World :=
  {| redis := redis w; users := users w; conversation_contexts := conversation_contexts w;
     clock := clock w; redis_faults := redis_faults w; pg_faults := f;
     process_script := process_script w; tools_script := tools_script w;
     health_script := health_script w; cooldowns := cooldowns w;
     replied := replied w; deferred := deferred w; trace := trace w |}.

Definition with_process_script (s : list (HttpOutcome (AIResponseOf AIMetadataWire)))
    (w : World) : World :=
  {| redis := redis w; users := users w; conversation_contexts := conversation_contexts w;
     clock := clock w; redis_faults := redis_faults w; pg_faults := pg_faults w;
     process_script := s; tools_script := tools_script w;
     health_script := health_script w; cooldowns := cooldowns w;
     replied := replied w; deferred := deferred w; trace := trace w |}.

Definition with_tools_script (s : list (HttpOutcome ToolResult)) (w : World) : World :=
  {| redis := redis w; users := users w; conversation_contexts := conversation_contexts w;
     clock := clock w; redis_faults := redis_faults w; pg_faults := pg_faults w;
     process_script := process_script w; tools_script := s;
     health_script := health_script w; cooldowns := cooldowns w;
     replied := replied w; deferred := deferred w; trace := trace w |}.

Definition with_health_script (s : list (HttpOutcome ServiceStatus)) (w : World) : World :=
  {| redis := redis w; users := users w; conversation_contexts := conversation_contexts w;
     clock := clock w; redis_faults := redis_faults w; pg_faults := pg_faults w;
     process_script := process_script w; tools_script := tools_script w;
     health_script := s; cooldowns := cooldowns w;
     replied := replied w; deferred := deferred w; trace := trace w |}.

Definition with_cooldowns (c : gmap string (gmap string Z)) (w : World) : World :=
  {| redis := redis w; users := users w; conversation_contexts := conversation_contexts w;
     clock := clock w; redis_faults := redis_faults w; pg_faults := pg_faults w;
     process_script := process_script w; tools_script := tools_script w;
     health_script := health_script w; cooldowns := c;
     replied := replied w; deferred := deferred w; trace := trace w |}.

Definition with_replied (s : gset string) (w : World) : World :=
  {| redis := redis w; users := users w; conversation_contexts := conversation_contexts w;
     clock := clock w; redis_faults := redis_faults w; pg_faults := pg_faults w;
     process_script := process_script w; tools_script := tools_script w;
     health_script := health_script w; cooldowns := cooldowns w;
     replied := s; deferred := deferred w; trace := trace w |}.

Definition with_deferred (s : gset string) (w : World) : World :=
  {| redis := redis w; users := users w; conversation_contexts := conversation_contexts w;
     clock := clock w; redis_faults := redis_faults w; pg_faults := pg_faults w;
     process_script := process_script w; tools_script := tools_script w;
     health_script := health_script w; cooldowns := cooldowns w;
     replied := replied w; deferred := s; trace := trace w |}.

Definition with_trace (t : list Event) (w : World) : World :=
  {| redis := redis w; users := users w; conversation_contexts := conversation_contexts w;
     clock := clock w; redis_faults := redis_faults w; pg_faults := pg_faults w;
     process_script := process_script w; tools_script := tools_script w;
     health_script := health_script w; cooldowns := cooldowns w;
     replied := replied w; deferred := deferred w; trace := t |}.

(** The environment lets [d] milliseconds pass. *)
Definition advance (d : Z) (w : World) : World := with_clock (clock w + d) w.

(** A world with nothing stored, no scheduled fault and no scripted
    answer, at instant [t]. *)
Definition empty_world (t : Z) : World :=
  {| redis := ∅; users := ∅; conversation_contexts := ∅; clock := t;
     redis_faults := []; pg_faults := []; process_script := [];
     tools_script := []; health_script := []; cooldowns := ∅;
     replied := ∅; deferred := ∅; trace := [] |}.

(* ===================================================================== *)
(** ** The monad of asynchronous, fallible code                           *)
(* ===================================================================== *)

(** How an [async] body ends: it returns, or it throws.  The effects done
    before a throw stay done, so the world is returned in both cases. *)
Inductive Completion (A : Type) :=
| Returns (a : A)
| Throws (e : Error).
Arguments Returns {A}.
Arguments Throws {A}.

Definition Async (A : Type) : Type := World -> Completion A * World.

Definition ret {A} (a : A) : Async A := fun w => (Returns a, w).

Definition throw {A} (e : Error) : Async A := fun w => (Throws e, w).

Definition bind {A B} (m : Async A) (k : A -> Async B) : Async B :=
  fun w =>
    match m w with
    | (Returns a, w') => k a w'
    | (Throws e, w') => (Throws e, w')
    end.

(** [try { m } catch (error) { handler error }] *)
Definition try_catch {A} (m : Async A) (handler : Error -> Async A) : Async A :=
  fun w =>
    match m w with
    | (Returns a, w') => (Returns a, w')
    | (Throws e, w') => handler e w'
    end.

Notation "x <- m ;; k" := (bind m (fun x => k))
  (at level 100, m at next level, right associativity).
Notation "m ;;; k" := (bind m (fun _ => k))
  (at level 100, right associativity).

Definition emit (e : Event) : Async unit :=
  fun w => (Returns tt, with_trace (e :: trace w) w).

Definition logger_error (msg : string) : Async unit := emit (Log LError msg).
Definition logger_warn (msg : string) : Async unit := emit (Log LWarn msg).
Definition logger_info (msg : string) : Async unit := emit (Log LInfo msg).

(** [Date.now()] and [new Date()] *)
Definition Date_now : Async Z := fun w => (Returns (clock w), w).

(* ===================================================================== *)
(** ** Redis and PostgreSQL, as the sources call them                     *)
(* ===================================================================== *)

(** One call to Redis: it rejects when the schedule says so, and runs
    otherwise.  The call uses up its entry of the schedule. *)
Definition redis_call {A} (op : World -> A * World) : Async A :=
  fun w =>
    let w' := with_redis_faults (tl (redis_faults w)) w in
    match hd None (redis_faults w) with
    | Some e => (Throws e, w')
    | None => let (a, w'') := op w' in (Returns a, w'')
    end.

(** One query on the pool.  A scheduled rejection stands for any failure
    that the environment decides: a lost connection as much as a foreign
    key of the schema ([conversation_contexts] references [users] and
    [guilds]). *)
Definition pg_call {A} (op : World -> A * World) : Async A :=
  fun w =>
    let w' := with_pg_faults (tl (pg_faults w)) w in
    match hd None (pg_faults w) with
    | Some e => (Throws e, w')
    | None => let (a, w'') := op w' in (Returns a, w'')
    end.

(** What a key holds at instant [now]: nothing once it has expired. *)
Definition live (now : Z) (e : RedisEntry) : option JsonText :=
  if Z.ltb now (re_expiresAt e) then Some (re_value e) else None.

(** [redis.get(key)]: the text, or [null].  A JSON text is never the empty
    string, so the sources' [if (cached)] tests that the key is there. *)
Definition redis_get (key : string) : Async (option JsonText) :=
  redis_call (fun w => (redis w !! key ≫= live (clock w), w)).

(** [redis.setEx(key, seconds, value)] *)
Definition redis_setEx (key : string) (seconds : Z) (value : JsonText) : Async unit :=
  redis_call (fun w =>
    (tt, with_redis
           (<[key := {| re_value := value; re_expiresAt := clock w + seconds * 1000 |}]>
              (redis w)) w)).

(** [redis.del(key)] *)
Definition redis_del (key : string) : Async unit :=
  redis_call (fun w => (tt, with_redis (delete key (redis w)) w)).

(** [SELECT preferences FROM users WHERE id = $1]: [result.rows[0]], if any. *)
Definition pg_select_preferences (id : string) : Async (option UserPreferences) :=
  pg_call (fun w => (users w !! id, w)).

(** What PostgreSQL 15 (the image of [docker-compose.yml]) rejects an
    insertion without [username] with. *)
Definition not_null_violation : Error :=
  Err ("null value in column " +:+ dq +:+ "username" +:+ dq +:+ " of relation "
       +:+ dq +:+ "users" +:+ dq +:+ " violates not-null constraint").

(** [INSERT INTO users (id, preferences) VALUES ($1, $2)
     ON CONFLICT (id) DO NOTHING].  The init script creates [users] with
    [username VARCHAR(255) NOT NULL] and [discriminator VARCHAR(4) NOT NULL],
    neither with a default, and the statement gives neither: when the query
    reaches the database it is rejected (the columns are checked before the
    conflict on [id]), and no row is written. *)
Definition pg_insert_user (id : string) (p : UserPreferences) : Async unit :=
  pg_call (fun w => (tt, w)) ;;; throw not_null_violation.

(** [UPDATE users SET preferences = $1, updated_at = NOW() WHERE id = $2] *)
Definition pg_update_preferences (id : string) (p : UserPreferences) : Async unit :=
  pg_call (fun w =>
    (tt, with_users
           match users w !! id with
           | Some _ => <[id := p]> (users w)
           | None => users w
           end w)).

(** [INSERT INTO conversation_contexts ... ON CONFLICT (user_id, channel_id)
     DO UPDATE SET ...]: the row is replaced whole. *)
Definition pg_upsert_context (user channel : string) (row : ContextRow) : Async unit :=
  pg_call (fun w =>
    (tt, with_conversation_contexts
           (<[(user, channel) := row]> (conversation_contexts w)) w)).

(** [DELETE FROM conversation_contexts WHERE user_id = $1 AND channel_id = $2] *)
Definition pg_delete_context (user channel : string) : Async unit :=
  pg_call (fun w =>
    (tt, with_conversation_contexts
           (delete (user, channel) (conversation_contexts w)) w)).

(* ===================================================================== *)
(** ** ContextService (bot/src/services/context.ts)                       *)
(* ===================================================================== *)

Definition CONTEXT_TTL : Z := 3600.
Definition PREFERENCES_TTL : Z := 86400.

Definition stringify_message (m : MessageHistory) : MessageHistoryOf IsoString :=
  {| msg_role := msg_role m; msg_content := msg_content m;
     msg_timestamp := Date_toJSON (msg_timestamp m);
     msg_metadata := msg_metadata m |}.

(** [JSON.stringify(context.history)] *)
Definition JSON_stringify_history (h : list MessageHistory)
    : list (MessageHistoryOf IsoString) :=
  map stringify_message h.

(** [JSON.stringify(context)] *)
Definition JSON_stringify (c : ConversationContext) : JsonText :=
  JsonContext
    {| userId := userId c; guildId := guildId c; channelId := channelId c;
       interactionType := interactionType c;
       history := JSON_stringify_history (history c);
       tools := tools c; preferences := preferences c;
       timestamp := Date_toJSON (timestamp c) |}.

(** The preferences written by both branches of [getUserPreferences]. *)
Definition defaultPreferences : UserPreferences :=
  {| language := "en"; voiceModel := None; textModel := "gpt-4";
     autoJoinVoice := true;
     notificationSettings := {| reminders := true; mentions := true; dms := true |} |}.

Definition context_key (userId channelId : string) : string :=
  "context:" +:+ userId +:+ ":" +:+ channelId.

Definition preferences_key (userId : string) : string :=
  "preferences:" +:+ userId.

(** Reading a field of a parsed value that does not have it ends in a
    [TypeError] here.  The keys of both kinds never coincide (they start
    with different prefixes), so no run of the service reaches it: see
    [well_keyed] below. *)
Definition TypeError : Error := Err "TypeError".

Definition getUserPreferences (userId : string) : Async UserPreferences :=
  try_catch
    (let key := preferences_key userId in
     cached <- redis_get key ;;
     match cached with
     | Some (JsonPreferences p) => ret p
     | Some (JsonContext _) => throw TypeError
     | None =>
         rows <- pg_select_preferences userId ;;
         preferences <-
           match rows with
           | Some p => ret p
           | None =>
               let preferences := defaultPreferences in
               pg_insert_user userId preferences ;;;
               ret preferences
           end ;;
         redis_setEx key PREFERENCES_TTL (JsonPreferences preferences) ;;;
         ret preferences
     end)
    (fun error =>
       logger_error "Error getting user preferences:" ;;;
       ret defaultPreferences).

(** The object built from a cache hit:
    [{...context, history: context.history.map(msg => ({...msg,
      timestamp: new Date(msg.timestamp)})), timestamp: new Date(context.timestamp)}] *)
Definition revive_message (m : MessageHistoryOf IsoString) : MessageHistory :=
  {| msg_role := msg_role m; msg_content := msg_content m;
     msg_timestamp := new_Date_of (msg_timestamp m);
     msg_metadata := msg_metadata m |}.

Definition revive_context (c : ConversationContextOf IsoString) : ConversationContext :=
  {| userId := userId c; guildId := guildId c; channelId := channelId c;
     interactionType := interactionType c;
     history := map revive_message (history c);
     tools := tools c; preferences := preferences c;
     timestamp := new_Date_of (timestamp c) |}.

Definition getContext (userId channelId : string) : Async ConversationContext :=
  try_catch
    (let key := context_key userId channelId in
     cached <- redis_get key ;;
     match cached with
     | Some (JsonContext context) => ret (revive_context context)
     | Some (JsonPreferences _) => throw TypeError
     | None =>
         preferences <- getUserPreferences userId ;;
         now <- Date_now ;;
         let context : ConversationContext :=
           {| userId := userId; guildId := None; channelId := channelId;
              interactionType := Message; history := []; tools := [];
              preferences := preferences; timestamp := now |} in
         redis_setEx key CONTEXT_TTL (JSON_stringify context) ;;;
         ret context
     end)
    (fun error => logger_error "Error getting context:" ;;; throw error).

Definition storeContextInDatabase (context : ConversationContext) : Async unit :=
  try_catch
    (pg_upsert_context (userId context) (channelId context)
       {| row_guild_id := guildId context;
          row_interaction_type := interactionType context;
          row_history := JSON_stringify_history (history context);
          row_tools := tools context;
          row_preferences := preferences context |})
    (fun error => logger_error "Error storing context in database:").

(** [context.timestamp = new Date()] *)
Definition set_timestamp (t : Date) (c : ConversationContext) : ConversationContext :=
  {| userId := userId c; guildId := guildId c; channelId := channelId c;
     interactionType := interactionType c; history := history c;
     tools := tools c; preferences := preferences c; timestamp := t |}.

Definition updateContext (context : ConversationContext) : Async unit :=
  try_catch
    (let key := context_key (userId context) (channelId context) in
     now <- Date_now ;;
     let context := set_timestamp now context in
     redis_setEx key CONTEXT_TTL (JSON_stringify context) ;;;
     storeContextInDatabase context)
    (fun error => logger_error "Error updating context:" ;;; throw error).

Definition clearContext (userId channelId : string) : Async unit :=
  try_catch
    (let key := context_key userId channelId in
     redis_del key ;;;
     pg_delete_context userId channelId ;;;
     logger_info ("Cleared context for user " +:+ userId +:+ " in channel " +:+ channelId))
    (fun error => logger_error "Error clearing context:" ;;; throw error).

(** [{ ...currentPreferences, ...preferences }] *)
Definition merge_preferences (cur : UserPreferences) (p : PartialUserPreferences)
    : UserPreferences :=
  {| language := default (language cur) (p_language p);
     voiceModel := match p_voiceModel p with Some v => Some v | None => voiceModel cur end;
     textModel := default (textModel cur) (p_textModel p);
     autoJoinVoice := default (autoJoinVoice cur) (p_autoJoinVoice p);
     notificationSettings :=
       default (notificationSettings cur) (p_notificationSettings p) |}.

Definition updateUserPreferences (userId : string) (preferences : PartialUserPreferences)
    : Async unit :=
  try_catch
    (currentPreferences <- getUserPreferences userId ;;
     let updatedPreferences := merge_preferences currentPreferences preferences in
     pg_update_preferences userId updatedPreferences ;;;
     let key := preferences_key userId in
     redis_setEx key PREFERENCES_TTL (JsonPreferences updatedPreferences) ;;;
     logger_info ("Updated preferences for user " +:+ userId))
    (fun error => logger_error "Error updating user preferences:" ;;; throw error).

(* ===================================================================== *)
(** ** GriptapeService, the AI text gateway (services/griptape.ts)        *)
(* ===================================================================== *)

(** What axios rejects with when no answer comes within [timeout: 30000]. *)
Definition axios_timeout : Z := 30000.
Definition timeout_error : Error := Err "timeout of 30000ms exceeded".

(** One request through [this.client], with the logging interceptors of
    [setupInterceptors]: the request is logged with its method and url and
    sent, the scripted time passes, and the call resolves with the body,
    logged with the status of the response and the url, or rejects. *)
Definition client_call {A} (script : World -> list (HttpOutcome A))
    (with_script : list (HttpOutcome A) -> World -> World)
    (method url : string) (rq : HttpRequest) : Async A :=
  emit (Log LDebug ("Griptape request: " +:+ method +:+ " " +:+ url)) ;;;
  emit (Http rq) ;;;
  fun w =>
    match script w with
    | o :: rest =>
        let w' := advance (elapsed o) (with_script rest w) in
        match outcome o with
        | inr data =>
            (Returns data,
             with_trace
               (Log LDebug ("Griptape response: " +:+ Number_toString (response_status o)
                            +:+ " " +:+ url) :: trace w') w')
        | inl e =>
            (Throws e, with_trace (Log LError "Griptape response error:" :: trace w') w')
        end
    | [] =>
        let w' := advance axios_timeout w in
        (Throws timeout_error,
         with_trace (Log LError "Griptape response error:" :: trace w') w')
    end.

Definition post_process (body : ProcessRequest) : Async (AIResponseOf AIMetadataWire) :=
  client_call process_script with_process_script "POST" "/process" (PostProcess body).

Definition post_tools_execute (tool : string) (parameters : json) : Async ToolResult :=
  client_call tools_script with_tools_script "POST" "/tools/execute"
    (PostToolsExecute tool parameters).

Definition get_health : Async ServiceStatus :=
  client_call health_script with_health_script "GET" "/health" GetHealth.

Definition processMessage (message : string) (context : ConversationContext)
    : Async AIResponse :=
  try_catch
    (startTime <- Date_now ;;
     data <- post_process
       {| rq_message := message;
          rq_userId := userId context;
          rq_guildId := guildId context;
          rq_channelId := channelId context;
          rq_interactionType := interactionType context;
          rq_history := slice_last 10 (history context);
          rq_tools := tools context;
          rq_preferences := preferences context |} ;;
     now <- Date_now ;;
     let latency := now - startTime in
     ret {| content := content data;
            ai_tools := ai_tools data;
            ai_metadata := Some
              {| ai_model := or_string (ai_metadata data ≫= aw_model) "gpt-4";
                 ai_tokens := or_number (ai_metadata data ≫= aw_tokens) 0;
                 ai_latency := or_number (ai_metadata data ≫= aw_latency) 0 |} |})
    (fun error =>
       logger_error "Error processing message with Griptape:" ;;;
       throw (Err ("Failed to process message: " +:+ err_message error))).

Definition executeTool (toolName : string) (params : json) : Async ToolResult :=
  try_catch
    (post_tools_execute toolName params)
    (fun error =>
       logger_error ("Error executing tool " +:+ toolName +:+ ":") ;;;
       ret {| tr_name := toolName; tr_input := params; tr_output := JNull;
              tr_success := false; tr_error := Some (err_message error) |}).

Definition getStatus : Async ServiceStatus :=
  try_catch
    (startTime <- Date_now ;;
     data <- get_health ;;
     now <- Date_now ;;
     let latency := now - startTime in
     ret {| status := status data; uptime := uptime data;
            lastCheck := lastCheck data; errors := errors data;
            metrics :=
              {| requestsPerMinute := requestsPerMinute (metrics data);
                 averageLatency := latency;
                 errorRate := errorRate (metrics data) |} |})
    (fun error =>
       logger_error "Error getting Griptape service status:" ;;;
       now <- Date_now ;;
       ret {| status := Unhealthy; uptime := 0; lastCheck := now;
              errors := [err_message error];
              metrics := {| requestsPerMinute := 0; averageLatency := 0;
                            errorRate := 100 |} |}).

(* ===================================================================== *)
(** ** Discord interactions, as the handlers use them                     *)
(* ===================================================================== *)

Inductive OptionValue :=
| OString (s : string)
| OBoolean (b : bool).

(** A [ChatInputCommandInteraction]. *)
Record Interaction := {
  ix_id : string;
  commandName : string;
  ix_user : string;
  ix_channelId : string;
  ix_options : gmap string OptionValue;
  ix_subcommand : option string
}.

(** [interaction.options.getString(name, true)]: discord.js throws when a
    required option is missing or has another type. *)
Definition getString_required (name : string) (i : Interaction) : Async string :=
  match ix_options i !! name with
  | Some (OString s) => ret s
  | Some (OBoolean _) => throw (Err "CommandInteractionOptionType")
  | None => throw (Err "CommandInteractionOptionNotFound")
  end.

(** [interaction.options.getString(name)]: the string, or [null]. *)
Definition getString (name : string) (i : Interaction) : Async (option string) :=
  match ix_options i !! name with
  | Some (OString s) => ret (Some s)
  | Some (OBoolean _) => throw (Err "CommandInteractionOptionType")
  | None => ret None
  end.

Definition getBoolean (name : string) (i : Interaction) : Async (option bool) :=
  match ix_options i !! name with
  | Some (OBoolean b) => ret (Some b)
  | Some (OString _) => throw (Err "CommandInteractionOptionType")
  | None => ret None
  end.

Definition getSubcommand (i : Interaction) : Async string :=
  match ix_subcommand i with
  | Some s => ret s
  | None => throw (Err "CommandInteractionOptionNoSubcommand")
  end.

Definition interaction_reply (i : Interaction) (c : ReplyContent) (ephemeral : bool)
    : Async unit :=
  emit (InteractionReply (ix_id i) c ephemeral) ;;;
  fun w => (Returns tt, with_replied ({[ix_id i]} ∪ replied w) w).

Definition interaction_deferReply (i : Interaction) (ephemeral : bool) : Async unit :=
  emit (InteractionDeferReply (ix_id i) ephemeral) ;;;
  fun w => (Returns tt, with_deferred ({[ix_id i]} ∪ deferred w) w).

Definition interaction_editReply (i : Interaction) (c : ReplyContent) : Async unit :=
  emit (InteractionEditReply (ix_id i) c) ;;;
  fun w => (Returns tt, with_replied ({[ix_id i]} ∪ replied w) w).

Definition interaction_followUp (i : Interaction) (c : ReplyContent) (ephemeral : bool)
    : Async unit :=
  emit (InteractionFollowUp (ix_id i) c ephemeral).

(** [interaction.replied || interaction.deferred] *)
Definition replied_or_deferred (i : Interaction) : Async bool :=
  fun w =>
    (Returns (bool_decide (ix_id i ∈ replied w) || bool_decide (ix_id i ∈ deferred w)),
     w).

(* ===================================================================== *)
(** ** What the routers share                                             *)
(* ===================================================================== *)

(** A [SlashCommand]: [data.name], [data.description], the handler and the
    cooldown in seconds ([cooldown?: number]). *)
Record SlashCommand := {
  cmd_name : string;
  cmd_description : string;
  execute : Interaction -> Async unit;
  cooldown : option Z
}.

(** A [Collection] of commands keeps insertion order; [get] finds the
    command registered under the name. *)
Fixpoint commands_get (commands : list SlashCommand) (name : string)
    : option SlashCommand :=
  match commands with
  | [] => None
  | c :: rest => if String.eqb (cmd_name c) name then Some c else commands_get rest name
  end.

(** [if (command.cooldown)]: a number is truthy unless it is 0 (or absent). *)
Definition truthy_number (n : option Z) : bool :=
  match n with
  | Some k => negb (Z.eqb k 0)
  | None => false
  end.

(** The history entry pushed for the user's text:
    [{ role: 'user', content, timestamp: new Date(), metadata: { interactionType } }] *)
Definition user_turn (text : string) (now : Date) (t : InteractionType) : MessageHistory :=
  {| msg_role := User; msg_content := text; msg_timestamp := now;
     msg_metadata := Some {| md_tools := None; md_interactionType := Some t |} |}.

(** The entry pushed for the answer; its metadata has [tools] when the
    response has. *)
Definition assistant_turn (response : AIResponse) (now : Date) (t : InteractionType)
    : MessageHistory :=
  {| msg_role := Assistant; msg_content := content response; msg_timestamp := now;
     msg_metadata := Some {| md_tools := ai_tools response;
                             md_interactionType := Some t |} |}.

(** [context.interactionType = t; context.timestamp = now;
     context.history.push(turn)] *)
Definition begin_turn (t : InteractionType) (now : Date) (turn : MessageHistory)
    (c : ConversationContext) : ConversationContext :=
  {| userId := userId c; guildId := guildId c; channelId := channelId c;
     interactionType := t; history := history c ++ [turn];
     tools := tools c; preferences := preferences c; timestamp := now |}.

(** [context.history.push(turn)] *)
Definition push_turn (turn : MessageHistory) (c : ConversationContext)
    : ConversationContext :=
  {| userId := userId c; guildId := guildId c; channelId := channelId c;
     interactionType := interactionType c; history := history c ++ [turn];
     tools := tools c; preferences := preferences c; timestamp := timestamp c |}.

(** [String.prototype.join] over the mapped commands. *)
Fixpoint join (sep : string) (parts : list string) : string :=
  match parts with
  | [] => ""
  | [p] => p
  | p :: rest => p +:+ sep +:+ join sep rest
  end.

(** A Discord [Message], with what the handler asks of it:
    [guild] is [Some p] in a guild, [p] telling whether the bot may send
    messages there. *)
Record DiscordMessage := {
  m_id : string;
  m_content : string;
  m_author : string;
  m_author_bot : bool;
  m_channelId : string;
  m_guild : option bool;
  m_isDM : bool;
  m_canSendTyping : bool
}.

(** [message.reply(content)] *)
Definition message_reply (m : DiscordMessage) (c : ReplyContent) : Async unit :=
  emit (MessageReply (m_id m) c).

(* ===================================================================== *)
(** ** SlashCommandHandler (bot/src/handlers/slashCommands.ts)            *)
(* ===================================================================== *)

Module SlashCommandHandler.

(** [`${interaction.user.id}-${interaction.commandName}`] *)
Definition cooldown_key (i : Interaction) : string :=
  ix_user i +:+ "-" +:+ commandName i.

(** [timestamps.set(cooldownKey, now); this.cooldowns.set(commandName, timestamps)] *)
Definition cooldowns_record (commandName cooldownKey : string) (now : Z) : Async unit :=
  fun w =>
    let timestamps := default ∅ (cooldowns w !! commandName) in
    (Returns tt,
     with_cooldowns (<[commandName := <[cooldownKey := now]> timestamps]> (cooldowns w)) w).

(** [this.cooldowns.get(commandName) || new Collection()] *)
Definition cooldowns_get (commandName : string) : Async (gmap string Z) :=
  fun w => (Returns (default ∅ (cooldowns w !! commandName)), w).

(** The [try { await command.execute(interaction) } catch ...] that ends
    [handleInteraction]. *)
Definition dispatch (command : SlashCommand) (interaction : Interaction) : Async unit :=
  try_catch
    (execute command interaction)
    (fun error =>
       logger_error ("Error executing command " +:+ commandName interaction +:+ ":") ;;;
       let reply := Text "There was an error while executing this command!" in
       b <- replied_or_deferred interaction ;;
       if b then interaction_followUp interaction reply true
       else interaction_reply interaction reply true).

Definition handleInteraction (commands : list SlashCommand) (interaction : Interaction)
    : Async unit :=
  match commands_get commands (commandName interaction) with
  | None =>
      logger_warn ("Unknown command: " +:+ commandName interaction) ;;;
      interaction_reply interaction
        (Text "Unknown command. Use `/help` to see available commands.") true
  | Some command =>
      if truthy_number (cooldown command) then
        let cooldownKey := cooldown_key interaction in
        now <- Date_now ;;
        timestamps <- cooldowns_get (commandName interaction) ;;
        let cooldownAmount := default 0 (cooldown command) * 1000 in
        match timestamps !! cooldownKey with
        | Some last =>
            let expirationTime := last + cooldownAmount in
            if Z.ltb now expirationTime then
              interaction_reply interaction (PleaseWait (expirationTime - now)) true
            else
              cooldowns_record (commandName interaction) cooldownKey now ;;;
              dispatch command interaction
        | None =>
            cooldowns_record (commandName interaction) cooldownKey now ;;;
            dispatch command interaction
        end
      else dispatch command interaction
  end.

Definition handleChatCommand (interaction : Interaction) : Async unit :=
  message <- getString_required "message" interaction ;;
  priv <- getBoolean "private" interaction ;;
  let isPrivate := default false priv in
  interaction_deferReply interaction isPrivate ;;;
  try_catch
    (context <- getContext (ix_user interaction) (ix_channelId interaction) ;;
     now <- Date_now ;;
     let context := begin_turn Slash now (user_turn message now Slash) context in
     response <- processMessage message context ;;
     now <- Date_now ;;
     let context := push_turn (assistant_turn response now Slash) context in
     updateContext context ;;;
     interaction_editReply interaction (Text (content response)) ;;;
     logger_info ("Chat command executed for user " +:+ ix_user interaction))
    (fun error =>
       logger_error "Error in chat command:" ;;;
       interaction_editReply interaction
         (Text "Sorry, I encountered an error processing your message. Please try again.")).

Definition handleReminderCommand (interaction : Interaction) : Async unit :=
  message <- getString_required "message" interaction ;;
  timeString <- getString_required "time" interaction ;;
  interaction_deferReply interaction true ;;;
  try_catch
    (context <- getContext (ix_user interaction) (ix_channelId interaction) ;;
     let reminderPrompt :=
       "Create a reminder for: " +:+ dq +:+ message +:+ dq +:+ " at time: " +:+ dq
         +:+ timeString +:+ dq
         +:+ ". Parse the time and return a JSON response with the scheduled time." in
     response <- processMessage reminderPrompt context ;;
     interaction_editReply interaction
       (Text ("✅ Reminder set: " +:+ dq +:+ message +:+ dq +:+ " - "
              +:+ content response)) ;;;
     logger_info ("Reminder command executed for user " +:+ ix_user interaction))
    (fun error =>
       logger_error "Error in reminder command:" ;;;
       interaction_editReply interaction
         (Text "Sorry, I encountered an error setting your reminder. Please try again.")).

Definition handleTimeCommand (interaction : Interaction) : Async unit :=
  timezone <- getString "timezone" interaction ;;
  try_catch
    (context <- getContext (ix_user interaction) (ix_channelId interaction) ;;
     let timePrompt :=
       match timezone with
       | Some tz =>
           if truthy_string tz then "What is the current time in " +:+ tz +:+ "?"
           else "What is the current time?"
       | None => "What is the current time?"
       end in
     response <- processMessage timePrompt context ;;
     interaction_reply interaction (Text (content response)) false)
    (fun error =>
       logger_error "Error in time command:" ;;;
       interaction_reply interaction
         (Text "Sorry, I encountered an error getting the time. Please try again.") true).

Definition handleWeatherCommand (interaction : Interaction) : Async unit :=
  location <- getString_required "location" interaction ;;
  u <- getString "units" interaction ;;
  let units := or_string u "metric" in
  interaction_deferReply interaction false ;;;
  try_catch
    (context <- getContext (ix_user interaction) (ix_channelId interaction) ;;
     let weatherPrompt :=
       "What's the weather like in " +:+ location +:+ "? Use " +:+ units +:+ " units." in
     response <- processMessage weatherPrompt context ;;
     interaction_editReply interaction (Text (content response)))
    (fun error =>
       logger_error "Error in weather command:" ;;;
       interaction_editReply interaction
         (Text "Sorry, I encountered an error getting the weather. Please try again.")).

(** [handleHelpCommand] reads the names and descriptions of [this.commands]. *)
Definition handleHelpCommand (registered : list (string * string))
    (interaction : Interaction) : Async unit :=
  specificCommand <- getString "command" interaction ;;
  match specificCommand with
  | Some specific =>
      if truthy_string specific then
        match list_find (fun c => fst c = specific) registered with
        | Some (_, (name, description)) =>
            interaction_reply interaction
              (Text ("**/" +:+ name +:+ "**" +:+ nl +:+ description +:+ nl +:+ nl
                     +:+ "**Usage:**" +:+ nl +:+ "`/" +:+ name +:+ "`")) true
        | None =>
            interaction_reply interaction
              (Text ("Command " +:+ dq +:+ "/" +:+ specific +:+ dq
                     +:+ " not found. Use `/help` to see all available commands.")) true
        end
      else
        interaction_reply interaction
          (Text ("**Available Commands:**" +:+ nl +:+ nl
                 +:+ join nl (map (fun c => "**/" +:+ fst c +:+ "** - " +:+ snd c) registered)
                 +:+ nl +:+ nl
                 +:+ "Use `/help <command>` for detailed information about a specific command."))
          true
  | None =>
      interaction_reply interaction
        (Text ("**Available Commands:**" +:+ nl +:+ nl
               +:+ join nl (map (fun c => "**/" +:+ fst c +:+ "** - " +:+ snd c) registered)
               +:+ nl +:+ nl
               +:+ "Use `/help <command>` for detailed information about a specific command."))
        true
  end.

Definition yes_no (b : bool) : string := if b then "Yes" else "No".
Definition enabled_disabled (b : bool) : string := if b then "Enabled" else "Disabled".

(** The whole preferences object passed where a [Partial] is expected. *)
Definition whole (p : UserPreferences) : PartialUserPreferences :=
  {| p_language := Some (language p); p_voiceModel := voiceModel p;
     p_textModel := Some (textModel p); p_autoJoinVoice := Some (autoJoinVoice p);
     p_notificationSettings := Some (notificationSettings p) |}.

Definition handleSettingsCommand (interaction : Interaction) : Async unit :=
  subcommand <- getSubcommand interaction ;;
  if String.eqb subcommand "view" then
    try_catch
      (preferences <- getUserPreferences (ix_user interaction) ;;
       let settingsText :=
         "**Your Settings:**" +:+ nl
         +:+ "• Language: " +:+ language preferences +:+ nl
         +:+ "• Text Model: " +:+ textModel preferences +:+ nl
         +:+ "• Auto-join Voice: " +:+ yes_no (autoJoinVoice preferences) +:+ nl
         +:+ "• Reminders: "
         +:+ enabled_disabled (reminders (notificationSettings preferences)) +:+ nl
         +:+ "• Mentions: "
         +:+ enabled_disabled (mentions (notificationSettings preferences)) +:+ nl
         +:+ "• DMs: " +:+ enabled_disabled (dms (notificationSettings preferences)) in
       interaction_reply interaction (Text settingsText) true)
      (fun error =>
         logger_error "Error viewing settings:" ;;;
         interaction_reply interaction
           (Text "Sorry, I encountered an error loading your settings.") true)
  else if String.eqb subcommand "update" then
    lang <- getString "language" interaction ;;
    autoJoin <- getBoolean "auto_join_voice" interaction ;;
    try_catch
      (preferences <- getUserPreferences (ix_user interaction) ;;
       let preferences :=
         {| language := or_string lang (language preferences);
            voiceModel := voiceModel preferences;
            textModel := textModel preferences;
            autoJoinVoice := default (autoJoinVoice preferences) autoJoin;
            notificationSettings := notificationSettings preferences |} in
       updateUserPreferences (ix_user interaction) (whole preferences) ;;;
       interaction_reply interaction (Text "✅ Your settings have been updated!") true)
      (fun error =>
         logger_error "Error updating settings:" ;;;
         interaction_reply interaction
           (Text "Sorry, I encountered an error updating your settings.") true)
  else ret tt.

Definition handleAskCommand (interaction : Interaction) : Async unit :=
  question <- getString_required "question" interaction ;;
  interaction_deferReply interaction false ;;;
  try_catch
    (context <- getContext (ix_user interaction) (ix_channelId interaction) ;;
     now <- Date_now ;;
     let context := begin_turn Slash now (user_turn question now Slash) context in
     response <- processMessage question context ;;
     now <- Date_now ;;
     let context := push_turn (assistant_turn response now Slash) context in
     updateContext context ;;;
     interaction_editReply interaction (Text (content response)) ;;;
     logger_info ("Ask command executed for user " +:+ ix_user interaction))
    (fun error =>
       logger_error "Error in ask command:" ;;;
       interaction_editReply interaction
         (Text "Sorry, I encountered an error processing your question. Please try again.")).

Definition handleSearchCommand (interaction : Interaction) : Async unit :=
  query <- getString_required "query" interaction ;;
  interaction_deferReply interaction false ;;;
  try_catch
    (context <- getContext (ix_user interaction) (ix_channelId interaction) ;;
     now <- Date_now ;;
     let context := begin_turn Slash now (user_turn query now Slash) context in
     response <- processMessage query context ;;
     now <- Date_now ;;
     let context := push_turn (assistant_turn response now Slash) context in
     updateContext context ;;;
     interaction_editReply interaction (Text (content response)) ;;;
     logger_info ("Search command executed for user " +:+ ix_user interaction))
    (fun error =>
       logger_error "Error in search command:" ;;;
       interaction_editReply interaction
         (Text "Sorry, I encountered an error processing your search. Please try again.")).

(** The names and descriptions registered by [loadCommands], in the order
    of the [this.commands.set] calls. *)
Definition registered : list (string * string) :=
  [ ("chat", "Start a conversation with the AI");
    ("remind", "Set a reminder");
    ("time", "Get current time information");
    ("weather", "Get weather information");
    ("help", "Show available commands and their usage");
    ("settings", "Manage your bot preferences");
    ("ask", "Ask the AI a question");
    ("search", "Search the web") ].

Definition loadCommands : list SlashCommand :=
  [ {| cmd_name := "chat"; cmd_description := "Start a conversation with the AI";
       execute := handleChatCommand; cooldown := Some 3 |};
    {| cmd_name := "remind"; cmd_description := "Set a reminder";
       execute := handleReminderCommand; cooldown := Some 5 |};
    {| cmd_name := "time"; cmd_description := "Get current time information";
       execute := handleTimeCommand; cooldown := Some 1 |};
    {| cmd_name := "weather"; cmd_description := "Get weather information";
       execute := handleWeatherCommand; cooldown := Some 5 |};
    {| cmd_name := "help"; cmd_description := "Show available commands and their usage";
       execute := handleHelpCommand registered; cooldown := Some 1 |};
    {| cmd_name := "settings"; cmd_description := "Manage your bot preferences";
       execute := handleSettingsCommand; cooldown := Some 2 |};
    {| cmd_name := "ask"; cmd_description := "Ask the AI a question";
       execute := handleAskCommand; cooldown := Some 3 |};
    {| cmd_name := "search"; cmd_description := "Search the web";
       execute := handleSearchCommand; cooldown := Some 5 |} ].

End SlashCommandHandler.

(* ===================================================================== *)
(** ** Strings, as the message router cuts them                           *)
(* ===================================================================== *)

(** A JavaScript string is held as the bytes of its UTF-8 encoding.  The
    patterns of the router look at characters, so a string is first cut
    into its characters: a byte that is not a continuation byte
    ([10xxxxxx]), with the continuation bytes that follow it. *)
Definition is_continuation (c : ascii) : bool :=
  let n := nat_of_ascii c in
  Nat.leb 128 n && Nat.ltb n 192.

Fixpoint characters_of (s : list ascii) : list (list ascii) :=
  match s with
  | [] => []
  | c :: s' =>
      match characters_of s' with
      | (d :: g) :: rest =>
          if is_continuation d then (c :: d :: g) :: rest else [c] :: (d :: g) :: rest
      | rest => [c] :: rest
      end
  end.

Definition characters (s : string) : list (list ascii) :=
  characters_of (list_ascii_of_string s).

Definition string_of_characters (cs : list (list ascii)) : string :=
  string_of_list_ascii (concat cs).

(** The UTF-8 bytes of a code point of the Basic Multilingual Plane. *)
Definition utf8 (n : N) : list ascii :=
  if N.ltb n 128 then [ascii_of_N n]
  else if N.ltb n 2048 then
    [ascii_of_N (192 + n / 64); ascii_of_N (128 + n mod 64)]
  else
    [ascii_of_N (224 + n / 4096); ascii_of_N (128 + (n / 64) mod 64);
     ascii_of_N (128 + n mod 64)].

(** [WhiteSpace] and [LineTerminator] of ECMAScript: tab, vertical tab,
    form feed, the byte order mark [U+FEFF] and the space separators of
    Unicode ([U+0020], [U+00A0], [U+1680], [U+2000] to [U+200A], [U+202F],
    [U+205F], [U+3000]); line feed, carriage return, [U+2028], [U+2029]. *)
Definition WhiteSpace : list N :=
  [ 9; 11; 12; 65279; 32; 160; 5760; 8192; 8193; 8194; 8195; 8196; 8197; 8198;
    8199; 8200; 8201; 8202; 8239; 8287; 12288 ]%N.

Definition LineTerminator : list N := [ 10; 13; 8232; 8233 ]%N.

(** [\s]: white space and line terminators. *)
Definition is_space (ch : list ascii) : bool :=
  bool_decide (ch ∈ map utf8 (WhiteSpace ++ LineTerminator)).

(** The characters [.] does not match. *)
Definition is_line_terminator (ch : list ascii) : bool :=
  bool_decide (ch ∈ map utf8 LineTerminator).

(** [\w]: the letters and digits of ASCII and the underscore. *)
Definition is_word (ch : list ascii) : bool :=
  match ch with
  | [c] =>
      let n := nat_of_ascii c in
      (Nat.leb 48 n && Nat.leb n 57) || (Nat.leb 65 n && Nat.leb n 90)
      || (Nat.leb 97 n && Nat.leb n 122) || Nat.eqb n 95
  | _ => false
  end.

Definition lower_ascii (c : ascii) : ascii :=
  let n := nat_of_ascii c in
  if Nat.leb 65 n && Nat.leb n 90 then ascii_of_nat (n + 32) else c.

(** [String.prototype.toLowerCase] on what the router gives it: the word
    that [\w+] matched in [isCommand], and the first token of a content
    that [isCommand] accepted, which is that word (see
    [isCommand_first_token]).  Both are made of ASCII letters, digits and
    underscores, where the letters [A] to [Z] are all that changes. *)
Definition toLowerCase (s : string) : string :=
  string_of_list_ascii (map lower_ascii (list_ascii_of_string s)).

Fixpoint drop_spaces (s : list (list ascii)) : list (list ascii) :=
  match s with
  | c :: s' => if is_space c then drop_spaces s' else s
  | [] => []
  end.

(** [String.prototype.trim]: white space and line terminators are removed
    at both ends. *)
Definition trim (s : string) : string :=
  string_of_characters (rev (drop_spaces (rev (drop_spaces (characters s))))).

(** [s.slice(n)], for an [n] that falls between two characters: the
    sources slice at the length of a prefix the string starts with. *)
Definition slice_from (n : nat) (s : string) : string :=
  string_of_list_ascii (skipn n (list_ascii_of_string s)).

(** [s.startsWith(p)] *)
Definition startsWith (s p : string) : bool := String.prefix p s.

Fixpoint split_spaces_from (cur : list (list ascii)) (in_separator : bool)
    (s : list (list ascii)) : list string :=
  match s with
  | [] => [string_of_characters (rev cur)]
  | c :: s' =>
      if is_space c then
        if in_separator then split_spaces_from cur true s'
        else string_of_characters (rev cur) :: split_spaces_from [] true s'
      else split_spaces_from (c :: cur) false s'
  end.

(** [s.split(/\s+/)] *)
Definition split_spaces (s : string) : list string :=
  split_spaces_from [] false (characters s).

Fixpoint strip_prefix (p s : list ascii) : option (list ascii) :=
  match p, s with
  | [], _ => Some s
  | a :: p', b :: s' => if Ascii.eqb a b then strip_prefix p' s' else None
  | _ :: _, [] => None
  end.

(** The pattern [^(\w+)(?:\s+(.+))?$] of [isCommand], piece by piece. *)
Fixpoint take_word (s : list (list ascii)) : list (list ascii) * list (list ascii) :=
  match s with
  | c :: s' =>
      if is_word c then let (w, rest) := take_word s' in (c :: w, rest) else ([], s)
  | [] => ([], [])
  end.

(** [\s+(.+)$]: one or more spaces, then one or more characters up to the
    end, none of them a line terminator. *)
Fixpoint spaces_then_rest (s : list (list ascii)) : bool :=
  match s with
  | c :: s' =>
      is_space c
      && ((negb (Nat.eqb (length s') 0) && forallb (fun x => negb (is_line_terminator x)) s')
          || spaces_then_rest s')
  | [] => false
  end.

(** [content.match(commandPattern)]: the first group of a match. *)
Definition commandPattern_match (content : string) : option string :=
  let (w, rest) := take_word (characters content) in
  match w with
  | [] => None
  | _ :: _ =>
      match rest with
      | [] => Some (string_of_characters w)
      | _ :: _ => if spaces_then_rest rest then Some (string_of_characters w) else None
      end
  end.

(* ===================================================================== *)
(** ** MessageHandler (bot/src/handlers/messages.ts)                      *)
(* ===================================================================== *)

Module MessageHandler.

Definition validCommands : list string :=
  [ "help"; "ping"; "info"; "status"; "clear"; "reset";
    "remind"; "time"; "weather"; "search"; "translate" ].

Definition isCommand (content : string) : bool :=
  match commandPattern_match content with
  | None => false
  | Some word =>
      let command := toLowerCase word in
      if truthy_string command then bool_decide (command ∈ validCommands) else false
  end.

Section Configuration.

(** [process.env.BOT_PREFIX || '!'] and the id interpolated in
    [MENTION_PATTERN] when the handler is built. *)
Variable BOT_PREFIX : string.
Variable clientUserId : string.

(** [^<@!?ID>\s*]: what is left of the content after the match. *)
Definition MENTION_PATTERN_match (content : string) : option string :=
  let close := list_ascii_of_string (clientUserId +:+ ">") in
  rest ← strip_prefix (list_ascii_of_string "<@") (list_ascii_of_string content) ;
  let after :=
    match strip_prefix (list_ascii_of_string "!") rest ≫= strip_prefix close with
    | Some r => Some r
    | None => strip_prefix close rest
    end in
  r ← after ; Some (string_of_characters (drop_spaces (characters_of r))).

Definition handleHelpCommand (message : DiscordMessage) (args : string)
    : Async unit :=
  let helpText :=
    "**Available Commands:**" +:+ nl +:+ nl
    +:+ "**Conversation:**" +:+ nl
    +:+ "• Mention me or use `" +:+ BOT_PREFIX +:+ "` prefix to chat" +:+ nl
    +:+ "• I can help with questions, tasks, and more!" +:+ nl +:+ nl
    +:+ "**Utility Commands:**" +:+ nl
    +:+ "• `" +:+ BOT_PREFIX +:+ "ping` - Check if I'm responsive" +:+ nl
    +:+ "• `" +:+ BOT_PREFIX +:+ "info` - Get bot information" +:+ nl
    +:+ "• `" +:+ BOT_PREFIX +:+ "status` - Check service status" +:+ nl
    +:+ "• `" +:+ BOT_PREFIX +:+ "clear` - Clear conversation history" +:+ nl +:+ nl
    +:+ "**Tool Commands:**" +:+ nl
    +:+ "• `" +:+ BOT_PREFIX +:+ "remind <message> <time>` - Set a reminder" +:+ nl
    +:+ "• `" +:+ BOT_PREFIX +:+ "time [timezone]` - Get current time" +:+ nl
    +:+ "• `" +:+ BOT_PREFIX +:+ "weather <location>` - Get weather info" +:+ nl
    +:+ "• `" +:+ BOT_PREFIX +:+ "search <query>` - Web search" +:+ nl
    +:+ "• `" +:+ BOT_PREFIX +:+ "translate <text> [language]` - Translate text"
    +:+ nl +:+ nl
    +:+ "**Voice:**" +:+ nl
    +:+ "• Join a voice channel and I'll join you for voice conversations!"
    +:+ nl +:+ nl
    +:+ "For more detailed help, use `/help` (slash command)." in
  message_reply message (Text helpText).

Definition handlePingCommand (message : DiscordMessage) : Async unit :=
  message_reply message (Text "Pinging...") ;;;
  emit (MessageEdit (m_id message) Pong).

Definition handleInfoCommand (message : DiscordMessage) : Async unit :=
  message_reply message BotInformation.

Definition handleStatusCommand (message : DiscordMessage) : Async unit :=
  try_catch
    (griptapeStatus <- getStatus ;;
     context <- getContext (m_author message) (m_channelId message) ;;
     message_reply message
       (StatusReport (status griptapeStatus) (length (history context))))
    (fun error =>
       logger_error "Error getting status:" ;;;
       message_reply message (Text "Sorry, I encountered an error getting the status.")).

Definition handleClearCommand (message : DiscordMessage) : Async unit :=
  try_catch
    (clearContext (m_author message) (m_channelId message) ;;;
     message_reply message (Text "✅ Your conversation history has been cleared!"))
    (fun error =>
       logger_error "Error clearing context:" ;;;
       message_reply message
         (Text "Sorry, I encountered an error clearing your history.")).

Definition handleRemindCommand (message : DiscordMessage) (args : string) : Async unit :=
  if negb (truthy_string args) then
    message_reply message
      (Text ("Usage: `" +:+ BOT_PREFIX +:+ "remind <message> <time>`" +:+ nl
             +:+ "Example: `" +:+ BOT_PREFIX +:+ "remind call mom tomorrow at 2pm`"))
  else
    try_catch
      (context <- getContext (m_author message) (m_channelId message) ;;
       let reminderPrompt :=
         "Create a reminder for: " +:+ dq +:+ args +:+ dq
         +:+ ". Parse the time and return a JSON response with the scheduled time." in
       response <- processMessage reminderPrompt context ;;
       message_reply message (Text ("✅ Reminder set: " +:+ content response)))
      (fun error =>
         logger_error "Error setting reminder:" ;;;
         message_reply message
           (Text "Sorry, I encountered an error setting your reminder.")).

Definition handleTimeCommand (message : DiscordMessage) (args : string)
    : Async unit :=
  try_catch
    (context <- getContext (m_author message) (m_channelId message) ;;
     let timePrompt :=
       if truthy_string args then "What is the current time in " +:+ args +:+ "?"
       else "What is the current time?" in
     response <- processMessage timePrompt context ;;
     message_reply message (Text (content response)))
    (fun error =>
       logger_error "Error getting time:" ;;;
       message_reply message (Text "Sorry, I encountered an error getting the time.")).

Definition handleWeatherCommand (message : DiscordMessage) (args : string)
    : Async unit :=
  if negb (truthy_string args) then
    message_reply message
      (Text ("Usage: `" +:+ BOT_PREFIX +:+ "weather <location>`" +:+ nl
             +:+ "Example: `" +:+ BOT_PREFIX +:+ "weather San Francisco`"))
  else
    try_catch
      (context <- getContext (m_author message) (m_channelId message) ;;
       let weatherPrompt := "What's the weather like in " +:+ args +:+ "?" in
       response <- processMessage weatherPrompt context ;;
       message_reply message (Text (content response)))
      (fun error =>
         logger_error "Error getting weather:" ;;;
         message_reply message
           (Text "Sorry, I encountered an error getting the weather.")).

Definition handleSearchCommand (message : DiscordMessage) (args : string)
    : Async unit :=
  if negb (truthy_string args) then
    message_reply message
      (Text ("Usage: `" +:+ BOT_PREFIX +:+ "search <query>`" +:+ nl
             +:+ "Example: `" +:+ BOT_PREFIX +:+ "search latest AI news`"))
  else
    try_catch
      (context <- getContext (m_author message) (m_channelId message) ;;
       let searchPrompt :=
         "Search for: " +:+ dq +:+ args +:+ dq
         +:+ ". Provide a summary of the most relevant results." in
       response <- processMessage searchPrompt context ;;
       message_reply message (Text (content response)))
      (fun error =>
         logger_error "Error performing search:" ;;;
         message_reply message
           (Text "Sorry, I encountered an error performing the search.")).

Definition handleTranslateCommand (message : DiscordMessage) (args : string)
    : Async unit :=
  if negb (truthy_string args) then
    message_reply message
      (Text ("Usage: `" +:+ BOT_PREFIX +:+ "translate <text> [language]`" +:+ nl
             +:+ "Example: `" +:+ BOT_PREFIX +:+ "translate Hello world Spanish`"))
  else
    try_catch
      (context <- getContext (m_author message) (m_channelId message) ;;
       let translatePrompt :=
         "Translate: " +:+ dq +:+ args +:+ dq
         +:+ ". If a target language is specified, translate to that language. Otherwise, detect the language and translate to English." in
       response <- processMessage translatePrompt context ;;
       message_reply message (Text (content response)))
      (fun error =>
         logger_error "Error translating:" ;;;
         message_reply message (Text "Sorry, I encountered an error translating the text.")).

Definition handleCommandMessage (message : DiscordMessage) (content : string)
    : Async unit :=
  let parts := split_spaces content in
  let command := toLowerCase (hd "" parts) in
  if negb (truthy_string command) then ret tt
  else
    let args := join " " (tl parts) in
    try_catch
      (if String.eqb command "help" then handleHelpCommand message args
       else if String.eqb command "ping" then handlePingCommand message
       else if String.eqb command "info" then handleInfoCommand message
       else if String.eqb command "status" then handleStatusCommand message
       else if String.eqb command "clear" || String.eqb command "reset"
            then handleClearCommand message
       else if String.eqb command "remind" then handleRemindCommand message args
       else if String.eqb command "time" then handleTimeCommand message args
       else if String.eqb command "weather" then handleWeatherCommand message args
       else if String.eqb command "search" then handleSearchCommand message args
       else if String.eqb command "translate" then handleTranslateCommand message args
       else
         message_reply message
           (Text ("Unknown command: `" +:+ command +:+ "`. Use `" +:+ BOT_PREFIX
                  +:+ "help` to see available commands.")))
      (fun error =>
         logger_error ("Error handling command message: " +:+ command) ;;;
         message_reply message
           (Text "Sorry, I encountered an error processing your command. Please try again.")).

Definition handleConversationMessage (message : DiscordMessage) (text : string)
    : Async unit :=
  try_catch
    ((if m_canSendTyping message then emit (SendTyping (m_channelId message))
      else ret tt) ;;;
     context <- getContext (m_author message) (m_channelId message) ;;
     now <- Date_now ;;
     let context := begin_turn Message now (user_turn text now Message) context in
     response <- processMessage text context ;;
     now <- Date_now ;;
     let context := push_turn (assistant_turn response now Message) context in
     updateContext context ;;;
     message_reply message (Text (content response)) ;;;
     logger_info ("Conversation message processed for user " +:+ m_author message))
    (fun error =>
       logger_error "Error in conversation message:" ;;;
       message_reply message
         (Text "Sorry, I encountered an error processing your message. Please try again.")).

Definition handleMessage (message : DiscordMessage) : Async unit :=
  if m_author_bot message || negb (truthy_string (m_content message)) then ret tt
  else if bool_decide (m_guild message = Some false) then ret tt
  else
    let isMentioned := MENTION_PATTERN_match (m_content message) in
    let isPrefixed := startsWith (m_content message) BOT_PREFIX in
    let isDM := m_isDM message in
    if negb (bool_decide (is_Some isMentioned)) && negb isPrefixed && negb isDM then ret tt
    else
      let content :=
        match isMentioned with
        | Some rest => trim rest
        | None =>
            if isPrefixed
            then trim (slice_from (String.length BOT_PREFIX) (m_content message))
            else m_content message
        end in
      if negb (truthy_string content) then ret tt
      else if isCommand content then handleCommandMessage message content
      else handleConversationMessage message content.

End Configuration.

End MessageHandler.

(* ===================================================================== *)
(** ** More of the services: cache management, the stream              *)
(* ===================================================================== *)

(** The patterns of [redis.keys]: [*] stands for any run of characters.
    Redis also reads [?], [[] and [\] in a pattern; the patterns of the
    service are built from user ids, which have none of them. *)
Definition star : ascii := ascii_of_nat 42.

Fixpoint glob (pattern s : string) {struct pattern} : bool :=
  match pattern with
  | EmptyString => match s with EmptyString => true | String _ _ => false end
  | String c p' =>
      if Ascii.eqb c star then
        (fix any (s : string) : bool :=
           glob p' s || match s with EmptyString => false | String _ s' => any s' end) s
      else
        match s with
        | String d s' => Ascii.eqb c d && glob p' s'
        | EmptyString => false
        end
  end.

(** An id with none of the characters a pattern reads. *)
Fixpoint glob_plain (s : string) : bool :=
  match s with
  | EmptyString => true
  | String a s' =>
      negb (Ascii.eqb a star) && negb (Ascii.eqb a (ascii_of_nat 63))
      && negb (Ascii.eqb a (ascii_of_nat 91)) && negb (Ascii.eqb a (ascii_of_nat 92))
      && glob_plain s'
  end.

(** The keys that have not expired at instant [now] and match. *)
Definition keys_matching (pattern : string) (now : Z) (m : gmap string RedisEntry)
    : list string :=
  omap (fun ke : string * RedisEntry =>
          match live now (snd ke) with
          | Some _ => if glob pattern (fst ke) then Some (fst ke) else None
          | None => None
          end)
       (map_to_list m).

(** [redis.keys(pattern)] *)
Definition redis_keys (pattern : string) : Async (list string) :=
  redis_call (fun w => (keys_matching pattern (clock w) (redis w), w)).

(** [redis.del(keys)] *)
Definition redis_del_keys (keys : list string) : Async unit :=
  redis_call (fun w => (tt, with_redis (foldr delete (redis w) keys) w)).

(** [clearUserCache]: the keys are asked for and, when there are any,
    deleted in one call. *)
Definition clearUserCache (userId : string) : Async unit :=
  try_catch
    (keys <- redis_keys ("*:" +:+ userId +:+ ":*") ;;
     (if Nat.ltb 0 (length keys) then redis_del_keys keys else ret tt) ;;;
     logger_info ("Cleared cache for user " +:+ userId))
    (fun error => logger_error "Error clearing user cache:" ;;; throw error).

(** What [getCacheStats] returns. *)
Record CacheStats := {
  totalKeys : nat;
  contextKeys : nat;
  preferenceKeys : nat
}.

Definition getCacheStats : Async CacheStats :=
  try_catch
    (keys <- redis_keys "*" ;;
     contextKeys <- redis_keys "context:*" ;;
     preferenceKeys <- redis_keys "preferences:*" ;;
     ret {| totalKeys := length keys;
            contextKeys := length contextKeys;
            preferenceKeys := length preferenceKeys |})
    (fun error => logger_error "Error getting cache stats:" ;;; throw error).

(** [chunk.toString().split('\n')] *)
Fixpoint split_lines_from (cur : list ascii) (s : list ascii) : list string :=
  match s with
  | [] => [string_of_list_ascii (rev cur)]
  | c :: s' =>
      if Ascii.eqb c (ascii_of_nat 10)
      then string_of_list_ascii (rev cur) :: split_lines_from [] s'
      else split_lines_from (c :: cur) s'
  end.

Definition split_lines (s : string) : list string :=
  split_lines_from [] (list_ascii_of_string s).

(** JavaScript truthiness of a JSON value. *)
Definition truthy_json (j : json) : bool :=
  match j with
  | JNull => false
  | JBool b => b
  | JNum n => negb (Z.eqb n 0)
  | JStr s => truthy_string s
  | JArr _ => true
  | JObj _ => true
  end.

(** The property of a parsed object: of two fields of one name,
    [JSON.parse] keeps the last. *)
Fixpoint json_field (name : string) (fields : list (string * json)) : option json :=
  match fields with
  | [] => None
  | (k, v) :: rest =>
      match json_field name rest with
      | Some v' => Some v'
      | None => if String.eqb k name then Some v else None
      end
  end.

(** [parsed.content || '']: reading a property of [null] throws ([None]);
    numbers, strings, booleans and arrays have no [content]. *)
Definition content_or_empty (parsed : json) : option json :=
  match parsed with
  | JNull => None
  | JObj fields =>
      match json_field "content" fields with
      | Some v => Some (if truthy_json v then v else JStr "")
      | None => Some (JStr "")
      end
  | _ => Some (JStr "")
  end.

Section Stream.

(** [JSON.parse]: the value, or [None] for a [SyntaxError]. *)
Variable JSON_parse : string -> option json.

(** One line of a chunk: [None] when the generator returns, else what it
    yields. *)
Definition stream_line (line : string) : option (list json) :=
  if startsWith line "data: " then
    let data := slice_from 6 line in
    if String.eqb data "[DONE]" then None
    else
      match JSON_parse data ≫= content_or_empty with
      | Some v => Some [v]
      | None => Some []
      end
  else Some [].

(** The lines of one chunk: what is yielded, and whether the generator
    returned. *)
Fixpoint stream_lines (lines : list string) : list json * bool :=
  match lines with
  | [] => ([], false)
  | line :: rest =>
      match stream_line line with
      | None => ([], true)
      | Some ys => let (zs, finished) := stream_lines rest in ((ys ++ zs)%list, finished)
      end
  end.

(** [createStreamIterator(stream)]: the values yielded over a stream that
    delivers [chunks] and ends. *)
Fixpoint createStreamIterator (chunks : list string) : list json :=
  match chunks with
  | [] => []
  | chunk :: rest =>
      let (ys, finished) := stream_lines (split_lines chunk) in
      if finished then ys else (ys ++ createStreamIterator rest)%list
  end.

End Stream.

(* ===================================================================== *)
(** ** Vocabulary of the statements                                       *)
(* ===================================================================== *)

(** The cache is available: no coming Redis call rejects. *)
Definition redis_up (w : World) : Prop :=
  Forall (fun f => f = None) (redis_faults w).

(** The durable store is available. *)
Definition pg_up (w : World) : Prop :=
  Forall (fun f => f = None) (pg_faults w).

(** What the cache holds under [key] now. *)
Definition cached (key : string) (w : World) : option JsonText :=
  redis w !! key ≫= live (clock w).

(** The requests sent to the text service, most recent first. *)
Fixpoint http_requests (t : list Event) : list HttpRequest :=
  match t with
  | Http rq :: t' => rq :: http_requests t'
  | _ :: t' => http_requests t'
  | [] => []
  end.

(** The rows of the durable store and the entries of the cache. *)
Definition same_stores (w w' : World) : Prop :=
  redis w' = redis w /\ users w' = users w
  /\ conversation_contexts w' = conversation_contexts w.

(** The preferences a user has now: the cached ones, else the stored
    ones, else the defaults. *)
Definition current_preferences (u : string) (w : World) : UserPreferences :=
  match cached (preferences_key u) w with
  | Some (JsonPreferences p) => p
  | Some (JsonContext _) => defaultPreferences
  | None =>
      match hd None (pg_faults w) with
      | Some _ => defaultPreferences
      | None => default defaultPreferences (users w !! u)
      end
  end.

(** The context built on a cache miss. *)
Definition new_context (u c : string) (p : UserPreferences) (now : Date)
    : ConversationContext :=
  {| userId := u; guildId := None; channelId := c; interactionType := Message;
     history := []; tools := []; preferences := p; timestamp := now |}.

(** A context with two turns, for the worked examples. *)
Definition sample_context : ConversationContext :=
  {| userId := "u1"; guildId := Some "g1"; channelId := "c1";
     interactionType := Slash;
     history :=
       [ {| msg_role := User; msg_content := "hello"; msg_timestamp := 1000;
            msg_metadata := Some {| md_tools := None;
                                    md_interactionType := Some Slash |} |};
         {| msg_role := Assistant; msg_content := "hi there"; msg_timestamp := 1200;
            msg_metadata := Some {| md_tools := None;
                                    md_interactionType := Some Slash |} |} ];
     tools := ["web_search"]; preferences := defaultPreferences;
     timestamp := 1200 |}.

(** A fresh default context for the pair. *)
Definition fresh_context (u c : string) (ctx : ConversationContext) : Prop :=
  userId ctx = u /\ channelId ctx = c /\ guildId ctx = None
  /\ history ctx = [] /\ tools ctx = [] /\ interactionType ctx = Message.

(** A user who chose Spanish with [/settings update]: the only stored
    state is the cached preferences written by [updateUserPreferences]. *)
Definition spanish : PartialUserPreferences :=
  {| p_language := Some "es"; p_voiceModel := None; p_textModel := None;
     p_autoJoinVoice := None; p_notificationSettings := None |}.

Definition world_of_spanish_user : World :=
  snd (updateUserPreferences "u1" spanish (empty_world 0)).

(** Worlds whose next durable query, or next cache call, rejects. *)
Definition connection_refused : Error := Err "connect ECONNREFUSED".

Definition world_pg_down : World :=
  with_pg_faults [Some connection_refused] (empty_world 0).

Definition world_redis_down : World :=
  with_redis_faults [Some connection_refused; Some connection_refused] (empty_world 0).

(** The world left by saving the sample context: both stores hold it. *)
Definition world_with_sample : World :=
  snd (updateContext sample_context (empty_world 0)).

(** A user with a row in [users], who chose Spanish. *)
Definition world_of_stored_user : World :=
  with_users {["u2" := merge_preferences defaultPreferences spanish]} (empty_world 0).

(** A stored user whose row cannot be read: the durable store is down. *)
Definition world_stored_user_pg_down : World :=
  with_pg_faults [Some connection_refused]
    (with_users {["u2" := merge_preferences defaultPreferences spanish]} (empty_world 0)).

(** How the next call of a script ends. *)
Definition next_outcome {A} (script : list (HttpOutcome A)) : Error + A :=
  match script with
  | o :: _ => outcome o
  | [] => inl timeout_error
  end.

(** The body [processMessage] posts. *)
Definition process_body (message : string) (ctx : ConversationContext) : ProcessRequest :=
  {| rq_message := message; rq_userId := userId ctx; rq_guildId := guildId ctx;
     rq_channelId := channelId ctx; rq_interactionType := interactionType ctx;
     rq_history := slice_last 10 (history ctx); rq_tools := tools ctx;
     rq_preferences := preferences ctx |}.

(** A context with twelve turns. *)
Definition numbered_turn (n : Z) : MessageHistory :=
  {| msg_role := User; msg_content := "turn"; msg_timestamp := n;
     msg_metadata := None |}.

Definition long_context : ConversationContext :=
  {| userId := "u1"; guildId := None; channelId := "c1"; interactionType := Message;
     history := map numbered_turn [1; 2; 3; 4; 5; 6; 7; 8; 9; 10; 11; 12];
     tools := ["web_search"]; preferences := defaultPreferences; timestamp := 12 |}.

Definition network_error : Error := Err "Network Error".

Definition world_tools_down : World :=
  with_tools_script
    [{| elapsed := 15; response_status := 0; outcome := inl network_error |}]
    (empty_world 0).

Definition world_health_down : World :=
  with_health_script
    [{| elapsed := 15; response_status := 0; outcome := inl network_error |}]
    (empty_world 0).

Definition world_process_down : World :=
  with_process_script
    [{| elapsed := 15; response_status := 0; outcome := inl network_error |}]
    (empty_world 0).

(** An asynchronous body that leaves the cooldown registry as it found it:
    every service and every command handler does. *)
Definition keeps_cooldowns {A} (m : Async A) : Prop :=
  forall w, cooldowns (snd (m w)) = cooldowns w.

(** The instant of the last dispatch recorded for the user and command. *)
Definition last_dispatch (i : Interaction) (w : World) : option Z :=
  cooldowns w !! commandName i
    ≫= (fun timestamps => timestamps !! SlashCommandHandler.cooldown_key i).

(** Two invocations of one command by one user. *)
Definition same_invoker (i i' : Interaction) : Prop :=
  ix_user i' = ix_user i /\ commandName i' = commandName i.

(** The path past the cooldown check: the instant is recorded and the
    handler runs. *)
Definition record_and_dispatch (command : SlashCommand) (i : Interaction) : Async unit :=
  fun w =>
    bind
      (SlashCommandHandler.cooldowns_record (commandName i)
         (SlashCommandHandler.cooldown_key i) (clock w))
      (fun _ => SlashCommandHandler.dispatch command i) w.

(** Invocations made one after the other, each after its delay. *)
Fixpoint retry (commands : list SlashCommand) (attempts : list (Z * Interaction))
    (w : World) : World :=
  match attempts with
  | [] => w
  | (d, i) :: rest =>
      retry commands rest (snd (SlashCommandHandler.handleInteraction commands i (advance d w)))
  end.

(** All the attempts are made before [expiry]. *)
Fixpoint within_window (expiry now : Z) (attempts : list (Z * Interaction)) : Prop :=
  match attempts with
  | [] => True
  | (d, _) :: rest => now + d < expiry /\ within_window expiry (now + d) rest
  end.

(** [/weather location:Paris] by user u1, three times. *)
Definition weather_invocation (id : string) : Interaction :=
  {| ix_id := id; commandName := "weather"; ix_user := "u1"; ix_channelId := "c1";
     ix_options := {["location" := OString "Paris"]}; ix_subcommand := None |}.

(** The text service answers [200 OK] after 120 ms. *)
Definition sunny_answer : AIResponseOf AIMetadataWire :=
  {| content := "Sunny, 18 degrees"; ai_tools := None; ai_metadata := None |}.

Definition sunny : HttpOutcome (AIResponseOf AIMetadataWire) :=
  {| elapsed := 120; response_status := 200; outcome := inr sunny_answer |}.

Definition world_of_weather : World :=
  with_process_script [sunny; sunny] (empty_world 1000).

Definition weather_command : SlashCommand :=
  {| cmd_name := "weather"; cmd_description := "Get weather information";
     execute := SlashCommandHandler.handleWeatherCommand; cooldown := Some 5 |}.

(** The world after a first [/weather]: dispatched at instant 1000, so the
    window runs to 6000. *)
Definition world_after_weather : World :=
  snd (SlashCommandHandler.handleInteraction SlashCommandHandler.loadCommands
         (weather_invocation "i1") world_of_weather).

Definition three_attempts : list (Z * Interaction) :=
  [ (1000, weather_invocation "i2"); (1000, weather_invocation "i3");
    (2000, weather_invocation "i4") ].

Definition weather_prompt : string := "What's the weather like in San Francisco?".

Definition weather_message : DiscordMessage :=
  {| m_id := "m1"; m_content := "!weather San Francisco"; m_author := "u1";
     m_author_bot := false; m_channelId := "c1"; m_guild := Some true;
     m_isDM := false; m_canSendTyping := true |}.

(** User u1 has the two-turn sample context in channel c1, and the text
    service is about to answer. *)
Definition world_before_weather : World :=
  with_process_script [sunny] world_with_sample.

(** The world once the router has handled the message. *)
Definition world_after_weather_message : World :=
  snd (MessageHandler.handleMessage "!" "42" weather_message world_before_weather).

(** The key discipline of the cache: context texts live under keys that
    start with [context:], preferences under keys that start with
    [preferences:]. *)
Definition well_keyed_entry (k : string) (e : RedisEntry) : Prop :=
  match re_value e with
  | JsonContext _ => String.prefix "context:" k = true
  | JsonPreferences _ => String.prefix "preferences:" k = true
  end.

Definition well_keyed (w : World) : Prop :=
  forall k e, redis w !! k = Some e -> well_keyed_entry k e.

(** A string without [:] (Discord ids are decimal digits). *)
Definition colon : ascii := ascii_of_nat 58.

Fixpoint colon_free (s : string) : bool :=
  match s with
  | EmptyString => true
  | String a s' => negb (Ascii.eqb a colon) && colon_free s'
  end.

(** Only the pair's own context entries may differ between [w] and [w']. *)
Definition only_pair_touched (u c : string) (w w' : World) : Prop :=
  (forall u' c', colon_free u' = true -> (u', c') <> (u, c) ->
     cached (context_key u' c') w' = cached (context_key u' c') w
     /\ conversation_contexts w' !! (u', c') = conversation_contexts w !! (u', c'))
  /\ (forall v, cached (preferences_key v) w' = cached (preferences_key v) w)
  /\ users w' = users w.

(** The history [getContext] finds in the cache for the pair: none when
    nothing is cached. *)
Definition cached_history (u c : string) (w : World) : list MessageHistory :=
  match cached (context_key u c) w with
  | Some (JsonContext k) => map revive_message (history k)
  | _ => []
  end.

(** Every cached context sits under the key of its own user and channel,
    and preferences under a preferences key. *)
Definition keyed_by_owner_entry (k : string) (e : RedisEntry) : Prop :=
  match re_value e with
  | JsonContext ctx => k = context_key (userId ctx) (channelId ctx)
  | JsonPreferences _ => String.prefix "preferences:" k = true
  end.

Definition keyed_by_owner (w : World) : Prop :=
  forall k e, redis w !! k = Some e -> keyed_by_owner_entry k e.

(** One call of the context service. *)
Inductive ServiceCall :=
| CallGetContext (userId channelId : string)
| CallUpdateContext (context : ConversationContext)
| CallClearContext (userId channelId : string)
| CallGetUserPreferences (userId : string)
| CallUpdateUserPreferences (userId : string) (preferences : PartialUserPreferences).

Definition call (s : ServiceCall) (w : World) : World :=
  match s with
  | CallGetContext u c => snd (getContext u c w)
  | CallUpdateContext ctx => snd (updateContext ctx w)
  | CallClearContext u c => snd (clearContext u c w)
  | CallGetUserPreferences u => snd (getUserPreferences u w)
  | CallUpdateUserPreferences u p => snd (updateUserPreferences u p w)
  end.

(** Calls made one after the other, each after its delay. *)
Fixpoint calls (l : list (Z * ServiceCall)) (w : World) : World :=
  match l with
  | [] => w
  | (d, s) :: rest => calls rest (call s (advance d w))
  end.

(** The turn the conversational handlers share: read the context, append
    the user's text, ask the text service, append the answer, save, reply
    and log. *)
Definition conversational_turn (t : InteractionType) (u c text : string)
    (reply : ReplyContent -> Async unit) (note : string) : Async unit :=
  context <- getContext u c ;;
  now <- Date_now ;;
  let context := begin_turn t now (user_turn text now t) context in
  response <- processMessage text context ;;
  now <- Date_now ;;
  let context := push_turn (assistant_turn response now t) context in
  updateContext context ;;;
  reply (Text (content response)) ;;;
  logger_info note.

(** A way to answer that only tells Discord: it returns, and leaves the
    stores and the clock alone. *)
Definition tells_discord (reply : ReplyContent -> Async unit) (sent : ReplyContent -> Event)
    : Prop :=
  forall c w, exists w',
    reply c w = (Returns tt, w')
    /\ redis w' = redis w /\ users w' = users w
    /\ conversation_contexts w' = conversation_contexts w
    /\ clock w' = clock w /\ trace w' = sent c :: trace w
    /\ http_requests (sent c :: trace w) = http_requests (trace w).

(** The three slash commands that hold a conversation, with the option
    that carries the text, the line they log and their apology. *)
Definition conversational_commands
    : list ((Interaction -> Async unit) * (string * (string * string))) :=
  [ (SlashCommandHandler.handleChatCommand,
     ("message", ("Chat command executed for user ",
      "Sorry, I encountered an error processing your message. Please try again.")));
    (SlashCommandHandler.handleAskCommand,
     ("question", ("Ask command executed for user ",
      "Sorry, I encountered an error processing your question. Please try again.")));
    (SlashCommandHandler.handleSearchCommand,
     ("query", ("Search command executed for user ",
      "Sorry, I encountered an error processing your search. Please try again."))) ].

(** The colons of a string. *)
Fixpoint colons (s : string) : nat :=
  match s with
  | EmptyString => 0%nat
  | String a s' => ((if Ascii.eqb a colon then 1 else 0) + colons s')%nat
  end.

(** An asynchronous body that only adds events of one kind to the trace. *)
Definition only_emits {A} (P : Event -> Prop) (m : Async A) : Prop :=
  forall w, exists new,
    trace (snd (m w)) = (new ++ trace w)%list /\ Forall P new.

(** What the context service and [processMessage] and [getStatus] tell the
    outside: log lines, [POST /process] and [GET /health]. *)
Definition service_event (e : Event) : Prop :=
  match e with
  | Log _ _ => True
  | Http (PostProcess _) => True
  | Http GetHealth => True
  | _ => False
  end.

(** Anything but a call of a tool: [POST /tools/execute]. *)
Definition no_tool_call (e : Event) : Prop :=
  match e with
  | Http (PostToolsExecute _ _) => False
  | _ => True
  end.

(** The replies sent to messages. *)
Fixpoint message_replies (t : list Event) : nat :=
  match t with
  | MessageReply _ _ :: t' => S (message_replies t')
  | _ :: t' => message_replies t'
  | [] => 0%nat
  end.

(** Bodies that send no reply to a message, bodies that send one when they
    return and none when they throw, and bodies that return and send
    one. *)
Definition quiet {A} (m : Async A) : Prop :=
  forall w, message_replies (trace (snd (m w))) = message_replies (trace w).

Definition replies_on_return {A} (m : Async A) : Prop :=
  forall w,
    message_replies (trace (snd (m w)))
    = (match fst (m w) with Returns _ => 1 | Throws _ => 0 end
       + message_replies (trace w))%nat.

Definition replies_once {A} (m : Async A) : Prop :=
  forall w,
    (exists a, fst (m w) = Returns a)
    /\ message_replies (trace (snd (m w))) = S (message_replies (trace w)).

(** The first responses to interactions: [reply] and [deferReply]. *)
Fixpoint acknowledgements (t : list Event) : nat :=
  match t with
  | InteractionReply _ _ _ :: t' => S (acknowledgements t')
  | InteractionDeferReply _ _ :: t' => S (acknowledgements t')
  | _ :: t' => acknowledgements t'
  | [] => 0%nat
  end.

(** Anything but a first response. *)
Definition no_acknowledgement (e : Event) : Prop :=
  match e with
  | InteractionReply _ _ _ => False
  | InteractionDeferReply _ _ => False
  | _ => True
  end.

(** The interaction has not been answered yet. *)
Definition unanswered (i : Interaction) (w : World) : Prop :=
  (ix_id i ∉ replied w) /\ (ix_id i ∉ deferred w).

(** Bodies that leave the answered interactions as they are. *)
Definition keeps_answered {A} (m : Async A) : Prop :=
  forall w, replied (snd (m w)) = replied w /\ deferred (snd (m w)) = deferred w.

(** Bodies that run before the first response: they send none. *)
Definition before_answer {A} (m : Async A) : Prop :=
  forall w,
    acknowledgements (trace (snd (m w))) = acknowledgements (trace w)
    /\ replied (snd (m w)) = replied w /\ deferred (snd (m w)) = deferred w.

(** Bodies that acknowledge once when they return, and not at all when
    they throw. *)
Definition answers_on_return {A} (i : Interaction) (m : Async A) : Prop :=
  forall w, unanswered i w ->
    match fst (m w) with
    | Returns _ => acknowledgements (trace (snd (m w))) = S (acknowledgements (trace w))
    | Throws _ =>
        acknowledgements (trace (snd (m w))) = acknowledgements (trace w)
        /\ unanswered i (snd (m w))
    end.

(** Bodies that return and acknowledge once. *)
Definition answers_once {A} (i : Interaction) (m : Async A) : Prop :=
  forall w, unanswered i w ->
    (exists a, fst (m w) = Returns a)
    /\ acknowledgements (trace (snd (m w))) = S (acknowledgements (trace w)).

(** Bodies that run after the first response: they return, and send no
    other. *)
Definition settled {A} (m : Async A) : Prop :=
  forall w,
    (exists a, fst (m w) = Returns a)
    /\ acknowledgements (trace (snd (m w))) = acknowledgements (trace w).

(** The commands that only ask the text service and answer. *)
Definition message_tool_commands (prefix : string)
    : list (DiscordMessage -> string -> Async unit) :=
  [ MessageHandler.handleRemindCommand prefix;
    MessageHandler.handleTimeCommand;
    MessageHandler.handleWeatherCommand prefix;
    MessageHandler.handleSearchCommand prefix;
    MessageHandler.handleTranslateCommand prefix ].

Definition slash_tool_commands : list (Interaction -> Async unit) :=
  [ SlashCommandHandler.handleReminderCommand;
    SlashCommandHandler.handleTimeCommand;
    SlashCommandHandler.handleWeatherCommand ].

(** Bodies that leave the cache and the durable store as they are. *)
Definition keeps_stores {A} (m : Async A) : Prop :=
  forall w, same_stores w (snd (m w)).

(** The stores are as they were, or as a mere [getContext] leaves them. *)
Definition stores_of_a_read (u c : string) (w w' : World) : Prop :=
  same_stores w w' \/ same_stores (snd (getContext u c w)) w'.

(** Worlds for the worked examples of the properties below: the sample
    context saved and the durable store down, and the same for the cached
    preferences of the Spanish user. *)
Definition world_with_sample_pg_down : World :=
  with_pg_faults [Some connection_refused] world_with_sample.

Definition world_of_spanish_user_pg_down : World :=
  with_pg_faults [Some connection_refused] world_of_spanish_user.

(** A message for the bot in a guild channel, and slash invocations by
    the same user. *)
Definition hello_message : DiscordMessage :=
  {| m_id := "m2"; m_content := "hello again"; m_author := "u1";
     m_author_bot := false; m_channelId := "c1"; m_guild := Some true;
     m_isDM := false; m_canSendTyping := true |}.

Definition chat_invocation : Interaction :=
  {| ix_id := "i5"; commandName := "chat"; ix_user := "u1"; ix_channelId := "c1";
     ix_options := {["message" := OString "hello again"]}; ix_subcommand := None |}.

Definition settings_invocation : Interaction :=
  {| ix_id := "i6"; commandName := "settings"; ix_user := "u1"; ix_channelId := "c1";
     ix_options := {["language" := OString "es"]}; ix_subcommand := Some "update" |}.

(** A save, and ten milliseconds later a read of the preferences. *)
Definition two_calls : list (Z * ServiceCall) :=
  [ (0, CallUpdateContext sample_context); (10, CallGetUserPreferences "u1") ].

(** A parser that knows one text, for the worked example. *)
Definition parse_hello (s : string) : option json :=
  if String.eqb s "{}" then Some (JObj [("content", JStr "hello")]) else None.

(** [Weather], a no-break space ([U+00A0]) and a city after an em space
    ([U+2003]). *)
Definition weather_no_break_space : string :=
  "Weather" +:+ string_of_characters [utf8 160] +:+ "San"
  +:+ string_of_characters [utf8 8195] +:+ "Francisco".

(** User u1, who has a row in [users], has a cached context and cached
    preferences. *)
Definition world_of_two_keys : World :=
  snd (getContext "u1" "c1" (with_users {["u1" := defaultPreferences]} (empty_world 0))).

(* ===================================================================== *)
(** ** The context store                                                  *)
(* ===================================================================== *)

Lemma redis_up_hd w : redis_up w -> hd None (redis_faults w) = None.
Proof.
  unfold redis_up. destruct (redis_faults w) as [|f fs]; [reflexivity|].
  intros H. inversion H; subst. reflexivity.
Qed.

Lemma redis_up_tl w :
  redis_up w -> Forall (fun f : option Error => f = None) (tl (redis_faults w)).
Proof.
  unfold redis_up. destruct (redis_faults w) as [|f fs]; [constructor|].
  intros H. inversion H; subst. assumption.
Qed.

Lemma pg_up_hd w : pg_up w -> hd None (pg_faults w) = None.
Proof.
  unfold pg_up. destruct (pg_faults w) as [|f fs]; [reflexivity|].
  intros H. inversion H; subst. reflexivity.
Qed.

Lemma pg_up_tl w :
  pg_up w -> Forall (fun f : option Error => f = None) (tl (pg_faults w)).
Proof.
  unfold pg_up. destruct (pg_faults w) as [|f fs]; [constructor|].
  intros H. inversion H; subst. assumption.
Qed.

(** Reviving what [JSON.stringify] wrote gives the history back. *)
Lemma revive_stringify_message (m : MessageHistory) :
  revive_message (stringify_message m) = m.
Proof. destruct m. reflexivity. Qed.

Lemma revive_stringify_history (h : list MessageHistory) :
  map revive_message (JSON_stringify_history h) = h.
Proof.
  unfold JSON_stringify_history. induction h as [|m h IH]; simpl.
  - reflexivity.
  - rewrite revive_stringify_message, IH. reflexivity.
Qed.

(** The two kinds of keys never coincide. *)
Lemma context_key_not_preferences_key u c u' :
  context_key u c <> preferences_key u'.
Proof. unfold context_key, preferences_key. simpl. discriminate. Qed.

(** Running the monad by hand: unfold the plumbing, then compute the
    fields of the worlds it builds. *)
Ltac unfold_async :=
  cbv beta iota zeta delta
    [bind ret throw try_catch emit logger_error logger_warn logger_info Date_now
     redis_call pg_call redis_get redis_setEx redis_del
     pg_select_preferences pg_insert_user pg_update_preferences
     pg_upsert_context pg_delete_context].

Ltac simpl_world :=
  cbn [redis users conversation_contexts clock redis_faults pg_faults
       process_script tools_script health_script cooldowns replied deferred trace
       with_redis with_users with_conversation_contexts with_clock
       with_redis_faults with_pg_faults with_process_script with_tools_script
       with_health_script with_cooldowns with_replied with_deferred with_trace
       advance fst snd].

Ltac simpl_world_in H :=
  cbn [redis users conversation_contexts clock redis_faults pg_faults
       process_script tools_script health_script cooldowns replied deferred trace
       with_redis with_users with_conversation_contexts with_clock
       with_redis_faults with_pg_faults with_process_script with_tools_script
       with_health_script with_cooldowns with_replied with_deferred with_trace
       advance fst snd] in H.

Ltac case_step :=
  match goal with
  | |- context [match hd None ?fs with _ => _ end] => destruct (hd None fs) eqn:?
  | |- context [match ?m !! ?k ≫= ?f with _ => _ end] => destruct (m !! k ≫= f) eqn:?
  | |- context [match ?m !! ?k with _ => _ end] => destruct (m !! k) eqn:?
  | |- context [match ?x with JsonContext _ => _ | JsonPreferences _ => _ end] =>
      destruct x
  end; simpl_world.

Ltac up_tl :=
  repeat match goal with
  | |- Forall _ (tl ?l) =>
      let H := fresh in
      assert (H : Forall (fun f : option Error => f = None) l);
      [| destruct l; [constructor | inversion H; subst; assumption]]
  end.

Lemma up_hd (l : list (option Error)) :
  Forall (fun f => f = None) l -> hd None l = None.
Proof. destruct l; [reflexivity|]. intros H; inversion H; subst; reflexivity. Qed.

(** *** [updateContext] *)

Lemma updateContext_cache_ok (ctx : ConversationContext) (w : World) :
  hd None (redis_faults w) = None ->
  fst (updateContext ctx w) = Returns tt
  /\ redis (snd (updateContext ctx w))
     = <[context_key (userId ctx) (channelId ctx) :=
           {| re_value := JSON_stringify (set_timestamp (clock w) ctx);
              re_expiresAt := clock w + CONTEXT_TTL * 1000 |}]> (redis w)
  /\ clock (snd (updateContext ctx w)) = clock w
  /\ redis_faults (snd (updateContext ctx w)) = tl (redis_faults w).
Proof.
  intros Hr.
  unfold updateContext, storeContextInDatabase. unfold_async. simpl_world.
  rewrite Hr. simpl_world.
  destruct (hd None (pg_faults w)); simpl_world; repeat split; reflexivity.
Qed.

Lemma updateContext_durable_failure (ctx : ConversationContext) (w : World) (e : Error) :
  hd None (redis_faults w) = None ->
  hd None (pg_faults w) = Some e ->
  updateContext ctx w
  = (Returns tt,
     with_trace (Log LError "Error storing context in database:" :: trace w)
       (with_pg_faults (tl (pg_faults w))
          (with_redis
             (<[context_key (userId ctx) (channelId ctx) :=
                  {| re_value := JSON_stringify (set_timestamp (clock w) ctx);
                     re_expiresAt := clock w + CONTEXT_TTL * 1000 |}]> (redis w))
             (with_redis_faults (tl (redis_faults w)) w)))).
Proof.
  intros Hr Hp. unfold updateContext, storeContextInDatabase. unfold_async. simpl_world.
  rewrite Hr. simpl_world. rewrite Hp. reflexivity.
Qed.

Lemma updateContext_cache_down (ctx : ConversationContext) (w : World) (e : Error) :
  hd None (redis_faults w) = Some e ->
  updateContext ctx w
  = (Throws e,
     with_trace (Log LError "Error updating context:" :: trace w)
       (with_redis_faults (tl (redis_faults w)) w)).
Proof.
  intros Hr. unfold updateContext, storeContextInDatabase. unfold_async. simpl_world.
  rewrite Hr. reflexivity.
Qed.

(** *** [getUserPreferences] *)

Lemma getUserPreferences_total (u : string) (w : World) :
  exists p, fst (getUserPreferences u w) = Returns p.
Proof.
  unfold getUserPreferences. unfold_async. simpl_world.
  repeat case_step; eexists; reflexivity.
Qed.

Lemma getUserPreferences_new (u : string) (w : World) :
  cached (preferences_key u) w = None -> users w !! u = None ->
  fst (getUserPreferences u w) = Returns defaultPreferences.
Proof.
  unfold cached. intros Hc Hu.
  unfold getUserPreferences. unfold_async. simpl_world.
  repeat case_step; try reflexivity; congruence.
Qed.

Lemma getUserPreferences_durable_error (u : string) (w : World) (e : Error) :
  cached (preferences_key u) w = None -> hd None (pg_faults w) = Some e ->
  fst (getUserPreferences u w) = Returns defaultPreferences.
Proof.
  unfold cached. intros Hc Hp.
  unfold getUserPreferences. unfold_async. simpl_world.
  repeat case_step; try reflexivity; congruence.
Qed.

Lemma getUserPreferences_current (u : string) (w : World) :
  redis_up w ->
  fst (getUserPreferences u w) = Returns (current_preferences u w).
Proof.
  intros Hup. pose proof (redis_up_hd w Hup) as Hr.
  pose proof (up_hd _ (redis_up_tl w Hup)) as Hr2.
  unfold current_preferences, cached.
  unfold getUserPreferences. unfold_async. simpl_world.
  rewrite Hr. simpl_world.
  destruct (redis w !! preferences_key u ≫= live (clock w)) as [[k|p]|]; simpl_world;
    try reflexivity.
  destruct (hd None (pg_faults w)) eqn:Hp; simpl_world; [reflexivity|].
  destruct (users w !! u) eqn:Hu; simpl_world.
  - rewrite Hr2. reflexivity.
  - destruct (hd None (tl (pg_faults w))); reflexivity.
Qed.

(** What [getUserPreferences] leaves alone. *)
Lemma getUserPreferences_frame (u : string) (w : World) :
  let w' := snd (getUserPreferences u w) in
  (redis_up w -> redis_up w')
  /\ clock w' = clock w
  /\ conversation_contexts w' = conversation_contexts w
  /\ cooldowns w' = cooldowns w
  /\ http_requests (trace w') = http_requests (trace w)
  /\ (forall k, k <> preferences_key u -> redis w' !! k = redis w !! k).
Proof.
  unfold redis_up.
  unfold getUserPreferences. unfold_async. simpl_world.
  repeat case_step; simpl_world;
    (repeat split; [intros Hup; up_tl; exact Hup | try reflexivity ..]);
    intros k Hk; rewrite ?lookup_insert_ne by congruence; reflexivity.
Qed.

(** *** [getContext] *)

Lemma getContext_hit (u c : string) (w : World) (k : ConversationContextOf IsoString) :
  hd None (redis_faults w) = None ->
  cached (context_key u c) w = Some (JsonContext k) ->
  getContext u c w
  = (Returns (revive_context k), with_redis_faults (tl (redis_faults w)) w).
Proof.
  intros Hr Hc. unfold cached in Hc.
  unfold getContext. unfold_async. simpl_world.
  rewrite Hr. simpl_world. rewrite Hc. reflexivity.
Qed.

Lemma getContext_cache_down (u c : string) (w : World) (e : Error) :
  hd None (redis_faults w) = Some e ->
  getContext u c w
  = (Throws e,
     with_trace (Log LError "Error getting context:" :: trace w)
       (with_redis_faults (tl (redis_faults w)) w)).
Proof.
  intros Hr. unfold getContext. unfold_async. simpl_world.
  rewrite Hr. reflexivity.
Qed.

Lemma getContext_miss (u c : string) (w : World) :
  redis_up w ->
  cached (context_key u c) w = None ->
  let w1 := with_redis_faults (tl (redis_faults w)) w in
  let w2 := snd (getUserPreferences u w1) in
  let ctx := new_context u c (current_preferences u w) (clock w) in
  getContext u c w
  = (Returns ctx,
     with_redis
       (<[context_key u c :=
            {| re_value := JSON_stringify ctx;
               re_expiresAt := clock w + CONTEXT_TTL * 1000 |}]> (redis w2))
       (with_redis_faults (tl (redis_faults w2)) w2)).
Proof.
  intros Hup Hmiss w1 w2 ctx.
  pose proof (redis_up_hd w Hup) as Hr.
  assert (Hup1 : redis_up w1) by (apply redis_up_tl; exact Hup).
  pose proof (getUserPreferences_current u w1 Hup1) as Hp.
  destruct (getUserPreferences_frame u w1) as (Hup2 & Hclock & _).
  specialize (Hup2 Hup1). apply up_hd in Hup2.
  change (current_preferences u w1) with (current_preferences u w) in Hp.
  change (clock w1) with (clock w) in Hclock.
  unfold cached in Hmiss. subst ctx w2.
  unfold getContext, new_context. unfold_async. simpl_world. rewrite Hr. simpl_world.
  rewrite Hmiss. fold w1.
  destruct (getUserPreferences u w1) as [r w2] eqn:Hg.
  simpl in Hp, Hup2, Hclock |- *.
  rewrite Hp, Hup2, Hclock. reflexivity.
Qed.

(** *** [clearContext] *)

Lemma clearContext_up (u c : string) (w : World) :
  hd None (redis_faults w) = None -> hd None (pg_faults w) = None ->
  clearContext u c w
  = (Returns tt,
     with_trace (Log LInfo ("Cleared context for user " +:+ u +:+ " in channel " +:+ c)
                   :: trace w)
       (with_conversation_contexts (delete (u, c) (conversation_contexts w))
          (with_pg_faults (tl (pg_faults w))
             (with_redis (delete (context_key u c) (redis w))
                (with_redis_faults (tl (redis_faults w)) w))))).
Proof.
  intros Hr Hp. unfold clearContext. unfold_async. simpl_world.
  rewrite Hr. simpl_world. rewrite Hp. reflexivity.
Qed.

(** *** The keys of the cache

    Every write of the service respects the key discipline, so the two
    kinds of text are never confused. *)

Lemma well_keyed_empty (t : Z) : well_keyed (empty_world t).
Proof. intros k e H. simpl in H. rewrite lookup_empty in H. discriminate. Qed.

Lemma well_keyed_insert (m : gmap string RedisEntry) (k : string) (e : RedisEntry) :
  (forall k' e', m !! k' = Some e' -> well_keyed_entry k' e') ->
  well_keyed_entry k e ->
  forall k' e', <[k := e]> m !! k' = Some e' -> well_keyed_entry k' e'.
Proof.
  intros Hm He k' e' H. destruct (decide (k = k')) as [->|Hne].
  - rewrite lookup_insert_eq in H. inversion H; subst. exact He.
  - rewrite lookup_insert_ne in H by exact Hne. apply Hm, H.
Qed.

Lemma well_keyed_delete (m : gmap string RedisEntry) (k : string) :
  (forall k' e', m !! k' = Some e' -> well_keyed_entry k' e') ->
  forall k' e', delete k m !! k' = Some e' -> well_keyed_entry k' e'.
Proof.
  intros Hm k' e' H. destruct (decide (k = k')) as [->|Hne].
  - rewrite lookup_delete_eq in H. discriminate.
  - rewrite lookup_delete_ne in H by exact Hne. apply Hm, H.
Qed.

Lemma prefix_empty (s : string) : String.prefix "" s = true.
Proof. destruct s; reflexivity. Qed.

Lemma context_key_prefix (u c : string) (k : ConversationContextOf IsoString) (t : Z) :
  well_keyed_entry (context_key u c) {| re_value := JsonContext k; re_expiresAt := t |}.
Proof. unfold well_keyed_entry, context_key. simpl. apply prefix_empty. Qed.

Lemma preferences_key_prefix (u : string) (p : UserPreferences) (t : Z) :
  well_keyed_entry (preferences_key u)
    {| re_value := JsonPreferences p; re_expiresAt := t |}.
Proof. unfold well_keyed_entry, preferences_key. simpl. apply prefix_empty. Qed.

Ltac well_keyed_step :=
  unfold well_keyed in *; simpl_world;
  repeat first
    [ assumption
    | apply well_keyed_insert;
        [| first [apply context_key_prefix | apply preferences_key_prefix]]
    | apply well_keyed_delete ].

Lemma well_keyed_getUserPreferences (u : string) (w : World) :
  well_keyed w -> well_keyed (snd (getUserPreferences u w)).
Proof.
  intros H. unfold getUserPreferences. unfold_async. simpl_world.
  repeat case_step; well_keyed_step.
Qed.

Lemma well_keyed_getContext (u c : string) (w : World) :
  well_keyed w -> well_keyed (snd (getContext u c w)).
Proof.
  intros H.
  pose proof (well_keyed_getUserPreferences u (with_redis_faults (tl (redis_faults w)) w) H)
    as Hp.
  unfold getContext. unfold_async. simpl_world.
  destruct (hd None (redis_faults w)); simpl_world; [exact H|].
  destruct (redis w !! context_key u c ≫= live (clock w)) as [[k|p]|];
    simpl_world; try exact H.
  destruct (getUserPreferences u _) as [[p|e] w2]; simpl_world; simpl in Hp.
  - destruct (hd None (redis_faults w2)); well_keyed_step.
  - exact Hp.
Qed.

Lemma well_keyed_updateContext (ctx : ConversationContext) (w : World) :
  well_keyed w -> well_keyed (snd (updateContext ctx w)).
Proof.
  intros H. unfold updateContext, storeContextInDatabase. unfold_async. simpl_world.
  repeat case_step; well_keyed_step.
Qed.

Lemma well_keyed_clearContext (u c : string) (w : World) :
  well_keyed w -> well_keyed (snd (clearContext u c w)).
Proof.
  intros H. unfold clearContext. unfold_async. simpl_world.
  repeat case_step; well_keyed_step.
Qed.

Lemma well_keyed_updateUserPreferences (u : string) (p : PartialUserPreferences) (w : World) :
  well_keyed w -> well_keyed (snd (updateUserPreferences u p w)).
Proof.
  intros H. pose proof (well_keyed_getUserPreferences u w H) as Hp.
  unfold updateUserPreferences. unfold_async. simpl_world.
  destruct (getUserPreferences u w) as [[q|e] w2]; simpl_world; simpl in Hp;
    [|exact Hp].
  repeat case_step; well_keyed_step.
Qed.

(** Under the invariant, the [TypeError] branches are dead. *)
Lemma well_keyed_context_entry (u c : string) (w : World) (p : UserPreferences) :
  well_keyed w -> cached (context_key u c) w <> Some (JsonPreferences p).
Proof.
  intros H Hc. unfold cached in Hc.
  destruct (redis w !! context_key u c) as [e|] eqn:He; [|discriminate].
  specialize (H _ _ He). unfold well_keyed_entry in H.
  simpl in Hc. unfold live in Hc. destruct (Z.ltb _ _); [|discriminate].
  inversion Hc as [Hv]. rewrite Hv in H. simpl in H. discriminate.
Qed.

Lemma well_keyed_preferences_entry (u : string) (w : World)
    (k : ConversationContextOf IsoString) :
  well_keyed w -> cached (preferences_key u) w <> Some (JsonContext k).
Proof.
  intros H Hc. unfold cached in Hc.
  destruct (redis w !! preferences_key u) as [e|] eqn:He; [|discriminate].
  specialize (H _ _ He). unfold well_keyed_entry in H.
  simpl in Hc. unfold live in Hc. destruct (Z.ltb _ _); [|discriminate].
  inversion Hc as [Hv]. rewrite Hv in H. simpl in H. discriminate.
Qed.

(** C1.  A context saved with [updateContext] is read back by
    [getContext] on its own user and channel with the same history, as long
    as the cache is available and less than the cache TTL (one hour) has
    passed in between.  The durable store may fail or not. *)
Theorem read_after_write (ctx : ConversationContext) (w : World) (d : Z) :
  redis_up w ->
  0 <= d < CONTEXT_TTL * 1000 ->
  fst (updateContext ctx w) = Returns tt
  /\ exists c,
       fst (getContext (userId ctx) (channelId ctx)
              (advance d (snd (updateContext ctx w)))) = Returns c
       /\ history c = history ctx.
Proof.
  intros Hup Hd.
  destruct (updateContext_cache_ok ctx w (redis_up_hd w Hup))
    as (Hret & Hredis & Hclock & Hf).
  split; [exact Hret|].
  set (w1 := snd (updateContext ctx w)) in *.
  assert (Hhd : hd None (redis_faults (advance d w1)) = None).
  { simpl_world. rewrite Hf. apply up_hd, redis_up_tl, Hup. }
  assert (Hc : cached (context_key (userId ctx) (channelId ctx)) (advance d w1)
               = Some (JSON_stringify (set_timestamp (clock w) ctx))).
  { unfold cached. simpl_world. rewrite Hredis, lookup_insert_eq. simpl.
    unfold live. simpl. rewrite Hclock.
    destruct (Z.ltb_spec (clock w + d) (clock w + CONTEXT_TTL * 1000));
      [reflexivity|lia]. }
  unfold JSON_stringify in Hc.
  rewrite (getContext_hit _ _ _ _ Hhd Hc). simpl_world.
  eexists. split; [reflexivity|].
  simpl. apply revive_stringify_history.
Qed.

Lemma read_after_write_witness :
  redis_up (empty_world 0)
  /\ 0 <= 5000 < CONTEXT_TTL * 1000
  /\ fst (updateContext sample_context (empty_world 0)) = Returns tt
  /\ exists c,
       fst (getContext "u1" "c1"
              (advance 5000 (snd (updateContext sample_context (empty_world 0)))))
       = Returns c
       /\ history c = history sample_context.
Proof.
  assert (Hup : redis_up (empty_world 0)) by constructor.
  assert (Hd : 0 <= 5000 < CONTEXT_TTL * 1000) by (unfold CONTEXT_TTL; lia).
  split; [exact Hup|]. split; [exact Hd|].
  exact (read_after_write sample_context (empty_world 0) 5000 Hup Hd).
Defined.

(** The window is the TTL and no more: once the hour has passed the saved
    context is gone and a new, empty one is made. *)
Example read_after_expiry :
  exists c,
    fst (getContext "u1" "c1"
           (advance (CONTEXT_TTL * 1000)
              (snd (updateContext sample_context (empty_world 0))))) = Returns c
    /\ history c = [].
Proof. eexists. split; [vm_compute; reflexivity | reflexivity]. Qed.

(** C2, as stated, fails: the pair ("u1", "c1") has no cache entry and no
    durable row, the cache is available, and the context [getContext]
    returns carries the user's own preferences, not the default ones. *)
Lemma unseen_pair_custom_preferences :
  redis_up world_of_spanish_user
  /\ cached (context_key "u1" "c1") world_of_spanish_user = None
  /\ conversation_contexts world_of_spanish_user !! ("u1", "c1") = None
  /\ exists ctx,
       fst (getContext "u1" "c1" world_of_spanish_user) = Returns ctx
       /\ language (preferences ctx) = "es"
       /\ preferences ctx <> defaultPreferences.
Proof.
  split; [constructor|]. split; [vm_compute; reflexivity|].
  split; [vm_compute; reflexivity|].
  eexists. split; [vm_compute; reflexivity|].
  split; [reflexivity|]. discriminate.
Qed.

(** C2, amended.  For a pair with no live cache entry and an available
    cache, [getContext] returns (never throws) a fresh context: empty
    history, no tools, interaction type [message], and the preferences
    [getUserPreferences] gives for the user.  Those are the cached
    preferences when the user has some; without cached ones, the stored
    ones when the durable read succeeds and finds a row; and the hardcoded
    defaults otherwise, that is when the user has no row or when the
    durable read fails.  The context is in the cache when [getContext]
    returns.  Whether a durable row of the context exists plays no part. *)
Theorem getContext_unseen_pair (u c : string) (w : World) :
  redis_up w ->
  cached (context_key u c) w = None ->
  exists ctx,
    fst (getContext u c w) = Returns ctx
    /\ fresh_context u c ctx
    /\ fst (getUserPreferences u w) = Returns (preferences ctx)
    /\ (forall p, cached (preferences_key u) w = Some (JsonPreferences p) ->
          preferences ctx = p)
    /\ (cached (preferences_key u) w = None ->
        (forall p, hd None (pg_faults w) = None -> users w !! u = Some p ->
           preferences ctx = p)
        /\ (users w !! u = None -> preferences ctx = defaultPreferences)
        /\ (forall e, hd None (pg_faults w) = Some e ->
              preferences ctx = defaultPreferences))
    /\ cached (context_key u c) (snd (getContext u c w)) = Some (JSON_stringify ctx).
Proof.
  intros Hup Hmiss.
  pose proof (getContext_miss u c w Hup Hmiss) as Hrun. cbv zeta in Hrun.
  destruct (getUserPreferences_frame u (with_redis_faults (tl (redis_faults w)) w))
    as (_ & Hclock & _).
  eexists. rewrite Hrun. simpl_world.
  split; [reflexivity|]. split; [repeat split|].
  split; [apply getUserPreferences_current, Hup|]. split; [|split].
  - intros p Hc. simpl. unfold current_preferences. rewrite Hc. reflexivity.
  - intros Hc. simpl. unfold current_preferences. rewrite Hc. split; [|split].
    + intros p Hp Hu. rewrite Hp, Hu. reflexivity.
    + intros Hu. destruct (hd None (pg_faults w)); [reflexivity|].
      rewrite Hu. reflexivity.
    + intros e Hp. rewrite Hp. reflexivity.
  - unfold cached. simpl_world. rewrite lookup_insert_eq. simpl.
    unfold live. simpl. rewrite Hclock. simpl_world.
    destruct (Z.ltb_spec (clock w) (clock w + CONTEXT_TTL * 1000)); [reflexivity|].
    unfold CONTEXT_TTL in *. lia.
Qed.

Lemma getContext_unseen_pair_witness :
  redis_up world_of_stored_user
  /\ cached (context_key "u2" "c1") world_of_stored_user = None
  /\ exists ctx,
       fst (getContext "u2" "c1" world_of_stored_user) = Returns ctx
       /\ fresh_context "u2" "c1" ctx
       /\ preferences ctx = merge_preferences defaultPreferences spanish
       /\ language (preferences ctx) = "es"
       /\ cached (context_key "u2" "c1") (snd (getContext "u2" "c1" world_of_stored_user))
          = Some (JSON_stringify ctx).
Proof.
  assert (Hup : redis_up world_of_stored_user) by constructor.
  assert (Hmiss : cached (context_key "u2" "c1") world_of_stored_user = None)
    by reflexivity.
  split; [exact Hup|]. split; [exact Hmiss|].
  destruct (getContext_unseen_pair "u2" "c1" world_of_stored_user Hup Hmiss)
    as (ctx & Hrun & Hfresh & _ & _ & Hstored & Hcached).
  destruct (Hstored eq_refl) as (Hrow & _).
  pose proof (Hrow (merge_preferences defaultPreferences spanish) eq_refl eq_refl) as Hp.
  exists ctx. split; [exact Hrun|]. split; [exact Hfresh|]. split; [exact Hp|].
  split; [rewrite Hp; reflexivity|exact Hcached].
Defined.

(** C3.  [updateContext] returns normally whenever its cache write
    succeeds, whatever the durable store does; when the upsert rejects, the
    failure is logged and nothing more (the context is in the cache).  When
    the cache call rejects, [updateContext] and [getContext] throw that very
    error to their caller. *)
Theorem durable_failure_swallowed_cache_failure_thrown
    (ctx : ConversationContext) (u c : string) (w : World) :
  (hd None (redis_faults w) = None -> fst (updateContext ctx w) = Returns tt)
  /\ (forall e, hd None (redis_faults w) = None -> hd None (pg_faults w) = Some e ->
        fst (updateContext ctx w) = Returns tt
        /\ trace (snd (updateContext ctx w))
           = Log LError "Error storing context in database:" :: trace w
        /\ cached (context_key (userId ctx) (channelId ctx)) (snd (updateContext ctx w))
           = Some (JSON_stringify (set_timestamp (clock w) ctx)))
  /\ (forall e, hd None (redis_faults w) = Some e ->
        fst (updateContext ctx w) = Throws e /\ fst (getContext u c w) = Throws e).
Proof.
  split; [|split].
  - intros Hr. apply (updateContext_cache_ok ctx w Hr).
  - intros e Hr Hp. rewrite (updateContext_durable_failure ctx w e Hr Hp).
    simpl_world. split; [reflexivity|]. split; [reflexivity|].
    unfold cached. simpl_world. rewrite lookup_insert_eq. simpl.
    unfold live. simpl.
    destruct (Z.ltb_spec (clock w) (clock w + CONTEXT_TTL * 1000)); [reflexivity|].
    unfold CONTEXT_TTL in *. lia.
  - intros e Hr.
    rewrite (updateContext_cache_down ctx w e Hr), (getContext_cache_down u c w e Hr).
    split; reflexivity.
Qed.

Lemma durable_failure_swallowed_cache_failure_thrown_witness :
  fst (updateContext sample_context world_pg_down) = Returns tt
  /\ trace (snd (updateContext sample_context world_pg_down))
     = [Log LError "Error storing context in database:"]
  /\ fst (updateContext sample_context world_redis_down) = Throws connection_refused
  /\ fst (getContext "u1" "c1" world_redis_down) = Throws connection_refused.
Proof.
  pose proof (durable_failure_swallowed_cache_failure_thrown
                sample_context "u1" "c1" world_pg_down) as (_ & Hpg & _).
  pose proof (durable_failure_swallowed_cache_failure_thrown
                sample_context "u1" "c1" world_redis_down) as (_ & _ & Hredis).
  destruct (Hpg connection_refused eq_refl eq_refl) as (H1 & H2 & _).
  destruct (Hredis connection_refused eq_refl) as (H3 & H4).
  split; [exact H1|]. split; [exact H2|]. split; [exact H3|exact H4].
Defined.

(** C4.  With the cache and the durable store available, [clearContext]
    deletes the cache entry and the durable row of the pair; a second call
    in a row returns normally as well and changes neither store; and
    [getContext] on the pair, after one call or after two, returns a fresh
    context with an empty history. *)
Theorem clearContext_idempotent (u c : string) (w : World) :
  redis_up w -> pg_up w ->
  let w1 := snd (clearContext u c w) in
  let w2 := snd (clearContext u c w1) in
  fst (clearContext u c w) = Returns tt
  /\ redis w1 !! context_key u c = None
  /\ conversation_contexts w1 !! (u, c) = None
  /\ fst (clearContext u c w1) = Returns tt
  /\ same_stores w1 w2
  /\ (exists ctx, fst (getContext u c w1) = Returns ctx /\ fresh_context u c ctx)
  /\ (exists ctx, fst (getContext u c w2) = Returns ctx /\ fresh_context u c ctx).
Proof.
  intros Hr Hp w1 w2.
  pose proof (clearContext_up u c w (redis_up_hd w Hr) (pg_up_hd w Hp)) as H1.
  assert (Hr1 : redis_up w1).
  { subst w1. rewrite H1. simpl_world. apply redis_up_tl, Hr. }
  assert (Hp1 : pg_up w1).
  { subst w1. rewrite H1. simpl_world. apply pg_up_tl, Hp. }
  pose proof (clearContext_up u c w1 (redis_up_hd w1 Hr1) (pg_up_hd w1 Hp1)) as H2.
  assert (Hr2 : redis_up w2).
  { subst w2. rewrite H2. simpl_world. apply redis_up_tl, Hr1. }
  assert (Hgone : redis w1 !! context_key u c = None).
  { subst w1. rewrite H1. simpl_world. apply lookup_delete_eq. }
  assert (Hrow : conversation_contexts w1 !! (u, c) = None).
  { subst w1. rewrite H1. simpl_world. apply lookup_delete_eq. }
  assert (Hsame : same_stores w1 w2).
  { subst w2. rewrite H2. unfold same_stores. simpl_world.
    split; [|split]; [|reflexivity|]; apply delete_id; assumption. }
  split; [rewrite H1; reflexivity|]. split; [exact Hgone|]. split; [exact Hrow|].
  split; [rewrite H2; reflexivity|]. split; [exact Hsame|]. split.
  - assert (Hmiss : cached (context_key u c) w1 = None)
      by (unfold cached; rewrite Hgone; reflexivity).
    eexists. rewrite (getContext_miss u c w1 Hr1 Hmiss). simpl_world.
    split; [reflexivity|repeat split].
  - assert (Hmiss : cached (context_key u c) w2 = None).
    { unfold cached. destruct Hsame as (-> & _). rewrite Hgone. reflexivity. }
    eexists. rewrite (getContext_miss u c w2 Hr2 Hmiss). simpl_world.
    split; [reflexivity|repeat split].
Qed.

Lemma clearContext_idempotent_witness :
  is_Some (redis world_with_sample !! context_key "u1" "c1")
  /\ is_Some (conversation_contexts world_with_sample !! ("u1", "c1"))
  /\ let w1 := snd (clearContext "u1" "c1" world_with_sample) in
     let w2 := snd (clearContext "u1" "c1" w1) in
     fst (clearContext "u1" "c1" world_with_sample) = Returns tt
     /\ redis w1 !! context_key "u1" "c1" = None
     /\ conversation_contexts w1 !! ("u1", "c1") = None
     /\ fst (clearContext "u1" "c1" w1) = Returns tt
     /\ same_stores w1 w2
     /\ (exists ctx, fst (getContext "u1" "c1" w1) = Returns ctx
                     /\ fresh_context "u1" "c1" ctx)
     /\ (exists ctx, fst (getContext "u1" "c1" w2) = Returns ctx
                     /\ fresh_context "u1" "c1" ctx).
Proof.
  split; [vm_compute; eexists; reflexivity|].
  split; [vm_compute; eexists; reflexivity|].
  apply (clearContext_idempotent "u1" "c1" world_with_sample); constructor.
Defined.

(** C5.  A user with no cached and no stored preferences gets the
    hardcoded defaults, whatever the cache and the durable store do; when
    the durable read rejects, the defaults are returned as well; and
    [getUserPreferences] never throws. *)
Theorem getUserPreferences_defaults (u : string) (w : World) :
  (cached (preferences_key u) w = None -> users w !! u = None ->
   fst (getUserPreferences u w) = Returns defaultPreferences)
  /\ (forall e, cached (preferences_key u) w = None ->
        hd None (pg_faults w) = Some e ->
        fst (getUserPreferences u w) = Returns defaultPreferences)
  /\ (exists p, fst (getUserPreferences u w) = Returns p)
  /\ language defaultPreferences = "en"
  /\ autoJoinVoice defaultPreferences = true
  /\ notificationSettings defaultPreferences
     = {| reminders := true; mentions := true; dms := true |}
  /\ textModel defaultPreferences = "gpt-4".
Proof.
  split; [apply getUserPreferences_new|].
  split; [intros e; apply getUserPreferences_durable_error|].
  split; [apply getUserPreferences_total|].
  repeat split.
Qed.

Lemma getUserPreferences_defaults_witness :
  fst (getUserPreferences "u1" (empty_world 0)) = Returns defaultPreferences
  /\ fst (getUserPreferences "u1" world_pg_down) = Returns defaultPreferences
  /\ is_Some (users world_stored_user_pg_down !! "u2")
  /\ fst (getUserPreferences "u2" world_stored_user_pg_down) = Returns defaultPreferences.
Proof.
  split; [|split; [|split]].
  - apply (proj1 (getUserPreferences_defaults "u1" (empty_world 0))); reflexivity.
  - apply (proj1 (getUserPreferences_defaults "u1" world_pg_down)); reflexivity.
  - vm_compute. eexists. reflexivity.
  - apply (proj1 (proj2 (getUserPreferences_defaults "u2" world_stored_user_pg_down))
             connection_refused); reflexivity.
Defined.

(* ===================================================================== *)
(** ** The text gateway                                                   *)
(* ===================================================================== *)

Ltac unfold_gateway :=
  cbv beta iota zeta delta
    [processMessage executeTool getStatus post_process post_tools_execute get_health
     client_call].

Lemma slice_last_length {A} (n : nat) (l : list A) :
  length (slice_last n l) = Nat.min n (length l).
Proof. unfold slice_last. rewrite length_skipn. lia. Qed.

Lemma slice_last_suffix {A} (n : nat) (l : list A) :
  (firstn (length l - n) l ++ slice_last n l)%list = l.
Proof. unfold slice_last. apply firstn_skipn. Qed.

Lemma slice_last_short {A} (n : nat) (l : list A) :
  (length l <= n)%nat -> slice_last n l = l.
Proof.
  intros H. unfold slice_last.
  replace (length l - n)%nat with 0%nat by lia. reflexivity.
Qed.

Lemma slice_last_long {A} (n : nat) (l : list A) :
  (n < length l)%nat -> slice_last n l <> l.
Proof.
  intros H E. apply (f_equal (@length A)) in E.
  rewrite slice_last_length in E. lia.
Qed.

(** Whatever the service does, [processMessage] sends one request. *)
Lemma processMessage_request (message : string) (ctx : ConversationContext) (w : World) :
  http_requests (trace (snd (processMessage message ctx w)))
  = PostProcess (process_body message ctx) :: http_requests (trace w).
Proof.
  unfold_gateway. unfold_async. simpl_world.
  destruct (process_script w) as [|o rest]; simpl_world; [reflexivity|].
  destruct (outcome o); simpl_world; reflexivity.
Qed.

Lemma processMessage_rejected (message : string) (ctx : ConversationContext) (w : World)
    (e : Error) :
  next_outcome (process_script w) = inl e ->
  fst (processMessage message ctx w)
  = Throws (Err ("Failed to process message: " +:+ err_message e)).
Proof.
  unfold next_outcome. intros H.
  unfold_gateway. unfold_async. simpl_world.
  destruct (process_script w) as [|o rest]; simpl_world.
  - inversion H; subst. reflexivity.
  - rewrite H. reflexivity.
Qed.

Lemma processMessage_resolved (message : string) (ctx : ConversationContext) (w : World)
    (data : AIResponseOf AIMetadataWire) :
  next_outcome (process_script w) = inr data ->
  exists r, fst (processMessage message ctx w) = Returns r
            /\ content r = content data /\ ai_tools r = ai_tools data.
Proof.
  unfold next_outcome. intros H.
  unfold_gateway. unfold_async. simpl_world.
  destruct (process_script w) as [|o rest]; simpl_world; [discriminate|].
  rewrite H. eexists. split; [reflexivity|]. split; reflexivity.
Qed.

(** C6.  [processMessage] sends exactly one request, [POST /process],
    whose history is the last 10 turns of the context's history (a suffix
    of it: all of it when it has 10 turns or fewer, and 10 turns, not the
    whole, when it has more), with the message, the identifiers, the whole
    tool list and the whole preferences. *)
Theorem processMessage_sends_last_10
    (message : string) (ctx : ConversationContext) (w : World) :
  exists body,
    http_requests (trace (snd (processMessage message ctx w)))
    = PostProcess body :: http_requests (trace w)
    /\ rq_message body = message
    /\ (firstn (length (history ctx) - 10) (history ctx) ++ rq_history body)%list
       = history ctx
    /\ length (rq_history body) = Nat.min 10 (length (history ctx))
    /\ ((length (history ctx) <= 10)%nat -> rq_history body = history ctx)
    /\ ((10 < length (history ctx))%nat ->
        length (rq_history body) = 10%nat /\ rq_history body <> history ctx)
    /\ rq_tools body = tools ctx
    /\ rq_preferences body = preferences ctx
    /\ rq_userId body = userId ctx /\ rq_guildId body = guildId ctx
    /\ rq_channelId body = channelId ctx
    /\ rq_interactionType body = interactionType ctx.
Proof.
  exists (process_body message ctx).
  split; [apply processMessage_request|]. split; [reflexivity|].
  split; [apply slice_last_suffix|]. split; [apply slice_last_length|].
  split; [apply slice_last_short|]. split.
  - intros H. split; [|apply slice_last_long; exact H].
    cbn [rq_history process_body]. rewrite slice_last_length.
    unfold MessageHistory, Date in *. lia.
  - repeat split.
Qed.

Lemma processMessage_sends_last_10_witness :
  (10 < length (history long_context))%nat
  /\ (length (history sample_context) <= 10)%nat
  /\ (exists body,
        http_requests (trace (snd (processMessage "hi" long_context (empty_world 0))))
        = [PostProcess body]
        /\ length (rq_history body) = 10%nat
        /\ rq_history body <> history long_context)
  /\ (exists body,
        http_requests (trace (snd (processMessage "hi" sample_context (empty_world 0))))
        = [PostProcess body]
        /\ rq_history body = history sample_context).
Proof.
  assert (Hlong : (10 < length (history long_context))%nat) by (simpl; lia).
  assert (Hshort : (length (history sample_context) <= 10)%nat) by (simpl; lia).
  split; [exact Hlong|]. split; [exact Hshort|]. split.
  - destruct (processMessage_sends_last_10 "hi" long_context (empty_world 0))
      as (body & H1 & _ & _ & _ & _ & H2 & _).
    exists body. split; [exact H1|]. exact (H2 Hlong).
  - destruct (processMessage_sends_last_10 "hi" sample_context (empty_world 0))
      as (body & H1 & _ & _ & _ & H2 & _).
    exists body. split; [exact H1|]. exact (H2 Hshort).
Defined.

(** What the twelve-turn context sends: turns 3 to 12. *)
Example processMessage_long_context :
  http_requests (trace (snd (processMessage "hi" long_context (empty_world 0))))
  = [PostProcess
       {| rq_message := "hi"; rq_userId := "u1"; rq_guildId := None;
          rq_channelId := "c1"; rq_interactionType := Message;
          rq_history := map numbered_turn [3; 4; 5; 6; 7; 8; 9; 10; 11; 12];
          rq_tools := ["web_search"]; rq_preferences := defaultPreferences |}].
Proof. reflexivity. Qed.

(** *** Errors at the gateway *)

(** C9, as stated, fails: a transport error met by [executeTool] or by
    [getStatus] does not reach the caller; both return a value built from
    the error. *)
Lemma executeTool_getStatus_return_on_error :
  fst (executeTool "weather" (JObj [("location", JStr "Paris")]) world_tools_down)
  = Returns {| tr_name := "weather"; tr_input := JObj [("location", JStr "Paris")];
               tr_output := JNull; tr_success := false;
               tr_error := Some "Network Error" |}
  /\ fst (getStatus world_health_down)
     = Returns {| status := Unhealthy; uptime := 0; lastCheck := 15;
                  errors := ["Network Error"];
                  metrics := {| requestsPerMinute := 0; averageLatency := 0;
                                errorRate := 100 |} |}.
Proof. split; reflexivity. Qed.

Lemma executeTool_run (toolName : string) (params : json) (w : World) :
  http_requests (trace (snd (executeTool toolName params w)))
  = PostToolsExecute toolName params :: http_requests (trace w)
  /\ fst (executeTool toolName params w)
     = Returns
         match next_outcome (tools_script w) with
         | inr data => data
         | inl e => {| tr_name := toolName; tr_input := params; tr_output := JNull;
                       tr_success := false; tr_error := Some (err_message e) |}
         end.
Proof.
  unfold next_outcome. unfold_gateway. unfold_async. simpl_world.
  destruct (tools_script w) as [|o rest]; simpl_world; [split; reflexivity|].
  destruct (outcome o); simpl_world; split; reflexivity.
Qed.

Lemma getStatus_run (w : World) :
  http_requests (trace (snd (getStatus w))) = GetHealth :: http_requests (trace w)
  /\ forall e, next_outcome (health_script w) = inl e ->
       fst (getStatus w)
       = Returns {| status := Unhealthy; uptime := 0;
                    lastCheck := clock (snd (getStatus w));
                    errors := [err_message e];
                    metrics := {| requestsPerMinute := 0; averageLatency := 0;
                                  errorRate := 100 |} |}.
Proof.
  unfold next_outcome. unfold_gateway. unfold_async. simpl_world.
  destruct (health_script w) as [|o rest]; simpl_world.
  - split; [reflexivity|]. intros e H. inversion H; subst. reflexivity.
  - destruct (outcome o); simpl_world; (split; [reflexivity|]); intros e' H.
    + inversion H; subst. reflexivity.
    + discriminate.
Qed.

(** C9, amended.  [processMessage], [executeTool] and [getStatus] each send
    one request and never a second one, whether the call succeeds or
    fails.  A transport or service error met by [processMessage] is thrown
    to the caller, as a new error that carries the message of the first; no
    value is returned.  [executeTool] and [getStatus] catch the error and
    return it as data: a tool result with the name and input of the call,
    no output, [success = false] and the error message; a status
    [unhealthy] with [uptime] 0, the instant of the failure as [lastCheck],
    the error message as only error, and the metrics 0, 0 and an error rate
    of 100. *)
Theorem gateway_errors
    (message : string) (ctx : ConversationContext) (toolName : string) (params : json)
    (w : World) (e : Error) :
  (http_requests (trace (snd (processMessage message ctx w)))
   = PostProcess (process_body message ctx) :: http_requests (trace w)
   /\ (next_outcome (process_script w) = inl e ->
       fst (processMessage message ctx w)
       = Throws (Err ("Failed to process message: " +:+ err_message e))))
  /\ (http_requests (trace (snd (executeTool toolName params w)))
      = PostToolsExecute toolName params :: http_requests (trace w)
      /\ (next_outcome (tools_script w) = inl e ->
          fst (executeTool toolName params w)
          = Returns {| tr_name := toolName; tr_input := params; tr_output := JNull;
                       tr_success := false; tr_error := Some (err_message e) |}))
  /\ (http_requests (trace (snd (getStatus w))) = GetHealth :: http_requests (trace w)
      /\ (next_outcome (health_script w) = inl e ->
          fst (getStatus w)
          = Returns {| status := Unhealthy; uptime := 0;
                       lastCheck := clock (snd (getStatus w));
                       errors := [err_message e];
                       metrics := {| requestsPerMinute := 0; averageLatency := 0;
                                     errorRate := 100 |} |})).
Proof.
  split; [|split].
  - split; [apply processMessage_request | apply processMessage_rejected].
  - destruct (executeTool_run toolName params w) as (H1 & H2).
    split; [exact H1|]. intros H. rewrite H2, H. reflexivity.
  - destruct (getStatus_run w) as (H1 & H2). split; [exact H1 | apply H2].
Qed.

Lemma gateway_errors_witness :
  fst (processMessage "hi" sample_context world_process_down)
  = Throws (Err "Failed to process message: Network Error")
  /\ http_requests (trace (snd (processMessage "hi" sample_context world_process_down)))
     = [PostProcess (process_body "hi" sample_context)]
  /\ fst (executeTool "weather" JNull world_tools_down)
     = Returns {| tr_name := "weather"; tr_input := JNull; tr_output := JNull;
                  tr_success := false; tr_error := Some "Network Error" |}
  /\ http_requests (trace (snd (executeTool "weather" JNull world_tools_down)))
     = [PostToolsExecute "weather" JNull]
  /\ fst (getStatus world_health_down)
     = Returns {| status := Unhealthy; uptime := 0; lastCheck := 15;
                  errors := ["Network Error"];
                  metrics := {| requestsPerMinute := 0; averageLatency := 0;
                                errorRate := 100 |} |}
  /\ http_requests (trace (snd (getStatus world_health_down))) = [GetHealth].
Proof.
  split; [|split; [|split; [|split; [|split]]]].
  - apply (proj2 (proj1 (gateway_errors "hi" sample_context "weather" JNull
                           world_process_down network_error))).
    reflexivity.
  - apply (proj1 (proj1 (gateway_errors "hi" sample_context "weather" JNull
                           world_process_down network_error))).
  - apply (proj2 (proj1 (proj2 (gateway_errors "hi" sample_context "weather" JNull
                                  world_tools_down network_error)))).
    reflexivity.
  - apply (proj1 (proj1 (proj2 (gateway_errors "hi" sample_context "weather" JNull
                                  world_tools_down network_error)))).
  - apply (proj2 (proj2 (proj2 (gateway_errors "hi" sample_context "weather" JNull
                                  world_health_down network_error)))).
    reflexivity.
  - apply (proj1 (proj2 (proj2 (gateway_errors "hi" sample_context "weather" JNull
                                  world_health_down network_error)))).
Defined.

(* ===================================================================== *)
(** ** The slash-command router and its cooldowns                         *)
(* ===================================================================== *)

Lemma keeps_ret {A} (a : A) : keeps_cooldowns (ret a).
Proof. intros w. reflexivity. Qed.

Lemma keeps_throw {A} (e : Error) : keeps_cooldowns (@throw A e).
Proof. intros w. reflexivity. Qed.

Lemma keeps_bind {A B} (m : Async A) (k : A -> Async B) :
  keeps_cooldowns m -> (forall a, keeps_cooldowns (k a)) -> keeps_cooldowns (bind m k).
Proof.
  intros Hm Hk w. unfold bind. specialize (Hm w).
  destruct (m w) as [[a|e] w']; simpl in *; [|exact Hm].
  rewrite (Hk a w'). exact Hm.
Qed.

Lemma keeps_try_catch {A} (m : Async A) (h : Error -> Async A) :
  keeps_cooldowns m -> (forall e, keeps_cooldowns (h e)) -> keeps_cooldowns (try_catch m h).
Proof.
  intros Hm Hh w. unfold try_catch. specialize (Hm w).
  destruct (m w) as [[a|e] w']; simpl in *; [exact Hm|].
  rewrite (Hh e w'). exact Hm.
Qed.

Lemma keeps_emit (e : Event) : keeps_cooldowns (emit e).
Proof. intros w. reflexivity. Qed.

Lemma keeps_Date_now : keeps_cooldowns Date_now.
Proof. intros w. reflexivity. Qed.

Lemma keeps_redis_call {A} (op : World -> A * World) :
  (forall w, cooldowns (snd (op w)) = cooldowns w) -> keeps_cooldowns (redis_call op).
Proof.
  intros H w. unfold redis_call. destruct (hd None (redis_faults w)); [reflexivity|].
  specialize (H (with_redis_faults (tl (redis_faults w)) w)).
  destruct (op _); simpl in *. exact H.
Qed.

Lemma keeps_pg_call {A} (op : World -> A * World) :
  (forall w, cooldowns (snd (op w)) = cooldowns w) -> keeps_cooldowns (pg_call op).
Proof.
  intros H w. unfold pg_call. destruct (hd None (pg_faults w)); [reflexivity|].
  specialize (H (with_pg_faults (tl (pg_faults w)) w)).
  destruct (op _); simpl in *. exact H.
Qed.

Lemma keeps_client_call {A} (script : World -> list (HttpOutcome A)) with_script method url rq :
  (forall s w, cooldowns (with_script s w) = cooldowns w) ->
  keeps_cooldowns (client_call script with_script method url rq).
Proof.
  intros H w. unfold client_call. unfold_async. simpl_world.
  destruct (script _) as [|o rest]; simpl_world; [reflexivity|].
  destruct (outcome o); simpl_world; rewrite H; reflexivity.
Qed.

Ltac keeps :=
  repeat first
    [ apply keeps_ret | apply keeps_throw | apply keeps_emit | apply keeps_Date_now
    | apply keeps_redis_call; intros; reflexivity
    | apply keeps_pg_call; intros; reflexivity
    | apply keeps_client_call; intros; reflexivity
    | assumption
    | apply keeps_bind | apply keeps_try_catch
    | match goal with
      | |- keeps_cooldowns (match ?x with _ => _ end) => destruct x
      | |- keeps_cooldowns (if ?x then _ else _) => destruct x
      | |- forall _, _ => intro
      end ].

Lemma keeps_getUserPreferences u : keeps_cooldowns (getUserPreferences u).
Proof.
  unfold getUserPreferences, logger_error, redis_get, redis_setEx,
    pg_select_preferences, pg_insert_user. keeps.
Qed.

Lemma keeps_getContext u c : keeps_cooldowns (getContext u c).
Proof.
  pose proof (keeps_getUserPreferences u).
  unfold getContext, logger_error, redis_get, redis_setEx. keeps.
Qed.

Lemma keeps_updateContext ctx : keeps_cooldowns (updateContext ctx).
Proof.
  unfold updateContext, storeContextInDatabase, logger_error, redis_setEx,
    pg_upsert_context. keeps.
Qed.

Lemma keeps_updateUserPreferences u p : keeps_cooldowns (updateUserPreferences u p).
Proof.
  pose proof (keeps_getUserPreferences u).
  unfold updateUserPreferences, logger_error, logger_info, redis_setEx,
    pg_update_preferences. keeps.
Qed.

Lemma keeps_processMessage m ctx : keeps_cooldowns (processMessage m ctx).
Proof.
  unfold processMessage, post_process, logger_error. keeps.
Qed.

Lemma keeps_interaction_reply i c e : keeps_cooldowns (interaction_reply i c e).
Proof. unfold interaction_reply. keeps. Qed.
Lemma keeps_interaction_deferReply i e : keeps_cooldowns (interaction_deferReply i e).
Proof. unfold interaction_deferReply. keeps. Qed.
Lemma keeps_interaction_editReply i c : keeps_cooldowns (interaction_editReply i c).
Proof. unfold interaction_editReply. keeps. Qed.
Lemma keeps_interaction_followUp i c e : keeps_cooldowns (interaction_followUp i c e).
Proof. unfold interaction_followUp. keeps. Qed.
Lemma keeps_replied_or_deferred i : keeps_cooldowns (replied_or_deferred i).
Proof. intros w. reflexivity. Qed.

Ltac keeps_handler :=
  unfold getString_required, getString, getBoolean, getSubcommand,
    logger_error, logger_info, logger_warn;
  repeat first
    [ apply keeps_getContext | apply keeps_updateContext
    | apply keeps_getUserPreferences | apply keeps_updateUserPreferences
    | apply keeps_processMessage
    | apply keeps_interaction_reply | apply keeps_interaction_deferReply
    | apply keeps_interaction_editReply | apply keeps_interaction_followUp
    | apply keeps_replied_or_deferred
    | progress keeps ].

Lemma keeps_loadCommands (command : SlashCommand) (i : Interaction) :
  In command SlashCommandHandler.loadCommands -> keeps_cooldowns (execute command i).
Proof.
  unfold SlashCommandHandler.loadCommands. simpl.
  intros [<-|[<-|[<-|[<-|[<-|[<-|[<-|[<-|[]]]]]]]]]; cbn [execute].
  - unfold SlashCommandHandler.handleChatCommand. keeps_handler.
  - unfold SlashCommandHandler.handleReminderCommand. keeps_handler.
  - unfold SlashCommandHandler.handleTimeCommand. keeps_handler.
  - unfold SlashCommandHandler.handleWeatherCommand. keeps_handler.
  - unfold SlashCommandHandler.handleHelpCommand. keeps_handler.
  - unfold SlashCommandHandler.handleSettingsCommand. keeps_handler.
  - unfold SlashCommandHandler.handleAskCommand. keeps_handler.
  - unfold SlashCommandHandler.handleSearchCommand. keeps_handler.
Qed.

Lemma last_dispatch_lookup (i : Interaction) (w : World) :
  (default ∅ (cooldowns w !! commandName i) : gmap string Z)
    !! SlashCommandHandler.cooldown_key i
  = last_dispatch i w.
Proof.
  unfold last_dispatch. destruct (cooldowns w !! commandName i); [reflexivity|].
  simpl. apply lookup_empty.
Qed.

Lemma last_dispatch_same_invoker (i i' : Interaction) (w : World) :
  same_invoker i i' -> last_dispatch i' w = last_dispatch i w.
Proof.
  intros [Hu Hc]. unfold last_dispatch, SlashCommandHandler.cooldown_key.
  rewrite Hu, Hc. reflexivity.
Qed.

Lemma truthy_cooldown (cd : Z) : cd <> 0 -> truthy_number (Some cd) = true.
Proof. intros H. simpl. destruct (Z.eqb_spec cd 0); [contradiction|reflexivity]. Qed.

Lemma handleInteraction_on_cooldown
    (commands : list SlashCommand) (command : SlashCommand) (cd : Z)
    (i : Interaction) (w : World) (last : Z) :
  commands_get commands (commandName i) = Some command ->
  cooldown command = Some cd -> cd <> 0 ->
  last_dispatch i w = Some last ->
  clock w < last + cd * 1000 ->
  SlashCommandHandler.handleInteraction commands i w
  = interaction_reply i (PleaseWait (last + cd * 1000 - clock w)) true w.
Proof.
  intros Hget Hcd Hnz Hlast Hnow.
  unfold SlashCommandHandler.handleInteraction. rewrite Hget, Hcd, (truthy_cooldown cd Hnz).
  unfold bind at 1. unfold Date_now at 1. unfold bind at 1.
  unfold SlashCommandHandler.cooldowns_get at 1.
  cbv beta iota. rewrite last_dispatch_lookup, Hlast.
  change (default 0 (Some cd)) with cd.
  destruct (Z.ltb_spec (clock w) (last + cd * 1000)); [reflexivity|lia].
Qed.

Lemma handleInteraction_off_cooldown
    (commands : list SlashCommand) (command : SlashCommand) (cd : Z)
    (i : Interaction) (w : World) :
  commands_get commands (commandName i) = Some command ->
  cooldown command = Some cd -> cd <> 0 ->
  (forall last, last_dispatch i w = Some last -> last + cd * 1000 <= clock w) ->
  SlashCommandHandler.handleInteraction commands i w = record_and_dispatch command i w.
Proof.
  intros Hget Hcd Hnz Hoff.
  unfold SlashCommandHandler.handleInteraction, record_and_dispatch.
  rewrite Hget, Hcd, (truthy_cooldown cd Hnz).
  unfold bind at 1. unfold Date_now at 1. unfold bind at 1.
  unfold SlashCommandHandler.cooldowns_get at 1.
  cbv beta iota. rewrite last_dispatch_lookup.
  destruct (last_dispatch i w) as [last|] eqn:Hlast; [|reflexivity].
  change (default 0 (Some cd)) with cd. specialize (Hoff last eq_refl).
  destruct (Z.ltb_spec (clock w) (last + cd * 1000)); [lia|reflexivity].
Qed.

Lemma keeps_dispatch (command : SlashCommand) (i : Interaction) :
  keeps_cooldowns (execute command i) ->
  keeps_cooldowns (SlashCommandHandler.dispatch command i).
Proof.
  intros H. unfold SlashCommandHandler.dispatch. keeps_handler.
Qed.

Lemma record_and_dispatch_records (command : SlashCommand) (i i' : Interaction) (w : World) :
  keeps_cooldowns (execute command i) ->
  same_invoker i i' ->
  last_dispatch i' (snd (record_and_dispatch command i w)) = Some (clock w).
Proof.
  intros Hk Hsame. rewrite (last_dispatch_same_invoker i i' _ Hsame).
  unfold record_and_dispatch, bind, SlashCommandHandler.cooldowns_record.
  unfold last_dispatch.
  rewrite (keeps_dispatch command i Hk). simpl_world.
  rewrite lookup_insert_eq. simpl. apply lookup_insert_eq.
Qed.

Lemma interaction_reply_run (i : Interaction) (c : ReplyContent) (e : bool) (w : World) :
  interaction_reply i c e w
  = (Returns tt,
     with_replied ({[ix_id i]} ∪ replied w)
       (with_trace (InteractionReply (ix_id i) c e :: trace w) w)).
Proof. reflexivity. Qed.

Lemma rejected_run
    (commands : list SlashCommand) (command : SlashCommand) (cd : Z)
    (i i' : Interaction) (w : World) (last : Z) :
  commands_get commands (commandName i) = Some command ->
  cooldown command = Some cd -> cd <> 0 ->
  same_invoker i i' ->
  last_dispatch i w = Some last ->
  clock w < last + cd * 1000 ->
  SlashCommandHandler.handleInteraction commands i' w
  = (Returns tt,
     with_replied ({[ix_id i']} ∪ replied w)
       (with_trace
          (InteractionReply (ix_id i') (PleaseWait (last + cd * 1000 - clock w)) true
             :: trace w) w)).
Proof.
  intros Hget Hcd Hnz Hsame Hlast Hnow.
  rewrite <- (last_dispatch_same_invoker i i' w Hsame) in Hlast.
  destruct Hsame as [_ Hname]. rewrite <- Hname in Hget.
  rewrite (handleInteraction_on_cooldown commands command cd i' w last
             Hget Hcd Hnz Hlast Hnow).
  apply interaction_reply_run.
Qed.

Lemma retry_within_window
    (commands : list SlashCommand) (command : SlashCommand) (cd : Z)
    (i : Interaction) (last : Z) (attempts : list (Z * Interaction)) :
  commands_get commands (commandName i) = Some command ->
  cooldown command = Some cd -> cd <> 0 ->
  Forall (fun a => same_invoker i (snd a)) attempts ->
  forall w,
    last_dispatch i w = Some last ->
    within_window (last + cd * 1000) (clock w) attempts ->
    cooldowns (retry commands attempts w) = cooldowns w
    /\ http_requests (trace (retry commands attempts w)) = http_requests (trace w)
    /\ clock (retry commands attempts w)
       = clock w + fold_right Z.add 0 (map fst attempts).
Proof.
  intros Hget Hcd Hnz Hall. induction Hall as [|[d i'] rest Hsame _ IH]; intros w Hlast Hwin.
  - simpl. repeat split. lia.
  - simpl in Hwin, Hsame. destruct Hwin as [Hd Hrest]. 
    cbn [retry].
    assert (Hlast' : last_dispatch i (advance d w) = Some last) by exact Hlast.
    rewrite (rejected_run commands command cd i i' (advance d w) last
               Hget Hcd Hnz Hsame Hlast' Hd).
    cbn [snd].
    match goal with |- context [retry commands rest ?w'] => set (w1 := w') end.
    destruct (IH w1 Hlast Hrest) as (Hc & Hh & Hclock).
    rewrite Hc, Hh, Hclock. cbn [map fst fold_right].
    change (clock w1) with (clock w + d).
    repeat split. lia.
Qed.

(** C7.  A user invokes a command that has a cooldown of [cd] seconds and
    is dispatched at instant [clock w].  A second invocation by the same
    user before [clock w + cd * 1000] only gets the wait notice: the handler
    is not run and no request goes to the text service.  An invocation at
    or after that instant is dispatched again. *)
Theorem cooldown_rejects_within_window
    (commands : list SlashCommand) (command : SlashCommand) (cd : Z)
    (i1 i2 i3 : Interaction) (w : World) (d2 d3 : Z) :
  commands_get commands (commandName i1) = Some command ->
  cooldown command = Some cd -> cd <> 0 ->
  (forall i, keeps_cooldowns (execute command i)) ->
  same_invoker i1 i2 -> same_invoker i1 i3 ->
  (forall last, last_dispatch i1 w = Some last -> last + cd * 1000 <= clock w) ->
  let w1 := snd (SlashCommandHandler.handleInteraction commands i1 w) in
  let w2 := snd (SlashCommandHandler.handleInteraction commands i2 (advance d2 w1)) in
  clock w1 + d2 < clock w + cd * 1000 ->
  clock w + cd * 1000 <= clock w2 + d3 ->
  SlashCommandHandler.handleInteraction commands i1 w = record_and_dispatch command i1 w
  /\ SlashCommandHandler.handleInteraction commands i2 (advance d2 w1)
     = interaction_reply i2
         (PleaseWait (clock w + cd * 1000 - (clock w1 + d2))) true (advance d2 w1)
  /\ http_requests (trace w2) = http_requests (trace w1)
  /\ SlashCommandHandler.handleInteraction commands i3 (advance d3 w2)
     = record_and_dispatch command i3 (advance d3 w2).
Proof.
  intros Hget Hcd Hnz Hkeeps Hsame2 Hsame3 Hoff w1 w2 Hin Hout.
  pose proof (handleInteraction_off_cooldown commands command cd i1 w
                Hget Hcd Hnz Hoff) as H1.
  assert (Hlast1 : last_dispatch i1 (advance d2 w1) = Some (clock w)).
  { subst w1. rewrite H1.
    apply (record_and_dispatch_records command i1 i1 w (Hkeeps i1)). split; reflexivity. }
  pose proof (rejected_run commands command cd i1 i2 (advance d2 w1) (clock w)
                Hget Hcd Hnz Hsame2 Hlast1 Hin) as H2.
  assert (Hw2 : w2 = with_replied ({[ix_id i2]} ∪ replied (advance d2 w1))
                  (with_trace
                     (InteractionReply (ix_id i2)
                        (PleaseWait (clock w + cd * 1000 - clock (advance d2 w1))) true
                        :: trace (advance d2 w1)) (advance d2 w1))).
  { subst w2. rewrite H2. reflexivity. }
  split; [exact H1|]. split; [|split].
  - rewrite H2. symmetry. apply interaction_reply_run.
  - rewrite Hw2. reflexivity.
  - assert (Hget3 : commands_get commands (commandName i3) = Some command)
      by (destruct Hsame3 as [_ ->]; exact Hget).
    apply (handleInteraction_off_cooldown commands command cd i3 _ Hget3 Hcd Hnz).
    intros last Hlast. rewrite (last_dispatch_same_invoker i1 i3 _ Hsame3) in Hlast.
    rewrite Hw2 in Hlast. change (last_dispatch i1 (advance d2 w1) = Some last) in Hlast.
    rewrite Hlast1 in Hlast. inversion Hlast; subst last.
    rewrite Hw2 in Hout. rewrite Hw2. simpl_world. simpl_world_in Hout. lia.
Qed.

Lemma cooldown_rejects_within_window_witness :
  let i1 := weather_invocation "i1" in
  let i2 := weather_invocation "i2" in
  let i3 := weather_invocation "i3" in
  let commands := SlashCommandHandler.loadCommands in
  let w1 := snd (SlashCommandHandler.handleInteraction commands i1 world_of_weather) in
  let w2 := snd (SlashCommandHandler.handleInteraction commands i2 (advance 2000 w1)) in
  let w3 := snd (SlashCommandHandler.handleInteraction commands i3 (advance 3000 w2)) in
  SlashCommandHandler.handleInteraction commands i1 world_of_weather
  = record_and_dispatch weather_command i1 world_of_weather
  /\ SlashCommandHandler.handleInteraction commands i2 (advance 2000 w1)
     = interaction_reply i2 (PleaseWait 2880) true (advance 2000 w1)
  /\ http_requests (trace w2) = http_requests (trace w1)
  /\ SlashCommandHandler.handleInteraction commands i3 (advance 3000 w2)
     = record_and_dispatch weather_command i3 (advance 3000 w2)
  /\ length (http_requests (trace w1)) = 1%nat
  /\ length (http_requests (trace w3)) = 2%nat.
Proof.
  intros i1 i2 i3 commands w1 w2 w3.
  assert (Hk : forall i, keeps_cooldowns (execute weather_command i)).
  { intros i. apply keeps_loadCommands.
    unfold SlashCommandHandler.loadCommands, weather_command. simpl. tauto. }
  destruct (cooldown_rejects_within_window SlashCommandHandler.loadCommands
              weather_command 5 i1 i2 i3 world_of_weather 2000 3000)
    as (H1 & H2 & H3 & H4).
  - reflexivity.
  - reflexivity.
  - discriminate.
  - exact Hk.
  - split; reflexivity.
  - split; reflexivity.
  - intros last H. vm_compute in H. discriminate.
  - vm_compute. reflexivity.
  - vm_compute. discriminate.
  - split; [exact H1|]. split; [exact H2|]. split; [exact H3|]. split; [exact H4|].
    split; vm_compute; reflexivity.
Defined.

(** C10.  An invocation made while the cooldown runs is answered with the
    wait notice and leaves the cooldown registry as it was.  So after any
    number of such attempts by the user, each made before the expiry of the
    window opened by the last dispatch, the registry is unchanged, no
    request went to the text service, and a further invocation is rejected
    or dispatched by the same expiry instant as before the attempts. *)
Theorem rejected_attempts_keep_cooldown
    (commands : list SlashCommand) (command : SlashCommand) (cd : Z)
    (i i' : Interaction) (w : World) (last : Z)
    (attempts : list (Z * Interaction)) (d : Z) :
  commands_get commands (commandName i) = Some command ->
  cooldown command = Some cd -> cd <> 0 ->
  last_dispatch i w = Some last ->
  Forall (fun a => same_invoker i (snd a)) attempts ->
  within_window (last + cd * 1000) (clock w) attempts ->
  same_invoker i i' ->
  let w' := advance d (retry commands attempts w) in
  (clock w < last + cd * 1000 ->
   cooldowns (snd (SlashCommandHandler.handleInteraction commands i w)) = cooldowns w)
  /\ cooldowns (retry commands attempts w) = cooldowns w
  /\ last_dispatch i (retry commands attempts w) = Some last
  /\ http_requests (trace (retry commands attempts w)) = http_requests (trace w)
  /\ (clock w' < last + cd * 1000 ->
      SlashCommandHandler.handleInteraction commands i' w'
      = interaction_reply i' (PleaseWait (last + cd * 1000 - clock w')) true w')
  /\ (last + cd * 1000 <= clock w' ->
      SlashCommandHandler.handleInteraction commands i' w' = record_and_dispatch command i' w').
Proof.
  intros Hget Hcd Hnz Hlast Hall Hwin Hsame w'.
  destruct (retry_within_window commands command cd i last attempts
              Hget Hcd Hnz Hall w Hlast Hwin) as (Hc & Hh & _).
  assert (Hlast' : last_dispatch i (retry commands attempts w) = Some last)
    by (unfold last_dispatch; rewrite Hc; exact Hlast).
  assert (Hget' : commands_get commands (commandName i') = Some command)
    by (destruct Hsame as [_ ->]; exact Hget).
  split; [|split; [exact Hc|split; [exact Hlast'|split; [exact Hh|split]]]].
  - intros Hnow.
    rewrite (rejected_run commands command cd i i w last Hget Hcd Hnz
               (conj eq_refl eq_refl) Hlast Hnow).
    reflexivity.
  - intros Hnow.
    rewrite (rejected_run commands command cd i i' w' last Hget Hcd Hnz
               Hsame Hlast' Hnow).
    symmetry. apply interaction_reply_run.
  - intros Hnow.
    apply (handleInteraction_off_cooldown commands command cd i' w' Hget' Hcd Hnz).
    intros last0 H0. rewrite (last_dispatch_same_invoker i i' _ Hsame) in H0.
    change (last_dispatch i (retry commands attempts w) = Some last0) in H0.
    rewrite Hlast' in H0. inversion H0; subst. exact Hnow.
Qed.

Lemma rejected_attempts_keep_cooldown_witness :
  let commands := SlashCommandHandler.loadCommands in
  let w := world_after_weather in
  let w' := advance 500 (retry commands three_attempts w) in
  last_dispatch (weather_invocation "i1") w = Some 1000
  /\ clock (retry commands three_attempts w) = 5120
  /\ cooldowns (snd (SlashCommandHandler.handleInteraction commands
                        (weather_invocation "i1") w))
     = cooldowns w
  /\ cooldowns (retry commands three_attempts w) = cooldowns w
  /\ http_requests (trace (retry commands three_attempts w))
     = http_requests (trace w)
  /\ SlashCommandHandler.handleInteraction commands (weather_invocation "i5") w'
     = interaction_reply (weather_invocation "i5") (PleaseWait 380) true w'.
Proof.
  intros commands w w'.
  assert (Hlast : last_dispatch (weather_invocation "i1") w = Some 1000)
    by (vm_compute; reflexivity).
  assert (Hclock : clock (retry commands three_attempts w) = 5120)
    by (vm_compute; reflexivity).
  destruct (rejected_attempts_keep_cooldown SlashCommandHandler.loadCommands weather_command 5
              (weather_invocation "i1") (weather_invocation "i5") w 1000
              three_attempts 500) as (H1 & H2 & _ & H4 & H5 & _).
  - reflexivity.
  - reflexivity.
  - discriminate.
  - exact Hlast.
  - repeat constructor.
  - vm_compute. repeat split.
  - split; reflexivity.
  - split; [exact Hlast|]. split; [exact Hclock|].
    split; [apply H1; vm_compute; reflexivity|].
    split; [exact H2|]. split; [exact H4|].
    apply H5. vm_compute. reflexivity.
Defined.

(* ===================================================================== *)
(** ** The message router: the weather command                            *)
(* ===================================================================== *)

Lemma getContext_frame (u c : string) (w : World) :
  conversation_contexts (snd (getContext u c w)) = conversation_contexts w
  /\ http_requests (trace (snd (getContext u c w))) = http_requests (trace w).
Proof.
  destruct (getUserPreferences_frame u (with_redis_faults (tl (redis_faults w)) w))
    as (_ & _ & Hc & _ & Hh & _).
  unfold getContext. unfold_async. simpl_world.
  destruct (hd None (redis_faults w)); simpl_world; [split; reflexivity|].
  destruct (redis w !! context_key u c ≫= live (clock w)) as [[k|p]|];
    simpl_world; try (split; reflexivity).
  destruct (getUserPreferences u _) as [[p|e] w2]; simpl_world; simpl in Hc, Hh.
  - destruct (hd None (redis_faults w2)); simpl_world; split; assumption.
  - split; assumption.
Qed.

Lemma handleMessage_weather (clientUserId : string) (m : DiscordMessage) :
  m_content m = "!weather San Francisco" ->
  m_author_bot m = false ->
  m_guild m <> Some false ->
  MessageHandler.handleMessage "!" clientUserId m
  = MessageHandler.handleCommandMessage "!" m "weather San Francisco".
Proof.
  intros Hc Hb Hg. unfold MessageHandler.handleMessage. rewrite Hc, Hb.
  cbn [orb truthy_string negb].
  destruct (bool_decide (m_guild m = Some false)) eqn:Hd.
  - apply bool_decide_eq_true in Hd. contradiction.
  - reflexivity.
Qed.

Lemma handleCommandMessage_weather (m : DiscordMessage) :
  MessageHandler.handleCommandMessage "!" m "weather San Francisco"
  = try_catch (MessageHandler.handleWeatherCommand "!" m "San Francisco")
      (fun error =>
         logger_error ("Error handling command message: " +:+ "weather") ;;;
         message_reply m
           (Text "Sorry, I encountered an error processing your command. Please try again.")).
Proof. reflexivity. Qed.

(** C8, as stated, fails: after ["!weather San Francisco"] is handled and
    answered, the history of the user's context is the one it was (the two
    turns of the sample, not four), and neither the cache nor the durable
    store changed: no turn was appended and [updateContext] was not
    called. *)
Lemma weather_command_records_no_turn :
  fst (MessageHandler.handleMessage "!" "42" weather_message world_before_weather)
  = Returns tt
  /\ (exists ctx,
        fst (getContext "u1" "c1" world_before_weather) = Returns ctx
        /\ history ctx = history sample_context)
  /\ (exists ctx,
        fst (getContext "u1" "c1" world_after_weather_message) = Returns ctx
        /\ history ctx = history sample_context)
  /\ redis world_after_weather_message = redis world_before_weather
  /\ conversation_contexts world_after_weather_message
     = conversation_contexts world_before_weather.
Proof.
  split; [vm_compute; reflexivity|].
  split; [eexists; split; vm_compute; reflexivity|].
  split; [eexists; split; vm_compute; reflexivity|].
  split; vm_compute; reflexivity.
Qed.

(** The free-form conversation path does record the turn: after
    ["!how are you"] the saved history has four turns. *)
Example conversation_message_records_turns :
  exists ctx,
    fst (getContext "u1" "c1"
           (snd (MessageHandler.handleMessage "!" "42"
                   {| m_id := "m2"; m_content := "!how are you"; m_author := "u1";
                      m_author_bot := false; m_channelId := "c1";
                      m_guild := Some true; m_isDM := false;
                      m_canSendTyping := true |}
                   world_before_weather))) = Returns ctx
    /\ map msg_content (history ctx)
       = ["hello"; "hi there"; "how are you"; "Sunny, 18 degrees"].
Proof. eexists; split; vm_compute; reflexivity. Qed.

(** A context that is cached is read, not written. *)
Lemma getContext_hit_stores (u c : string) (w w1 : World) (k : JsonText)
    (ctx : ConversationContext) :
  cached (context_key u c) w = Some k ->
  getContext u c w = (Returns ctx, w1) ->
  same_stores w w1.
Proof.
  unfold cached. intros Hk. unfold getContext. unfold_async. simpl_world.
  destruct (hd None (redis_faults w)); simpl_world; [discriminate|].
  rewrite Hk. destruct k; simpl_world; [|discriminate].
  intros H. inversion H; subst. repeat split.
Qed.

(** C8, amended.  The message ["!weather San Francisco"] (from a user, in
    a channel where the bot may write) is recognised as the command
    [weather]; the router reads the user's context with [getContext],
    posts the prompt ["What's the weather like in San Francisco?"] with
    that context to the text service, and replies with the content of the
    answer as it is.  Nothing is appended to the history and the context is
    not saved: the cache and the durable store are as [getContext] left
    them, the durable rows as they were before the message, and when the
    context was cached both stores are as they were before the message. *)
Theorem weather_command_forwards_and_replies
    (clientUserId : string) (m : DiscordMessage) (w w1 : World)
    (ctx : ConversationContext)
    (o : HttpOutcome (AIResponseOf AIMetadataWire))
    (rest : list (HttpOutcome (AIResponseOf AIMetadataWire)))
    (data : AIResponseOf AIMetadataWire) :
  m_content m = "!weather San Francisco" ->
  m_author_bot m = false ->
  m_guild m <> Some false ->
  getContext (m_author m) (m_channelId m) w = (Returns ctx, w1) ->
  process_script w1 = o :: rest ->
  outcome o = inr data ->
  MessageHandler.isCommand "weather San Francisco" = true
  /\ exists w',
       MessageHandler.handleMessage "!" clientUserId m w = (Returns tt, w')
       /\ trace w'
          = MessageReply (m_id m) (Text (content data))
              :: Log LDebug ("Griptape response: "
                             +:+ Number_toString (response_status o) +:+ " /process")
              :: Http (PostProcess (process_body weather_prompt ctx))
              :: Log LDebug "Griptape request: POST /process"
              :: trace w1
       /\ same_stores w1 w'
       /\ conversation_contexts w' = conversation_contexts w
       /\ (forall k, cached (context_key (m_author m) (m_channelId m)) w = Some k ->
             same_stores w w').
Proof.
  intros Hc Hb Hg Hget Hs Hnext. split; [reflexivity|].
  rewrite (handleMessage_weather clientUserId m Hc Hb Hg), handleCommandMessage_weather.
  pose proof (getContext_frame (m_author m) (m_channelId m) w) as [Hrows _].
  rewrite Hget in Hrows. simpl in Hrows.
  unfold MessageHandler.handleWeatherCommand. cbn [truthy_string negb].
  unfold try_catch at 1 2. unfold bind at 1. rewrite Hget.
  unfold bind at 1. unfold_gateway. unfold_async. simpl_world.
  rewrite Hs. simpl_world. rewrite Hnext. simpl_world.
  unfold message_reply, emit. simpl_world.
  eexists. split; [reflexivity|]. simpl_world.
  split; [reflexivity|]. split; [repeat split|]. split; [exact Hrows|].
  intros k Hk.
  destruct (getContext_hit_stores _ _ _ _ _ _ Hk Hget) as (H1 & H2 & H3).
  repeat split; simpl_world; assumption.
Qed.

Lemma weather_command_forwards_and_replies_witness :
  getContext "u1" "c1" world_before_weather
  = (Returns (set_timestamp 0 sample_context), world_before_weather)
  /\ exists w',
       MessageHandler.handleMessage "!" "42" weather_message world_before_weather
       = (Returns tt, w')
       /\ trace w'
          = [ MessageReply "m1" (Text "Sunny, 18 degrees");
              Log LDebug "Griptape response: 200 /process";
              Http (PostProcess
                      (process_body weather_prompt (set_timestamp 0 sample_context)));
              Log LDebug "Griptape request: POST /process" ]
       /\ same_stores world_before_weather w'.
Proof.
  assert (Hget : getContext "u1" "c1" world_before_weather
                 = (Returns (set_timestamp 0 sample_context), world_before_weather))
    by (vm_compute; reflexivity).
  split; [exact Hget|].
  destruct (weather_command_forwards_and_replies "42" weather_message
              world_before_weather world_before_weather
              (set_timestamp 0 sample_context) sunny [] sunny_answer
              eq_refl eq_refl ltac:(discriminate) Hget eq_refl eq_refl)
    as (_ & w' & Hrun & Htrace & Hstores & _).
  exists w'. split; [exact Hrun|]. split; [exact Htrace|exact Hstores].
Defined.

(* ===================================================================== *)
(** ** More of the context store                                       *)
(* ===================================================================== *)

Lemma stringify_revive_message (m : MessageHistoryOf IsoString) :
  stringify_message (revive_message m) = m.
Proof. destruct m as [r c [t] md]. reflexivity. Qed.

Lemma stringify_revive_history (h : list (MessageHistoryOf IsoString)) :
  JSON_stringify_history (map revive_message h) = h.
Proof.
  unfold JSON_stringify_history. induction h as [|m h IH]; simpl.
  - reflexivity.
  - rewrite stringify_revive_message, IH. reflexivity.
Qed.

Lemma revive_stringify_context (c : ConversationContext) :
  match JSON_stringify c with
  | JsonContext k => revive_context k = c
  | JsonPreferences _ => False
  end.
Proof.
  destruct c. unfold JSON_stringify, revive_context. simpl.
  rewrite revive_stringify_history. reflexivity.
Qed.

Lemma stringify_revive_context (k : ConversationContextOf IsoString) :
  JSON_stringify (revive_context k) = JsonContext k.
Proof.
  destruct k as [u g c it h t p [ts]]. unfold JSON_stringify, revive_context. simpl.
  rewrite stringify_revive_history. reflexivity.
Qed.

(** X1.  A context saved with [updateContext] and read back with
    [getContext] on its own user and channel, with the cache available and
    less than the cache TTL later, is the saved context field for field,
    dates included, except for [timestamp]: that is the instant of the save,
    whatever the caller had put there. *)
Theorem updateContext_getContext_round_trip (ctx : ConversationContext) (w : World) (d : Z) :
  redis_up w ->
  0 <= d < CONTEXT_TTL * 1000 ->
  fst (getContext (userId ctx) (channelId ctx) (advance d (snd (updateContext ctx w))))
  = Returns (set_timestamp (clock w) ctx).
Proof.
  intros Hup Hd.
  destruct (updateContext_cache_ok ctx w (redis_up_hd w Hup))
    as (Hret & Hredis & Hclock & Hf).
  set (w1 := snd (updateContext ctx w)) in *.
  assert (Hhd : hd None (redis_faults (advance d w1)) = None).
  { simpl_world. rewrite Hf. apply up_hd, redis_up_tl, Hup. }
  assert (Hc : cached (context_key (userId ctx) (channelId ctx)) (advance d w1)
               = Some (JSON_stringify (set_timestamp (clock w) ctx))).
  { unfold cached. simpl_world. rewrite Hredis, lookup_insert_eq. simpl.
    unfold live. simpl. rewrite Hclock.
    destruct (Z.ltb_spec (clock w + d) (clock w + CONTEXT_TTL * 1000));
      [reflexivity|lia]. }
  pose proof (revive_stringify_context (set_timestamp (clock w) ctx)) as Hrt.
  destruct (JSON_stringify (set_timestamp (clock w) ctx)) as [k|p] eqn:Hk; [|contradiction].
  rewrite (getContext_hit _ _ _ _ Hhd Hc). simpl_world. rewrite Hrt. reflexivity.
Qed.

Lemma updateContext_getContext_round_trip_witness :
  redis_up (empty_world 0)
  /\ 0 <= 5000 < CONTEXT_TTL * 1000
  /\ fst (getContext "u1" "c1"
            (advance 5000 (snd (updateContext sample_context (empty_world 0)))))
     = Returns (set_timestamp 0 sample_context).
Proof.
  assert (Hup : redis_up (empty_world 0)) by constructor.
  assert (Hd : 0 <= 5000 < CONTEXT_TTL * 1000) by (unfold CONTEXT_TTL; lia).
  split; [exact Hup|]. split; [exact Hd|].
  exact (updateContext_getContext_round_trip sample_context (empty_world 0) 5000 Hup Hd).
Defined.

(** Cutting a key at its first colon, for ids without colon. *)
Lemma colon_free_split (a a' b b' : string) :
  colon_free a = true -> colon_free a' = true ->
  a +:+ String colon b = a' +:+ String colon b' -> a = a' /\ b = b'.
Proof.
  revert a'. induction a as [|x a IH]; intros [|x' a'] Ha Ha' H; simpl in *.
  - inversion H. split; reflexivity.
  - inversion H; subst. apply andb_true_iff in Ha' as [Hx _].
    rewrite Ascii.eqb_refl in Hx. discriminate.
  - inversion H; subst. apply andb_true_iff in Ha as [Hx _].
    rewrite Ascii.eqb_refl in Hx. discriminate.
  - inversion H; subst. apply andb_true_iff in Ha as [_ Ha].
    apply andb_true_iff in Ha' as [_ Ha'].
    destruct (IH a' Ha Ha' H2) as [-> ->]. split; reflexivity.
Qed.

Lemma context_key_inj (u c u' c' : string) :
  colon_free u = true -> colon_free u' = true ->
  context_key u c = context_key u' c' -> u = u' /\ c = c'.
Proof.
  intros Hu Hu' H. unfold context_key in H. simpl in H.
  inversion H as [H0]. apply (colon_free_split u u' c c' Hu Hu'). exact H0.
Qed.

(** X2.  The cache key [context:<user>:<channel>] tells two pairs apart as
    long as the user ids have no colon (Discord ids are digits); with a
    colon in an id two different pairs can share one key, and so one cached
    context. *)
Theorem context_key_injective :
  (forall u c u' c',
     colon_free u = true -> colon_free u' = true ->
     context_key u c = context_key u' c' -> u = u' /\ c = c')
  /\ ("1:2", "3") <> ("1", "2:3")
  /\ context_key "1:2" "3" = context_key "1" "2:3".
Proof.
  split; [exact context_key_inj|]. split; [discriminate|reflexivity].
Qed.

Lemma context_key_injective_witness :
  colon_free "u1" = true
  /\ context_key "u1" "c1" = context_key "u1" "c1"
  /\ "u1" = "u1" /\ "c1" = "c1".
Proof.
  split; [reflexivity|]. split; [reflexivity|].
  exact (proj1 context_key_injective "u1" "c1" "u1" "c1" eq_refl eq_refl eq_refl).
Defined.

Lemma other_context_key (u c u' c' : string) :
  colon_free u = true -> colon_free u' = true -> (u', c') <> (u, c) ->
  context_key u c <> context_key u' c'.
Proof.
  intros Hu Hu' Hne H. destruct (context_key_inj u c u' c' Hu Hu' H) as [-> ->].
  contradiction.
Qed.

Lemma other_row (u c u' c' : string) : (u', c') <> (u, c) -> (u, c) <> (u', c').
Proof. intros H E. apply H. symmetry. exact E. Qed.

Ltac other_keys Hu :=
  unfold only_pair_touched, cached; simpl_world;
  split; [intros u' c' Hu' Hne; split | split; [intros v |]];
  rewrite ?lookup_insert_ne, ?lookup_delete_ne
    by first [ apply other_context_key; assumption
             | apply context_key_not_preferences_key
             | apply other_row; assumption ];
  reflexivity.

(** X3.  [updateContext] and [clearContext] touch the cache entry and the
    durable row of their own pair only, whatever fails on the way: for user
    ids without colon, the cached context and the row of every other pair,
    every cached preference and every user row are as they were. *)
Theorem writes_touch_one_pair (ctx : ConversationContext) (u c : string) (w : World) :
  (colon_free (userId ctx) = true ->
   only_pair_touched (userId ctx) (channelId ctx) w (snd (updateContext ctx w)))
  /\ (colon_free u = true -> only_pair_touched u c w (snd (clearContext u c w))).
Proof.
  split; intros Hu.
  - unfold updateContext, storeContextInDatabase. unfold_async. simpl_world.
    repeat case_step; other_keys Hu.
  - unfold clearContext. unfold_async. simpl_world.
    repeat case_step; other_keys Hu.
Qed.

Lemma writes_touch_one_pair_witness :
  only_pair_touched "u1" "c1" (empty_world 0)
    (snd (updateContext sample_context (empty_world 0)))
  /\ only_pair_touched "u1" "c1" world_with_sample
       (snd (clearContext "u1" "c1" world_with_sample)).
Proof.
  destruct (writes_touch_one_pair sample_context "u1" "c1" (empty_world 0)) as [H1 _].
  destruct (writes_touch_one_pair sample_context "u1" "c1" world_with_sample) as [_ H2].
  split; [exact (H1 eq_refl)|exact (H2 eq_refl)].
Defined.

Lemma getUserPreferences_ignores_rows (u : string)
    (rows : gmap (string * string) ContextRow) (w : World) :
  getUserPreferences u (with_conversation_contexts rows w)
  = (fst (getUserPreferences u w),
     with_conversation_contexts rows (snd (getUserPreferences u w))).
Proof.
  unfold getUserPreferences. unfold_async. simpl_world.
  repeat case_step; reflexivity.
Qed.

(** X4.  [getContext] never reads the table [conversation_contexts]: its
    result, and the world it leaves, are the same whatever rows the table
    holds. *)
Theorem getContext_ignores_durable_rows (u c : string)
    (rows : gmap (string * string) ContextRow) (w : World) :
  getContext u c (with_conversation_contexts rows w)
  = (fst (getContext u c w), with_conversation_contexts rows (snd (getContext u c w))).
Proof.
  pose proof (getUserPreferences_ignores_rows u rows
                (with_redis_faults (tl (redis_faults w)) w)) as Hp.
  unfold getContext. unfold_async. simpl_world.
  destruct (hd None (redis_faults w)); simpl_world; [reflexivity|].
  destruct (redis w !! context_key u c ≫= live (clock w)) as [[k|p]|];
    simpl_world; try reflexivity.
  change (with_redis_faults (tl (redis_faults w)) (with_conversation_contexts rows w))
    with (with_conversation_contexts rows (with_redis_faults (tl (redis_faults w)) w)).
  rewrite Hp.
  destruct (getUserPreferences u (with_redis_faults (tl (redis_faults w)) w))
    as [[p|e] w2]; simpl_world; [|reflexivity].
  destruct (hd None (redis_faults w2)); reflexivity.
Qed.

(** X5.  Once the cache TTL has passed, a saved conversation is not found
    again: the durable row written by [updateContext] is still there with
    the whole history, and [getContext] returns a context with an empty
    history all the same. *)
Theorem expired_context_not_recovered (ctx : ConversationContext) (w : World) (d : Z) :
  redis_up w -> hd None (pg_faults w) = None ->
  CONTEXT_TTL * 1000 <= d ->
  let w1 := advance d (snd (updateContext ctx w)) in
  (exists row,
     conversation_contexts w1 !! (userId ctx, channelId ctx) = Some row
     /\ row_history row = JSON_stringify_history (history ctx))
  /\ exists c,
       fst (getContext (userId ctx) (channelId ctx) w1) = Returns c
       /\ history c = [].
Proof.
  intros Hup Hpg Hd w1.
  assert (Hrun : updateContext ctx w
    = (Returns tt,
       with_conversation_contexts
         (<[(userId ctx, channelId ctx) :=
              {| row_guild_id := guildId ctx;
                 row_interaction_type := interactionType ctx;
                 row_history := JSON_stringify_history (history ctx);
                 row_tools := tools ctx;
                 row_preferences := preferences ctx |}]> (conversation_contexts w))
         (with_pg_faults (tl (pg_faults w))
            (with_redis
               (<[context_key (userId ctx) (channelId ctx) :=
                    {| re_value := JSON_stringify (set_timestamp (clock w) ctx);
                       re_expiresAt := clock w + CONTEXT_TTL * 1000 |}]> (redis w))
               (with_redis_faults (tl (redis_faults w)) w))))).
  { unfold updateContext, storeContextInDatabase. unfold_async. simpl_world.
    rewrite (redis_up_hd w Hup). simpl_world. rewrite Hpg. reflexivity. }
  subst w1. rewrite Hrun. simpl_world. split.
  - eexists. rewrite lookup_insert_eq. split; reflexivity.
  - match goal with |- context [getContext _ _ ?w0] => set (w1 := w0) end.
    assert (Hup1 : redis_up w1) by (apply redis_up_tl; exact Hup).
    assert (Hmiss : cached (context_key (userId ctx) (channelId ctx)) w1 = None).
    { unfold cached. subst w1. simpl_world. rewrite lookup_insert_eq. simpl.
      unfold live. simpl.
      destruct (Z.ltb_spec (clock w + d) (clock w + CONTEXT_TTL * 1000));
        [lia|reflexivity]. }
    eexists. rewrite (getContext_miss _ _ w1 Hup1 Hmiss). simpl_world.
    split; reflexivity.
Qed.

Lemma expired_context_not_recovered_witness :
  redis_up (empty_world 0)
  /\ hd None (pg_faults (empty_world 0)) = None
  /\ CONTEXT_TTL * 1000 <= 3600000
  /\ let w1 := advance 3600000 (snd (updateContext sample_context (empty_world 0))) in
     (exists row,
        conversation_contexts w1 !! ("u1", "c1") = Some row
        /\ row_history row = JSON_stringify_history (history sample_context))
     /\ exists c, fst (getContext "u1" "c1" w1) = Returns c /\ history c = [].
Proof.
  assert (Hup : redis_up (empty_world 0)) by constructor.
  assert (Hd : CONTEXT_TTL * 1000 <= 3600000) by (unfold CONTEXT_TTL; lia).
  split; [exact Hup|]. split; [reflexivity|]. split; [exact Hd|].
  exact (expired_context_not_recovered sample_context (empty_world 0) 3600000
           Hup eq_refl Hd).
Defined.

(** X6.  When the cache delete succeeds and the durable delete rejects,
    [clearContext] throws that error after logging it; the cache entry is
    gone all the same and the durable row is still there. *)
Theorem clearContext_durable_failure (u c : string) (w : World) (e : Error) :
  hd None (redis_faults w) = None -> hd None (pg_faults w) = Some e ->
  fst (clearContext u c w) = Throws e
  /\ cached (context_key u c) (snd (clearContext u c w)) = None
  /\ conversation_contexts (snd (clearContext u c w)) = conversation_contexts w
  /\ trace (snd (clearContext u c w)) = Log LError "Error clearing context:" :: trace w.
Proof.
  intros Hr Hp. unfold clearContext. unfold_async. simpl_world.
  rewrite Hr. simpl_world. rewrite Hp. simpl_world.
  unfold cached. simpl_world. rewrite lookup_delete_eq. repeat split.
Qed.

Lemma clearContext_durable_failure_witness :
  hd None (redis_faults world_with_sample_pg_down) = None
  /\ hd None (pg_faults world_with_sample_pg_down) = Some connection_refused
  /\ fst (clearContext "u1" "c1" world_with_sample_pg_down) = Throws connection_refused
  /\ cached (context_key "u1" "c1") (snd (clearContext "u1" "c1" world_with_sample_pg_down))
     = None
  /\ is_Some (conversation_contexts (snd (clearContext "u1" "c1" world_with_sample_pg_down))
                !! ("u1", "c1")).
Proof.
  destruct (clearContext_durable_failure "u1" "c1" world_with_sample_pg_down
              connection_refused eq_refl eq_refl) as (H1 & H2 & H3 & _).
  split; [reflexivity|]. split; [reflexivity|]. split; [exact H1|]. split; [exact H2|].
  rewrite H3. vm_compute. eexists. reflexivity.
Defined.

Lemma up_tl_up (l : list (option Error)) :
  Forall (fun f => f = None) l -> Forall (fun f => f = None) (tl l).
Proof. destruct l; [constructor|]. intros H; inversion H; assumption. Qed.

Lemma live_fresh (now d ttl : Z) (v : JsonText) :
  0 <= d < ttl * 1000 ->
  live (now + d) {| re_value := v; re_expiresAt := now + ttl * 1000 |} = Some v.
Proof.
  intros H. unfold live. simpl.
  destruct (Z.ltb_spec (now + d) (now + ttl * 1000)); [reflexivity|lia].
Qed.

(** On a miss, with both stores available, the preferences of a user with
    a row are read from the durable store and written through to the
    cache. *)
Lemma getUserPreferences_stored_run (u : string) (w : World) (p : UserPreferences) :
  redis_up w -> pg_up w ->
  cached (preferences_key u) w = None ->
  users w !! u = Some p ->
  exists w',
    getUserPreferences u w = (Returns p, w')
    /\ redis w' = <[preferences_key u :=
                     {| re_value := JsonPreferences p;
                        re_expiresAt := clock w + PREFERENCES_TTL * 1000 |}]> (redis w)
    /\ clock w' = clock w
    /\ redis_up w' /\ pg_up w'
    /\ users w' = users w.
Proof.
  intros Hr Hp Hc Hu. unfold cached in Hc.
  pose proof (redis_up_hd w Hr) as Hr1.
  pose proof (up_hd _ (redis_up_tl w Hr)) as Hr2.
  pose proof (pg_up_hd w Hp) as Hp1.
  unfold getUserPreferences. unfold_async. simpl_world.
  rewrite Hr1. simpl_world. rewrite Hc. simpl_world. rewrite Hp1. simpl_world.
  rewrite Hu. simpl_world. rewrite Hr2. eexists. split; [reflexivity|]. simpl_world.
  repeat split; try reflexivity.
  - unfold redis_up. simpl_world. apply up_tl_up, up_tl_up, Hr.
  - unfold pg_up. simpl_world. apply up_tl_up, Hp.
Qed.

(** For a user without a row the insertion of the defaults is rejected:
    the defaults come from the [catch], and the cache is not written. *)
Lemma getUserPreferences_rowless_run (u : string) (w : World) :
  hd None (redis_faults w) = None -> hd None (pg_faults w) = None ->
  cached (preferences_key u) w = None ->
  users w !! u = None ->
  getUserPreferences u w
  = (Returns defaultPreferences,
     with_trace (Log LError "Error getting user preferences:" :: trace w)
       (with_pg_faults (tl (tl (pg_faults w)))
          (with_redis_faults (tl (redis_faults w)) w))).
Proof.
  intros Hr1 Hp1 Hc Hu. unfold cached in Hc.
  unfold getUserPreferences. unfold_async. simpl_world.
  rewrite Hr1. simpl_world. rewrite Hc. simpl_world. rewrite Hp1. simpl_world.
  rewrite Hu. simpl_world.
  destruct (hd None (tl (pg_faults w))); reflexivity.
Qed.

Lemma getUserPreferences_hit_run (u : string) (w : World) (p : UserPreferences) :
  hd None (redis_faults w) = None ->
  cached (preferences_key u) w = Some (JsonPreferences p) ->
  getUserPreferences u w = (Returns p, with_redis_faults (tl (redis_faults w)) w).
Proof.
  intros Hr Hc. unfold cached in Hc.
  unfold getUserPreferences. unfold_async. simpl_world.
  rewrite Hr. simpl_world. rewrite Hc. reflexivity.
Qed.

(** X7.  A first [getUserPreferences] for a user with a row, on a cache
    miss with both stores available, returns the stored preferences and
    writes them to the cache: for the next 24 hours the same preferences
    are returned without a query on the durable store, whatever state that
    store is in.  For a user without a row nothing is written through: the
    insertion of the defaults is rejected by the schema, the defaults come
    from the [catch], neither the cache nor [users] gains an entry, and the
    next call queries the durable store again. *)
Theorem preferences_write_through (u : string) (w : World) (d : Z)
    (faults : list (option Error)) :
  redis_up w -> pg_up w ->
  cached (preferences_key u) w = None ->
  0 <= d < PREFERENCES_TTL * 1000 ->
  let w1 := with_pg_faults faults (advance d (snd (getUserPreferences u w))) in
  (forall stored, users w !! u = Some stored ->
     fst (getUserPreferences u w) = Returns stored
     /\ cached (preferences_key u) w1 = Some (JsonPreferences stored)
     /\ fst (getUserPreferences u w1) = Returns stored
     /\ pg_faults (snd (getUserPreferences u w1)) = faults)
  /\ (users w !! u = None ->
      fst (getUserPreferences u w) = Returns defaultPreferences
      /\ cached (preferences_key u) w1 = None
      /\ users w1 !! u = None
      /\ fst (getUserPreferences u w1) = Returns defaultPreferences
      /\ (hd None faults = None ->
          pg_faults (snd (getUserPreferences u w1)) = tl (tl faults))).
Proof.
  intros Hr Hp Hc Hd w1. split.
  - intros stored Hu.
    destruct (getUserPreferences_stored_run u w stored Hr Hp Hc Hu)
      as (w' & Hrun & Hredis & Hclock & Hr' & _).
    subst w1. rewrite Hrun. simpl_world.
    assert (Hc1 : cached (preferences_key u) (with_pg_faults faults (advance d w'))
                  = Some (JsonPreferences stored)).
    { unfold cached. simpl_world. rewrite Hredis, lookup_insert_eq. simpl.
      rewrite Hclock. apply live_fresh. exact Hd. }
    split; [reflexivity|]. split; [exact Hc1|].
    rewrite (getUserPreferences_hit_run u _ stored); [split; reflexivity| |exact Hc1].
    simpl_world. apply redis_up_hd, Hr'.
  - intros Hu.
    pose proof (getUserPreferences_rowless_run u w (redis_up_hd w Hr) (pg_up_hd w Hp)
                  Hc Hu) as Hrun.
    subst w1. rewrite Hrun. simpl_world.
    assert (Hc1 : forall fs,
              cached (preferences_key u)
                (with_pg_faults fs
                   (advance d
                      (with_trace (Log LError "Error getting user preferences:" :: trace w)
                         (with_pg_faults (tl (tl (pg_faults w)))
                            (with_redis_faults (tl (redis_faults w)) w))))) = None).
    { intros fs. unfold cached in *. simpl_world.
      destruct (redis w !! preferences_key u) as [e|]; [|reflexivity].
      simpl in *. unfold live in *.
      destruct (Z.ltb_spec (clock w) (re_expiresAt e)); [discriminate|].
      destruct (Z.ltb_spec (clock w + d) (re_expiresAt e)); [lia|reflexivity]. }
    split; [reflexivity|]. split; [apply Hc1|]. split; [exact Hu|].
    split.
    + apply (getUserPreferences_new u _ (Hc1 faults)). exact Hu.
    + intros Hf.
      rewrite (getUserPreferences_rowless_run u _); [reflexivity| | |apply Hc1|exact Hu].
      * simpl_world. apply up_hd, up_tl_up, Hr.
      * exact Hf.
Qed.

Lemma preferences_write_through_witness :
  redis_up world_of_stored_user /\ pg_up world_of_stored_user
  /\ cached (preferences_key "u2") world_of_stored_user = None
  /\ 0 <= 1000 < PREFERENCES_TTL * 1000
  /\ users world_of_stored_user !! "u2" = Some (merge_preferences defaultPreferences spanish)
  /\ fst (getUserPreferences "u2"
            (with_pg_faults [Some connection_refused]
               (advance 1000 (snd (getUserPreferences "u2" world_of_stored_user)))))
     = Returns (merge_preferences defaultPreferences spanish)
  /\ merge_preferences defaultPreferences spanish <> defaultPreferences.
Proof.
  assert (Hr : redis_up world_of_stored_user) by constructor.
  assert (Hp : pg_up world_of_stored_user) by constructor.
  assert (Hd : 0 <= 1000 < PREFERENCES_TTL * 1000) by (unfold PREFERENCES_TTL; lia).
  split; [exact Hr|]. split; [exact Hp|]. split; [reflexivity|]. split; [exact Hd|].
  split; [reflexivity|]. split; [|discriminate].
  destruct (preferences_write_through "u2" world_of_stored_user 1000
              [Some connection_refused] Hr Hp eq_refl Hd) as (H1 & _).
  destruct (H1 _ eq_refl) as (_ & _ & H3 & _). exact H3.
Defined.

Lemma getUserPreferences_pg_up (u : string) (w : World) :
  pg_up w -> pg_up (snd (getUserPreferences u w)).
Proof.
  unfold pg_up. intros Hp.
  unfold getUserPreferences. unfold_async. simpl_world.
  repeat case_step; simpl_world; up_tl; exact Hp.
Qed.

(** X8.  With both stores available, [updateUserPreferences] returns, and
    for the next 24 hours [getUserPreferences] returns the preferences the
    user had, overridden by the fields given. *)
Theorem updateUserPreferences_read_back (u : string) (p : PartialUserPreferences)
    (w : World) (d : Z) :
  redis_up w -> pg_up w ->
  0 <= d < PREFERENCES_TTL * 1000 ->
  fst (updateUserPreferences u p w) = Returns tt
  /\ fst (getUserPreferences u (advance d (snd (updateUserPreferences u p w))))
     = Returns (merge_preferences (current_preferences u w) p).
Proof.
  intros Hr Hp Hd.
  pose proof (getUserPreferences_current u w Hr) as Hv.
  destruct (getUserPreferences_frame u w) as (Hr2 & Hclock & _).
  specialize (Hr2 Hr). pose proof (getUserPreferences_pg_up u w Hp) as Hp2.
  apply redis_up_hd in Hr2 as Hr2h. apply pg_up_hd in Hp2.
  assert (Hrun : updateUserPreferences u p w
    = (Returns tt,
       let w2 := snd (getUserPreferences u w) in
       let merged := merge_preferences (current_preferences u w) p in
       with_trace (Log LInfo ("Updated preferences for user " +:+ u) :: trace w2)
         (with_redis
            (<[preferences_key u :=
                 {| re_value := JsonPreferences merged;
                    re_expiresAt := clock w + PREFERENCES_TTL * 1000 |}]> (redis w2))
            (with_redis_faults (tl (redis_faults w2))
               (with_users
                  match users w2 !! u with
                  | Some _ => <[u := merged]> (users w2)
                  | None => users w2
                  end
                  (with_pg_faults (tl (pg_faults w2)) w2)))))).
  { unfold updateUserPreferences. unfold_async.
    destruct (getUserPreferences u w) as [r w2]. simpl in Hv, Hr2h, Hp2, Hclock |- *.
    rewrite Hv. simpl_world. rewrite Hp2. simpl_world. rewrite Hr2h. simpl_world.
    rewrite Hclock. reflexivity. }
  rewrite Hrun. cbv zeta. split; [reflexivity|]. simpl_world.
  rewrite (getUserPreferences_hit_run u _ (merge_preferences (current_preferences u w) p)).
  - reflexivity.
  - simpl_world. apply up_hd, up_tl_up. exact Hr2.
  - unfold cached. simpl_world. rewrite lookup_insert_eq. simpl.
    rewrite Hclock. apply live_fresh. exact Hd.
Qed.

Lemma updateUserPreferences_read_back_witness :
  redis_up (empty_world 0) /\ pg_up (empty_world 0)
  /\ 0 <= 1000 < PREFERENCES_TTL * 1000
  /\ fst (updateUserPreferences "u1" spanish (empty_world 0)) = Returns tt
  /\ fst (getUserPreferences "u1"
            (advance 1000 (snd (updateUserPreferences "u1" spanish (empty_world 0)))))
     = Returns (merge_preferences (current_preferences "u1" (empty_world 0)) spanish).
Proof.
  assert (Hr : redis_up (empty_world 0)) by constructor.
  assert (Hp : pg_up (empty_world 0)) by constructor.
  assert (Hd : 0 <= 1000 < PREFERENCES_TTL * 1000) by (unfold PREFERENCES_TTL; lia).
  split; [exact Hr|]. split; [exact Hp|]. split; [exact Hd|].
  exact (updateUserPreferences_read_back "u1" spanish (empty_world 0) 1000 Hr Hp Hd).
Defined.

(** X9.  When the preferences are cached and the durable update rejects,
    [updateUserPreferences] throws that error and the cache is not written:
    the cached preferences and the rows of [users] are as they were. *)
Theorem updateUserPreferences_durable_failure (u : string) (p : PartialUserPreferences)
    (w : World) (p0 : UserPreferences) (e : Error) :
  hd None (redis_faults w) = None ->
  cached (preferences_key u) w = Some (JsonPreferences p0) ->
  hd None (pg_faults w) = Some e ->
  fst (updateUserPreferences u p w) = Throws e
  /\ cached (preferences_key u) (snd (updateUserPreferences u p w))
     = Some (JsonPreferences p0)
  /\ users (snd (updateUserPreferences u p w)) = users w.
Proof.
  intros Hr Hc Hp.
  unfold updateUserPreferences. unfold_async.
  rewrite (getUserPreferences_hit_run u w p0 Hr Hc). simpl_world.
  rewrite Hp. simpl_world. split; [reflexivity|]. split; [exact Hc|reflexivity].
Qed.

Lemma updateUserPreferences_durable_failure_witness :
  hd None (redis_faults world_of_spanish_user_pg_down) = None
  /\ hd None (pg_faults world_of_spanish_user_pg_down) = Some connection_refused
  /\ fst (updateUserPreferences "u1" spanish world_of_spanish_user_pg_down)
     = Throws connection_refused
  /\ cached (preferences_key "u1")
       (snd (updateUserPreferences "u1" spanish world_of_spanish_user_pg_down))
     = Some (JsonPreferences (merge_preferences defaultPreferences spanish)).
Proof.
  destruct (updateUserPreferences_durable_failure "u1" spanish
              world_of_spanish_user_pg_down
              (merge_preferences defaultPreferences spanish) connection_refused
              eq_refl eq_refl eq_refl) as (H1 & H2 & _).
  split; [reflexivity|]. split; [reflexivity|]. split; [exact H1|exact H2].
Defined.

(* ===================================================================== *)
(** ** The keys of the cache, and the conversational turn              *)
(* ===================================================================== *)

Lemma keyed_by_owner_well_keyed (w : World) : keyed_by_owner w -> well_keyed w.
Proof.
  intros H k e He. specialize (H k e He).
  unfold keyed_by_owner_entry in H. unfold well_keyed_entry.
  destruct (re_value e); [|exact H].
  rewrite H. unfold context_key. simpl. apply prefix_empty.
Qed.

Lemma keyed_by_owner_insert (m : gmap string RedisEntry) (k : string) (e : RedisEntry) :
  (forall k' e', m !! k' = Some e' -> keyed_by_owner_entry k' e') ->
  keyed_by_owner_entry k e ->
  forall k' e', <[k := e]> m !! k' = Some e' -> keyed_by_owner_entry k' e'.
Proof.
  intros Hm He k' e' H. destruct (decide (k = k')) as [->|Hne].
  - rewrite lookup_insert_eq in H. inversion H; subst. exact He.
  - rewrite lookup_insert_ne in H by exact Hne. apply Hm, H.
Qed.

Lemma keyed_by_owner_delete (m : gmap string RedisEntry) (k : string) :
  (forall k' e', m !! k' = Some e' -> keyed_by_owner_entry k' e') ->
  forall k' e', delete k m !! k' = Some e' -> keyed_by_owner_entry k' e'.
Proof.
  intros Hm k' e' H. destruct (decide (k = k')) as [->|Hne].
  - rewrite lookup_delete_eq in H. discriminate.
  - rewrite lookup_delete_ne in H by exact Hne. apply Hm, H.
Qed.

Lemma keyed_by_owner_context (c : ConversationContext) (t : Z) :
  keyed_by_owner_entry (context_key (userId c) (channelId c))
    {| re_value := JSON_stringify c; re_expiresAt := t |}.
Proof. reflexivity. Qed.

Lemma keyed_by_owner_preferences (u : string) (p : UserPreferences) (t : Z) :
  keyed_by_owner_entry (preferences_key u)
    {| re_value := JsonPreferences p; re_expiresAt := t |}.
Proof. unfold keyed_by_owner_entry, preferences_key. simpl. apply prefix_empty. Qed.

Ltac keyed_by_owner_step :=
  unfold keyed_by_owner in *; simpl_world;
  repeat first
    [ assumption
    | apply keyed_by_owner_insert;
        [| first [ apply keyed_by_owner_preferences
                 | apply keyed_by_owner_context
                 | reflexivity ] ]
    | apply keyed_by_owner_delete ].

Lemma keyed_by_owner_getUserPreferences (u : string) (w : World) :
  keyed_by_owner w -> keyed_by_owner (snd (getUserPreferences u w)).
Proof.
  intros H. unfold getUserPreferences. unfold_async. simpl_world.
  repeat case_step; keyed_by_owner_step.
Qed.

Lemma keyed_by_owner_getContext (u c : string) (w : World) :
  keyed_by_owner w -> keyed_by_owner (snd (getContext u c w)).
Proof.
  intros H.
  pose proof (keyed_by_owner_getUserPreferences u
                (with_redis_faults (tl (redis_faults w)) w) H) as Hp.
  unfold getContext. unfold_async. simpl_world.
  destruct (hd None (redis_faults w)); simpl_world; [exact H|].
  destruct (redis w !! context_key u c ≫= live (clock w)) as [[k|p]|];
    simpl_world; try exact H.
  destruct (getUserPreferences u _) as [[p|e] w2]; simpl_world; simpl in Hp.
  - destruct (hd None (redis_faults w2)); keyed_by_owner_step.
  - exact Hp.
Qed.

Lemma keyed_by_owner_updateContext (ctx : ConversationContext) (w : World) :
  keyed_by_owner w -> keyed_by_owner (snd (updateContext ctx w)).
Proof.
  intros H. unfold updateContext, storeContextInDatabase. unfold_async. simpl_world.
  repeat case_step; keyed_by_owner_step.
Qed.

Lemma keyed_by_owner_clearContext (u c : string) (w : World) :
  keyed_by_owner w -> keyed_by_owner (snd (clearContext u c w)).
Proof.
  intros H. unfold clearContext. unfold_async. simpl_world.
  repeat case_step; keyed_by_owner_step.
Qed.

Lemma keyed_by_owner_updateUserPreferences (u : string) (p : PartialUserPreferences)
    (w : World) :
  keyed_by_owner w -> keyed_by_owner (snd (updateUserPreferences u p w)).
Proof.
  intros H. pose proof (keyed_by_owner_getUserPreferences u w H) as Hp.
  unfold updateUserPreferences. unfold_async. simpl_world.
  destruct (getUserPreferences u w) as [[q|e] w2]; simpl_world; simpl in Hp;
    [|exact Hp].
  repeat case_step; keyed_by_owner_step.
Qed.

Lemma keyed_by_owner_call (s : ServiceCall) (w : World) :
  keyed_by_owner w -> keyed_by_owner (call s w).
Proof.
  destruct s; simpl.
  - apply keyed_by_owner_getContext.
  - apply keyed_by_owner_updateContext.
  - apply keyed_by_owner_clearContext.
  - apply keyed_by_owner_getUserPreferences.
  - apply keyed_by_owner_updateUserPreferences.
Qed.

Lemma keyed_by_owner_empty (t : Z) : keyed_by_owner (empty_world t).
Proof. intros k e H. simpl in H. rewrite lookup_empty in H. discriminate. Qed.

Lemma keyed_by_owner_sample : keyed_by_owner world_before_weather.
Proof.
  exact (keyed_by_owner_updateContext sample_context (empty_world 0)
           (keyed_by_owner_empty 0)).
Qed.

(** X10.  Starting from an empty cache, after any sequence of calls of the
    context service, whatever fails and however much time passes between
    them, what is cached under a context key is a context whose own user and
    channel give that key, and what is cached under a preferences key is
    preferences: the two kinds are never confused. *)
Theorem cache_keyed_by_owner (l : list (Z * ServiceCall)) (w : World) :
  redis w = ∅ ->
  let w' := calls l w in
  (forall u c k, cached (context_key u c) w' = Some k ->
     exists ctx, k = JsonContext ctx
                 /\ context_key (userId ctx) (channelId ctx) = context_key u c)
  /\ (forall u k, cached (preferences_key u) w' = Some k ->
        exists p, k = JsonPreferences p).
Proof.
  intros He. cbv zeta.
  assert (H0 : keyed_by_owner w).
  { intros k e Hk. rewrite He, lookup_empty in Hk. discriminate. }
  clear He.
  assert (H : keyed_by_owner (calls l w)).
  { revert w H0. induction l as [|[d s] rest IH]; intros w H0; simpl; [exact H0|].
    apply IH, keyed_by_owner_call. exact H0. }
  split.
  - intros u c k Hc. unfold cached in Hc.
    destruct (redis (calls l w) !! context_key u c) as [e|] eqn:Hl; [|discriminate].
    specialize (H _ _ Hl). unfold keyed_by_owner_entry in H.
    simpl in Hc. unfold live in Hc. destruct (Z.ltb _ _); [|discriminate].
    inversion Hc as [Hv]. destruct (re_value e) as [ctx|p].
    + exists ctx. split; [reflexivity|]. symmetry. exact H.
    + unfold context_key in H. simpl in H. discriminate.
  - intros u k Hc. unfold cached in Hc.
    destruct (redis (calls l w) !! preferences_key u) as [e|] eqn:Hl; [|discriminate].
    specialize (H _ _ Hl). unfold keyed_by_owner_entry in H.
    simpl in Hc. unfold live in Hc. destruct (Z.ltb _ _); [|discriminate].
    inversion Hc as [Hv]. destruct (re_value e) as [ctx|p].
    + unfold preferences_key, context_key in H. simpl in H. discriminate.
    + exists p. reflexivity.
Qed.

Lemma cache_keyed_by_owner_witness :
  redis (empty_world 0) = ∅
  /\ forall u c k,
       cached (context_key u c) (calls two_calls (empty_world 0)) = Some k ->
       exists ctx, k = JsonContext ctx
                   /\ context_key (userId ctx) (channelId ctx) = context_key u c.
Proof.
  split; [reflexivity|].
  exact (proj1 (cache_keyed_by_owner two_calls (empty_world 0) eq_refl)).
Defined.

Lemma getUserPreferences_gateway (u : string) (w : World) :
  process_script (snd (getUserPreferences u w)) = process_script w.
Proof.
  unfold getUserPreferences. unfold_async. simpl_world.
  repeat case_step; reflexivity.
Qed.

(** What a successful [getContext] gives and leaves. *)
Lemma getContext_ok (u c : string) (w : World) :
  redis_up w -> keyed_by_owner w ->
  exists c0 w1,
    getContext u c w = (Returns c0, w1)
    /\ context_key (userId c0) (channelId c0) = context_key u c
    /\ history c0 = cached_history u c w
    /\ redis_up w1 /\ keyed_by_owner w1
    /\ clock w1 = clock w
    /\ process_script w1 = process_script w.
Proof.
  intros Hr Hk. unfold cached_history.
  destruct (cached (context_key u c) w) as [[k|p]|] eqn:Hc.
  - exists (revive_context k), (with_redis_faults (tl (redis_faults w)) w).
    rewrite (getContext_hit u c w k (redis_up_hd w Hr) Hc). simpl_world.
    split; [reflexivity|]. split.
    { unfold cached in Hc.
      destruct (redis w !! context_key u c) as [e|] eqn:Hl; [|discriminate].
      specialize (Hk _ _ Hl). unfold keyed_by_owner_entry in Hk.
      simpl in Hc. unfold live in Hc. destruct (Z.ltb _ _); [|discriminate].
      inversion Hc as [Hv]. rewrite Hv in Hk. symmetry. exact Hk. }
    split; [reflexivity|]. split; [apply redis_up_tl, Hr|].
    split; [exact Hk|]. split; reflexivity.
  - exfalso.
    exact (well_keyed_context_entry u c w p (keyed_by_owner_well_keyed w Hk) Hc).
  - pose proof (getContext_miss u c w Hr Hc) as Hrun. cbv zeta in Hrun.
    pose proof (keyed_by_owner_getContext u c w Hk) as Hk1.
    rewrite Hrun in Hk1 |- *. eexists _, _. split; [reflexivity|].
    set (w0 := with_redis_faults (tl (redis_faults w)) w) in *.
    destruct (getUserPreferences_frame u w0) as (Hr2 & Hclock & _).
    assert (Hr0 : redis_up w0) by (apply redis_up_tl, Hr).
    specialize (Hr2 Hr0).
    split; [reflexivity|]. split; [reflexivity|].
    split; [simpl_world; apply redis_up_tl, Hr2|].
    split; [exact Hk1|]. simpl_world.
    split; [exact Hclock|]. apply (getUserPreferences_gateway u w0).
Qed.

Lemma processMessage_ok (message : string) (ctx : ConversationContext) (w : World)
    (o : HttpOutcome (AIResponseOf AIMetadataWire)) rest data :
  process_script w = o :: rest -> outcome o = inr data ->
  exists r w2,
    processMessage message ctx w = (Returns r, w2)
    /\ content r = content data /\ ai_tools r = ai_tools data
    /\ clock w2 = clock w + elapsed o
    /\ redis w2 = redis w /\ redis_faults w2 = redis_faults w.
Proof.
  intros Hs Ho. unfold_gateway. unfold_async. simpl_world.
  rewrite Hs. simpl_world. rewrite Ho. simpl_world.
  eexists _, _. split; [reflexivity|]. repeat split.
Qed.

Lemma processMessage_failed (message : string) (ctx : ConversationContext) (w : World)
    (e : Error) :
  next_outcome (process_script w) = inl e ->
  exists w2,
    processMessage message ctx w
    = (Throws (Err ("Failed to process message: " +:+ err_message e)), w2)
    /\ same_stores w w2.
Proof.
  unfold next_outcome. intros H.
  unfold_gateway. unfold_async. simpl_world.
  destruct (process_script w) as [|o rest]; simpl_world.
  - inversion H; subst. eexists. split; [reflexivity|]. repeat split.
  - rewrite H. eexists. split; [reflexivity|]. repeat split.
Qed.

Lemma bind_returns {A B} (m : Async A) (k : A -> Async B) (w w1 : World) (a : A) :
  m w = (Returns a, w1) -> bind m k w = k a w1.
Proof. intros H. unfold bind. rewrite H. reflexivity. Qed.

Lemma bind_throws {A B} (m : Async A) (k : A -> Async B) (w w1 : World) (e : Error) :
  m w = (Throws e, w1) -> bind m k w = (Throws e, w1).
Proof. intros H. unfold bind. rewrite H. reflexivity. Qed.

Lemma try_catch_returns {A} (m : Async A) (h : Error -> Async A) (w w1 : World) (a : A) :
  m w = (Returns a, w1) -> try_catch m h w = (Returns a, w1).
Proof. intros H. unfold try_catch. rewrite H. reflexivity. Qed.

Lemma try_catch_throws {A} (m : Async A) (h : Error -> Async A) (w w1 : World)
    (e : Error) :
  m w = (Throws e, w1) -> try_catch m h w = h e w1.
Proof. intros H. unfold try_catch. rewrite H. reflexivity. Qed.

Lemma tells_message_reply (m : DiscordMessage) :
  tells_discord (message_reply m) (MessageReply (m_id m)).
Proof. intros c w. eexists. split; [reflexivity|]. repeat split. Qed.

Lemma tells_editReply (i : Interaction) :
  tells_discord (interaction_editReply i) (InteractionEditReply (ix_id i)).
Proof. intros c w. eexists. split; [reflexivity|]. repeat split. Qed.

Lemma updateContext_requests (ctx : ConversationContext) (w : World) :
  http_requests (trace (snd (updateContext ctx w))) = http_requests (trace w).
Proof.
  unfold updateContext, storeContextInDatabase. unfold_async. simpl_world.
  repeat case_step; reflexivity.
Qed.

(** The turn, when the cache is available and the text service answers. *)
Lemma conversational_turn_ok (t : InteractionType) (u c text : string)
    (reply : ReplyContent -> Async unit) (sent : ReplyContent -> Event) (note : string)
    (w : World) (o : HttpOutcome (AIResponseOf AIMetadataWire)) rest data :
  tells_discord reply sent ->
  redis_up w -> keyed_by_owner w ->
  process_script w = o :: rest -> outcome o = inr data ->
  exists w',
    conversational_turn t u c text reply note w = (Returns tt, w')
    /\ cached_history u c w'
       = (cached_history u c w
          ++ [ user_turn text (clock w) t;
               {| msg_role := Assistant; msg_content := content data;
                  msg_timestamp := clock w + elapsed o;
                  msg_metadata := Some {| md_tools := ai_tools data;
                                          md_interactionType := Some t |} |} ])%list
    /\ (exists tr,
          trace w' = Log LInfo note :: sent (Text (content data)) :: tr)
    /\ exists body,
         http_requests (trace w') = PostProcess body :: http_requests (trace w)
         /\ rq_message body = text
         /\ rq_history body
            = slice_last 10 (cached_history u c w ++ [user_turn text (clock w) t]).
Proof.
  intros Ha Hr Hk Hs Ho.
  destruct (getContext_ok u c w Hr Hk)
    as (c0 & w1 & Hg & Hkey & Hh & Hr1 & Hk1 & Hc1 & Hs1).
  destruct (getContext_frame u c w) as (_ & Hq1). rewrite Hg in Hq1. cbn [snd] in Hq1.
  rewrite Hs in Hs1.
  set (ctx1 := begin_turn t (clock w1) (user_turn text (clock w1) t) c0).
  destruct (processMessage_ok text ctx1 w1 o rest data Hs1 Ho)
    as (r & w2 & Hp & Hcontent & Htools & Hc2 & Hredis2 & Hf2).
  pose proof (processMessage_request text ctx1 w1) as Hq2.
  rewrite Hp in Hq2. cbn [snd] in Hq2.
  set (ctx2 := push_turn (assistant_turn r (clock w2) t) ctx1).
  assert (Hhd2 : hd None (redis_faults w2) = None)
    by (rewrite Hf2; apply redis_up_hd, Hr1).
  destruct (updateContext_cache_ok ctx2 w2 Hhd2) as (Hu & Hredis3 & Hc3 & _).
  pose proof (updateContext_requests ctx2 w2) as Hq3.
  destruct (updateContext ctx2 w2) as [r3 w3] eqn:Hupd.
  cbn [fst snd] in Hu, Hredis3, Hc3, Hq3.
  subst r3.
  destruct (Ha (Text (content r)) w3)
    as (w4 & Hreply & Hredis4 & _ & _ & Hc4 & Ht4 & Hq4).
  unfold conversational_turn.
  rewrite (bind_returns _ _ _ _ _ Hg).
  unfold Date_now at 1. unfold bind at 1. fold ctx1.
  rewrite (bind_returns _ _ _ _ _ Hp).
  unfold Date_now at 1. unfold bind at 1. fold ctx2.
  rewrite (bind_returns _ _ _ _ _ Hupd).
  rewrite (bind_returns _ _ _ _ _ Hreply).
  eexists. split; [reflexivity|]. simpl_world.
  split; [|split; [eexists; rewrite Ht4, Hcontent; reflexivity|]].
  - unfold cached_history at 1. unfold cached. simpl_world.
    rewrite Hredis4, Hredis3, Hc4.
    assert (Hk2 : context_key (userId ctx2) (channelId ctx2) = context_key u c)
      by exact Hkey.
    rewrite Hk2, lookup_insert_eq. simpl.
    unfold live. simpl. rewrite Hc3.
    destruct (Z.ltb_spec (clock w2) (clock w2 + CONTEXT_TTL * 1000));
      [|unfold CONTEXT_TTL in *; lia].
    simpl. rewrite revive_stringify_history.
    rewrite Hh, Hc2, Hc1. unfold assistant_turn.
    rewrite Hcontent, Htools. rewrite <- app_assoc. reflexivity.
  - exists (process_body text ctx1).
    split; [|split; [reflexivity|]].
    + cbn [http_requests]. rewrite Ht4, Hq4, Hq3, Hq2, Hq1. reflexivity.
    + unfold process_body, ctx1. cbn [history begin_turn]. rewrite Hh, Hc1. reflexivity.
Qed.

Lemma getContext_gateway (u c : string) (w : World) :
  process_script (snd (getContext u c w)) = process_script w.
Proof.
  pose proof (getUserPreferences_gateway u (with_redis_faults (tl (redis_faults w)) w))
    as Hp.
  unfold getContext. unfold_async. simpl_world.
  destruct (hd None (redis_faults w)); simpl_world; [reflexivity|].
  destruct (redis w !! context_key u c ≫= live (clock w)) as [[k|p]|];
    simpl_world; try reflexivity.
  destruct (getUserPreferences u _) as [[p|e] w2]; simpl_world; simpl in Hp.
  - destruct (hd None (redis_faults w2)); exact Hp.
  - exact Hp.
Qed.

(** The turn, when the text service fails: it throws, and the stores are
    as [getContext] left them. *)
Lemma conversational_turn_failed (t : InteractionType) (u c text : string)
    (reply : ReplyContent -> Async unit) (note : string)
    (w : World) (e : Error) :
  next_outcome (process_script w) = inl e ->
  exists e' w',
    conversational_turn t u c text reply note w = (Throws e', w')
    /\ same_stores (snd (getContext u c w)) w'.
Proof.
  intros Hs.
  pose proof (getContext_gateway u c w) as Hs1.
  destruct (getContext u c w) as [[c0|e0] w1] eqn:Hg; cbn [snd] in *.
  - rewrite <- Hs1 in Hs.
    set (ctx1 := begin_turn t (clock w1) (user_turn text (clock w1) t) c0).
    destruct (processMessage_failed text ctx1 w1 e Hs) as (w2 & Hp & Hsame).
    unfold conversational_turn.
    rewrite (bind_returns _ _ _ _ _ Hg).
    unfold Date_now at 1. unfold bind at 1. fold ctx1.
    rewrite (bind_throws _ _ _ _ _ Hp).
    eexists _, _. split; [reflexivity|]. exact Hsame.
  - unfold conversational_turn. rewrite (bind_throws _ _ _ _ _ Hg).
    eexists _, _. split; [reflexivity|]. repeat split.
Qed.

(** X11.  A conversational message, with the cache available and the text
    service answering: [handleConversationMessage] returns; the history
    cached for the author and channel is the one it was, followed by the
    user's text and by the answer (dated before and after the call of the
    service); one request goes to the text service, whose history is the
    last 10 turns of the old history with the user's text appended; and the
    answer is replied to the message. *)
Theorem conversation_turn_recorded (m : DiscordMessage) (text : string) (w : World)
    (o : HttpOutcome (AIResponseOf AIMetadataWire)) rest data :
  redis_up w -> keyed_by_owner w ->
  process_script w = o :: rest -> outcome o = inr data ->
  let w' := snd (MessageHandler.handleConversationMessage m text w) in
  fst (MessageHandler.handleConversationMessage m text w) = Returns tt
  /\ cached_history (m_author m) (m_channelId m) w'
     = (cached_history (m_author m) (m_channelId m) w
        ++ [ user_turn text (clock w) Message;
             {| msg_role := Assistant; msg_content := content data;
                msg_timestamp := clock w + elapsed o;
                msg_metadata := Some {| md_tools := ai_tools data;
                                        md_interactionType := Some Message |} |} ])%list
  /\ (exists t,
        trace w'
        = Log LInfo ("Conversation message processed for user " +:+ m_author m)
          :: MessageReply (m_id m) (Text (content data)) :: t)
  /\ exists body,
       http_requests (trace w') = PostProcess body :: http_requests (trace w)
       /\ rq_message body = text
       /\ rq_history body
          = slice_last 10 (cached_history (m_author m) (m_channelId m) w
                           ++ [user_turn text (clock w) Message]).
Proof.
  intros Hr Hk Hs Ho. cbv zeta.
  set (w0 := if m_canSendTyping m
             then with_trace (SendTyping (m_channelId m) :: trace w) w else w).
  assert (Hw0 : (if m_canSendTyping m then emit (SendTyping (m_channelId m))
                 else ret tt) w = (Returns tt, w0))
    by (subst w0; destruct (m_canSendTyping m); reflexivity).
  assert (Hr0 : redis_up w0) by (subst w0; destruct (m_canSendTyping m); exact Hr).
  assert (Hk0 : keyed_by_owner w0) by (subst w0; destruct (m_canSendTyping m); exact Hk).
  assert (Hs0 : process_script w0 = o :: rest)
    by (subst w0; destruct (m_canSendTyping m); exact Hs).
  assert (Hc0 : clock w0 = clock w) by (subst w0; destruct (m_canSendTyping m); reflexivity).
  assert (Hh0 : cached_history (m_author m) (m_channelId m) w0
                = cached_history (m_author m) (m_channelId m) w)
    by (subst w0; destruct (m_canSendTyping m); reflexivity).
  destruct (conversational_turn_ok Message (m_author m) (m_channelId m) text
              (message_reply m) (MessageReply (m_id m))
              ("Conversation message processed for user " +:+ m_author m)
              w0 o rest data (tells_message_reply m) Hr0 Hk0 Hs0 Ho)
    as (w' & Hrun & Hhist & Htrace & Hreq).
  unfold MessageHandler.handleConversationMessage.
  erewrite try_catch_returns;
    [| erewrite bind_returns; [exact Hrun | exact Hw0]].
  simpl_world. rewrite Hhist, Hh0, Hc0. split; [reflexivity|].
  split; [reflexivity|]. split; [exact Htrace|].
  destruct Hreq as (body & Hq & Hm & Hb). exists body.
  rewrite Hq, Hm, Hb, Hh0, Hc0. repeat split.
  subst w0. destruct (m_canSendTyping m); reflexivity.
Qed.

Lemma conversation_turn_recorded_witness :
  redis_up world_before_weather
  /\ process_script world_before_weather = [sunny]
  /\ fst (MessageHandler.handleConversationMessage hello_message "hello again"
            world_before_weather) = Returns tt
  /\ cached_history "u1" "c1"
       (snd (MessageHandler.handleConversationMessage hello_message "hello again"
               world_before_weather))
     = (history sample_context
        ++ [ user_turn "hello again" 0 Message;
             {| msg_role := Assistant; msg_content := "Sunny, 18 degrees";
                msg_timestamp := 120;
                msg_metadata := Some {| md_tools := None;
                                        md_interactionType := Some Message |} |} ])%list.
Proof.
  assert (Hr : redis_up world_before_weather) by constructor.
  destruct (conversation_turn_recorded hello_message "hello again" world_before_weather
              sunny [] sunny_answer Hr keyed_by_owner_sample eq_refl eq_refl)
    as (H1 & H2 & _).
  split; [exact Hr|]. split; [reflexivity|]. split; [exact H1|exact H2].
Defined.

(** The services read the world, never the trace. *)
Lemma getUserPreferences_ignores_trace (u : string) (t : list Event) (w : World) :
  exists t',
    getUserPreferences u (with_trace t w)
    = (fst (getUserPreferences u w), with_trace t' (snd (getUserPreferences u w))).
Proof.
  unfold getUserPreferences. unfold_async. simpl_world.
  repeat case_step; eexists; reflexivity.
Qed.

Lemma getContext_ignores_trace (u c : string) (t : list Event) (w : World) :
  exists t',
    getContext u c (with_trace t w)
    = (fst (getContext u c w), with_trace t' (snd (getContext u c w))).
Proof.
  destruct (getUserPreferences_ignores_trace u t
              (with_redis_faults (tl (redis_faults w)) w)) as (t1 & Hp).
  unfold getContext. unfold_async. simpl_world.
  destruct (hd None (redis_faults w)); simpl_world; [eexists; reflexivity|].
  destruct (redis w !! context_key u c ≫= live (clock w)) as [[k|p]|];
    simpl_world; try (eexists; reflexivity).
  change (with_redis_faults (tl (redis_faults w)) (with_trace t w))
    with (with_trace t (with_redis_faults (tl (redis_faults w)) w)).
  rewrite Hp.
  destruct (getUserPreferences u (with_redis_faults (tl (redis_faults w)) w))
    as [[p|e] w2]; simpl_world; [|eexists; reflexivity].
  destruct (hd None (redis_faults w2)); eexists; reflexivity.
Qed.

Lemma same_stores_trans (a b c : World) :
  same_stores a b -> same_stores b c -> same_stores a c.
Proof.
  unfold same_stores. intros (H1 & H2 & H3) (H4 & H5 & H6).
  rewrite H4, H5, H6. auto.
Qed.

(** X12.  When the text service fails, [handleConversationMessage] returns
    normally, replies with its apology, and records nothing: the cache and
    the durable store are as a mere [getContext] on the author and channel
    leaves them. *)
Theorem conversation_turn_failed (m : DiscordMessage) (text : string) (w : World)
    (e : Error) :
  next_outcome (process_script w) = inl e ->
  let w' := snd (MessageHandler.handleConversationMessage m text w) in
  fst (MessageHandler.handleConversationMessage m text w) = Returns tt
  /\ same_stores (snd (getContext (m_author m) (m_channelId m) w)) w'
  /\ exists t,
       trace w'
       = MessageReply (m_id m)
           (Text "Sorry, I encountered an error processing your message. Please try again.")
         :: Log LError "Error in conversation message:" :: t.
Proof.
  intros Hs. cbv zeta.
  set (w0 := if m_canSendTyping m
             then with_trace (SendTyping (m_channelId m) :: trace w) w else w).
  assert (Hw0 : (if m_canSendTyping m then emit (SendTyping (m_channelId m))
                 else ret tt) w = (Returns tt, w0))
    by (subst w0; destruct (m_canSendTyping m); reflexivity).
  assert (Hs0 : next_outcome (process_script w0) = inl e)
    by (subst w0; destruct (m_canSendTyping m); exact Hs).
  assert (Hg0 : same_stores (snd (getContext (m_author m) (m_channelId m) w))
                  (snd (getContext (m_author m) (m_channelId m) w0))).
  { subst w0. destruct (m_canSendTyping m); [|repeat split].
    destruct (getContext_ignores_trace (m_author m) (m_channelId m)
                (SendTyping (m_channelId m) :: trace w) w) as (t' & ->).
    repeat split. }
  destruct (conversational_turn_failed Message (m_author m) (m_channelId m) text
              (message_reply m)
              ("Conversation message processed for user " +:+ m_author m)
              w0 e Hs0)
    as (e' & w' & Hrun & Hsame).
  unfold MessageHandler.handleConversationMessage.
  erewrite try_catch_throws;
    [| erewrite bind_returns; [exact Hrun | exact Hw0]].
  unfold_async. simpl_world.
  split; [reflexivity|]. split; [|eexists; reflexivity].
  apply (same_stores_trans _ _ _ Hg0).
  destruct Hsame as (H1 & H2 & H3). repeat split; assumption.
Qed.

Lemma conversation_turn_failed_witness :
  next_outcome (process_script world_process_down) = inl network_error
  /\ fst (MessageHandler.handleConversationMessage hello_message "hello again"
            world_process_down) = Returns tt
  /\ same_stores (snd (getContext "u1" "c1" world_process_down))
       (snd (MessageHandler.handleConversationMessage hello_message "hello again"
               world_process_down)).
Proof.
  destruct (conversation_turn_failed hello_message "hello again" world_process_down
              network_error eq_refl) as (H1 & H2 & _).
  split; [reflexivity|]. split; [exact H1|exact H2].
Defined.

Lemma getString_required_run (name text : string) (i : Interaction) (w : World) :
  ix_options i !! name = Some (OString text) ->
  getString_required name i w = (Returns text, w).
Proof. intros H. unfold getString_required. rewrite H. reflexivity. Qed.

Lemma getBoolean_run (name : string) (b : option bool) (i : Interaction) (w : World) :
  ix_options i !! name = OBoolean <$> b ->
  getBoolean name i w = (Returns b, w).
Proof. intros H. unfold getBoolean. rewrite H. destruct b; reflexivity. Qed.

Lemma deferReply_run (i : Interaction) (e : bool) (w : World) :
  interaction_deferReply i e w
  = (Returns tt,
     with_deferred ({[ix_id i]} ∪ deferred w)
       (with_trace (InteractionDeferReply (ix_id i) e :: trace w) w)).
Proof. reflexivity. Qed.

(** X13.  [/chat], [/ask] and [/search] all hold one turn of conversation:
    with the cache available and the text service answering, the handler
    returns; the cached history of the user and channel gains the text of
    the option and the answer, both marked [slash]; one request goes to the
    text service with the last 10 turns; and the answer is sent with
    [editReply]. *)
Theorem slash_turn_recorded (handler : Interaction -> Async unit)
    (private : option bool)
    (name note apology text : string)
    (i : Interaction) (w : World)
    (o : HttpOutcome (AIResponseOf AIMetadataWire)) rest data :
  In (handler, (name, (note, apology))) conversational_commands ->
  ix_options i !! name = Some (OString text) ->
  ix_options i !! "private" = OBoolean <$> private ->
  redis_up w -> keyed_by_owner w ->
  process_script w = o :: rest -> outcome o = inr data ->
  let w' := snd (handler i w) in
  fst (handler i w) = Returns tt
  /\ cached_history (ix_user i) (ix_channelId i) w'
     = (cached_history (ix_user i) (ix_channelId i) w
        ++ [ user_turn text (clock w) Slash;
             {| msg_role := Assistant; msg_content := content data;
                msg_timestamp := clock w + elapsed o;
                msg_metadata := Some {| md_tools := ai_tools data;
                                        md_interactionType := Some Slash |} |} ])%list
  /\ (exists t,
        trace w'
        = Log LInfo (note +:+ ix_user i)
          :: InteractionEditReply (ix_id i) (Text (content data)) :: t)
  /\ exists body,
       http_requests (trace w') = PostProcess body :: http_requests (trace w)
       /\ rq_message body = text
       /\ rq_history body
          = slice_last 10 (cached_history (ix_user i) (ix_channelId i) w
                           ++ [user_turn text (clock w) Slash]).
Proof.
  intros Hin Hopt Hpriv Hr Hk Hs Ho. cbv zeta.
  assert (Hturn : forall eph,
    let w0 := with_deferred ({[ix_id i]} ∪ deferred w)
                (with_trace (InteractionDeferReply (ix_id i) eph :: trace w) w) in
    exists w',
      conversational_turn Slash (ix_user i) (ix_channelId i) text
        (interaction_editReply i) (note +:+ ix_user i) w0 = (Returns tt, w')
      /\ cached_history (ix_user i) (ix_channelId i) w'
         = (cached_history (ix_user i) (ix_channelId i) w
            ++ [ user_turn text (clock w) Slash;
                 {| msg_role := Assistant; msg_content := content data;
                    msg_timestamp := clock w + elapsed o;
                    msg_metadata := Some {| md_tools := ai_tools data;
                                            md_interactionType := Some Slash |} |} ])%list
      /\ (exists t,
            trace w'
            = Log LInfo (note +:+ ix_user i)
              :: InteractionEditReply (ix_id i) (Text (content data)) :: t)
      /\ exists body,
           http_requests (trace w') = PostProcess body :: http_requests (trace w)
           /\ rq_message body = text
           /\ rq_history body
              = slice_last 10 (cached_history (ix_user i) (ix_channelId i) w
                               ++ [user_turn text (clock w) Slash])).
  { intros eph w0.
    apply (conversational_turn_ok Slash (ix_user i) (ix_channelId i) text
             (interaction_editReply i) (InteractionEditReply (ix_id i))
             (note +:+ ix_user i) w0 o rest data (tells_editReply i) Hr Hk Hs Ho). }
  simpl in Hin. destruct Hin as [Hin|[Hin|[Hin|[]]]]; inversion Hin; subst; clear Hin.
  - destruct (Hturn (default false private)) as (w' & Hrun & Hhist & Htrace & Hreq).
    unfold SlashCommandHandler.handleChatCommand.
    rewrite (bind_returns _ _ _ _ _ (getString_required_run _ _ _ _ Hopt)).
    rewrite (bind_returns _ _ _ _ _ (getBoolean_run _ _ _ _ Hpriv)).
    rewrite (bind_returns _ _ _ _ _ (deferReply_run _ _ _)).
    rewrite (try_catch_returns _ _ _ _ _ Hrun).
    split; [reflexivity|]. split; [exact Hhist|]. split; [exact Htrace|exact Hreq].
  - destruct (Hturn false) as (w' & Hrun & Hhist & Htrace & Hreq).
    unfold SlashCommandHandler.handleAskCommand.
    rewrite (bind_returns _ _ _ _ _ (getString_required_run _ _ _ _ Hopt)).
    rewrite (bind_returns _ _ _ _ _ (deferReply_run _ _ _)).
    rewrite (try_catch_returns _ _ _ _ _ Hrun).
    split; [reflexivity|]. split; [exact Hhist|]. split; [exact Htrace|exact Hreq].
  - destruct (Hturn false) as (w' & Hrun & Hhist & Htrace & Hreq).
    unfold SlashCommandHandler.handleSearchCommand.
    rewrite (bind_returns _ _ _ _ _ (getString_required_run _ _ _ _ Hopt)).
    rewrite (bind_returns _ _ _ _ _ (deferReply_run _ _ _)).
    rewrite (try_catch_returns _ _ _ _ _ Hrun).
    split; [reflexivity|]. split; [exact Hhist|]. split; [exact Htrace|exact Hreq].
Qed.

Lemma slash_turn_recorded_witness :
  redis_up world_of_weather
  /\ fst (SlashCommandHandler.handleChatCommand chat_invocation world_of_weather)
     = Returns tt
  /\ cached_history "u1" "c1"
       (snd (SlashCommandHandler.handleChatCommand chat_invocation world_of_weather))
     = [ user_turn "hello again" 1000 Slash;
         {| msg_role := Assistant; msg_content := "Sunny, 18 degrees";
            msg_timestamp := 1120;
            msg_metadata := Some {| md_tools := None;
                                    md_interactionType := Some Slash |} |} ].
Proof.
  assert (Hr : redis_up world_of_weather) by constructor.
  destruct (slash_turn_recorded SlashCommandHandler.handleChatCommand None
              "message" "Chat command executed for user "
              "Sorry, I encountered an error processing your message. Please try again."
              "hello again" chat_invocation world_of_weather sunny [sunny] sunny_answer
              (or_introl eq_refl) eq_refl eq_refl Hr (keyed_by_owner_empty 1000)
              eq_refl eq_refl)
    as (H1 & H2 & _).
  split; [exact Hr|]. split; [exact H1|exact H2].
Defined.

Lemma getUserPreferences_ignores_deferral (u : string) (d : gset string)
    (t : list Event) (w : World) :
  exists t',
    getUserPreferences u (with_deferred d (with_trace t w))
    = (fst (getUserPreferences u w),
       with_deferred d (with_trace t' (snd (getUserPreferences u w)))).
Proof.
  unfold getUserPreferences. unfold_async. simpl_world.
  repeat case_step; eexists; reflexivity.
Qed.

Lemma getContext_ignores_deferral (u c : string) (d : gset string)
    (t : list Event) (w : World) :
  exists t',
    getContext u c (with_deferred d (with_trace t w))
    = (fst (getContext u c w),
       with_deferred d (with_trace t' (snd (getContext u c w)))).
Proof.
  destruct (getUserPreferences_ignores_deferral u d t
              (with_redis_faults (tl (redis_faults w)) w)) as (t1 & Hp).
  unfold getContext. unfold_async. simpl_world.
  destruct (hd None (redis_faults w)); simpl_world; [eexists; reflexivity|].
  destruct (redis w !! context_key u c ≫= live (clock w)) as [[k|p]|];
    simpl_world; try (eexists; reflexivity).
  change (with_redis_faults (tl (redis_faults w)) (with_deferred d (with_trace t w)))
    with (with_deferred d (with_trace t (with_redis_faults (tl (redis_faults w)) w))).
  rewrite Hp.
  destruct (getUserPreferences u (with_redis_faults (tl (redis_faults w)) w))
    as [[p|e] w2]; simpl_world; [|eexists; reflexivity].
  destruct (hd None (redis_faults w2)); eexists; reflexivity.
Qed.

Lemma editReply_run (i : Interaction) (c : ReplyContent) (w : World) :
  interaction_editReply i c w
  = (Returns tt,
     with_replied ({[ix_id i]} ∪ replied w)
       (with_trace (InteractionEditReply (ix_id i) c :: trace w) w)).
Proof. reflexivity. Qed.

(** X14.  When the text service fails, [/chat], [/ask] and [/search] return
    normally, answer with their own apology through [editReply], and record
    nothing: the stores are as a mere [getContext] leaves them. *)
Theorem slash_turn_failed (handler : Interaction -> Async unit)
    (private : option bool) (name note apology text : string)
    (i : Interaction) (w : World) (e : Error) :
  In (handler, (name, (note, apology))) conversational_commands ->
  ix_options i !! name = Some (OString text) ->
  ix_options i !! "private" = OBoolean <$> private ->
  next_outcome (process_script w) = inl e ->
  let w' := snd (handler i w) in
  fst (handler i w) = Returns tt
  /\ same_stores (snd (getContext (ix_user i) (ix_channelId i) w)) w'
  /\ exists t, trace w' = InteractionEditReply (ix_id i) (Text apology) :: t.
Proof.
  intros Hin Hopt Hpriv Hs. cbv zeta.
  assert (Hturn : forall eph,
    let w0 := with_deferred ({[ix_id i]} ∪ deferred w)
                (with_trace (InteractionDeferReply (ix_id i) eph :: trace w) w) in
    exists e' w',
      conversational_turn Slash (ix_user i) (ix_channelId i) text
        (interaction_editReply i) (note +:+ ix_user i) w0 = (Throws e', w')
      /\ same_stores (snd (getContext (ix_user i) (ix_channelId i) w)) w').
  { intros eph w0.
    destruct (conversational_turn_failed Slash (ix_user i) (ix_channelId i) text
                (interaction_editReply i) (note +:+ ix_user i) w0 e Hs)
      as (e' & w' & Hrun & Hsame).
    exists e', w'. split; [exact Hrun|].
    refine (same_stores_trans _ _ _ _ Hsame). subst w0.
    destruct (getContext_ignores_deferral (ix_user i) (ix_channelId i)
                ({[ix_id i]} ∪ deferred w)
                (InteractionDeferReply (ix_id i) eph :: trace w) w) as (t' & ->).
    repeat split. }
  simpl in Hin. destruct Hin as [Hin|[Hin|[Hin|[]]]]; inversion Hin; subst; clear Hin.
  - destruct (Hturn (default false private)) as (e' & w' & Hrun & Hsame).
    unfold SlashCommandHandler.handleChatCommand.
    rewrite (bind_returns _ _ _ _ _ (getString_required_run _ _ _ _ Hopt)).
    rewrite (bind_returns _ _ _ _ _ (getBoolean_run _ _ _ _ Hpriv)).
    rewrite (bind_returns _ _ _ _ _ (deferReply_run _ _ _)).
    rewrite (try_catch_throws _ _ _ _ _ Hrun).
    unfold logger_error, emit. unfold bind at 1. rewrite editReply_run. simpl_world.
    split; [reflexivity|]. split; [exact Hsame|eexists; reflexivity].
  - destruct (Hturn false) as (e' & w' & Hrun & Hsame).
    unfold SlashCommandHandler.handleAskCommand.
    rewrite (bind_returns _ _ _ _ _ (getString_required_run _ _ _ _ Hopt)).
    rewrite (bind_returns _ _ _ _ _ (deferReply_run _ _ _)).
    rewrite (try_catch_throws _ _ _ _ _ Hrun).
    unfold logger_error, emit. unfold bind at 1. rewrite editReply_run. simpl_world.
    split; [reflexivity|]. split; [exact Hsame|eexists; reflexivity].
  - destruct (Hturn false) as (e' & w' & Hrun & Hsame).
    unfold SlashCommandHandler.handleSearchCommand.
    rewrite (bind_returns _ _ _ _ _ (getString_required_run _ _ _ _ Hopt)).
    rewrite (bind_returns _ _ _ _ _ (deferReply_run _ _ _)).
    rewrite (try_catch_throws _ _ _ _ _ Hrun).
    unfold logger_error, emit. unfold bind at 1. rewrite editReply_run. simpl_world.
    split; [reflexivity|]. split; [exact Hsame|eexists; reflexivity].
Qed.

Lemma slash_turn_failed_witness :
  next_outcome (process_script world_process_down) = inl network_error
  /\ fst (SlashCommandHandler.handleChatCommand chat_invocation world_process_down)
     = Returns tt
  /\ exists t,
       trace (snd (SlashCommandHandler.handleChatCommand chat_invocation
                     world_process_down))
       = InteractionEditReply "i5"
           (Text "Sorry, I encountered an error processing your message. Please try again.")
         :: t.
Proof.
  destruct (slash_turn_failed SlashCommandHandler.handleChatCommand None
              "message" "Chat command executed for user "
              "Sorry, I encountered an error processing your message. Please try again."
              "hello again" chat_invocation world_process_down network_error
              (or_introl eq_refl) eq_refl eq_refl eq_refl)
    as (H1 & _ & H3).
  split; [reflexivity|]. split; [exact H1|exact H3].
Defined.

(** The turn, when the cache is down: nothing is asked of the text
    service. *)
Lemma conversational_turn_cache_down (t : InteractionType) (u c text : string)
    (reply : ReplyContent -> Async unit) (note : string) (w : World) (e : Error) :
  hd None (redis_faults w) = Some e ->
  conversational_turn t u c text reply note w
  = (Throws e,
     with_trace (Log LError "Error getting context:" :: trace w)
       (with_redis_faults (tl (redis_faults w)) w)).
Proof.
  intros H. unfold conversational_turn.
  rewrite (bind_throws _ _ _ _ _ (getContext_cache_down u c w e H)). reflexivity.
Qed.

(** X15.  With the cache down, the conversational handlers of both routers
    return normally and apologise; no request is sent to the text service
    and the stores are untouched. *)
Theorem cache_down_apology (w : World) (e : Error) :
  hd None (redis_faults w) = Some e ->
  (forall (m : DiscordMessage) (text : string),
     let w' := snd (MessageHandler.handleConversationMessage m text w) in
     fst (MessageHandler.handleConversationMessage m text w) = Returns tt
     /\ http_requests (trace w') = http_requests (trace w)
     /\ same_stores w w'
     /\ exists t,
          trace w'
          = MessageReply (m_id m)
              (Text "Sorry, I encountered an error processing your message. Please try again.")
            :: t)
  /\ (forall handler name note apology (i : Interaction) text private,
        In (handler, (name, (note, apology))) conversational_commands ->
        ix_options i !! name = Some (OString text) ->
        ix_options i !! "private" = OBoolean <$> private ->
        let w' := snd (handler i w) in
        fst (handler i w) = Returns tt
        /\ http_requests (trace w') = http_requests (trace w)
        /\ same_stores w w'
        /\ exists t, trace w' = InteractionEditReply (ix_id i) (Text apology) :: t).
Proof.
  intros He. split.
  - intros m text. cbv zeta.
    set (w0 := if m_canSendTyping m
               then with_trace (SendTyping (m_channelId m) :: trace w) w else w).
    assert (Hw0 : (if m_canSendTyping m then emit (SendTyping (m_channelId m))
                   else ret tt) w = (Returns tt, w0))
      by (subst w0; destruct (m_canSendTyping m); reflexivity).
    assert (He0 : hd None (redis_faults w0) = Some e)
      by (subst w0; destruct (m_canSendTyping m); exact He).
    unfold MessageHandler.handleConversationMessage.
    erewrite try_catch_throws;
      [| erewrite bind_returns;
         [exact (conversational_turn_cache_down Message _ _ text _ _ w0 e He0)
         | exact Hw0]].
    unfold_async. simpl_world. subst w0.
    destruct (m_canSendTyping m); simpl_world;
      (split; [reflexivity|]; split; [reflexivity|];
       split; [repeat split|eexists; reflexivity]).
  - intros handler name note apology i text private Hin Hopt Hpriv. cbv zeta.
    simpl in Hin. destruct Hin as [Hin|[Hin|[Hin|[]]]]; inversion Hin; subst; clear Hin.
    + unfold SlashCommandHandler.handleChatCommand.
      rewrite (bind_returns _ _ _ _ _ (getString_required_run _ _ _ _ Hopt)).
      rewrite (bind_returns _ _ _ _ _ (getBoolean_run _ _ _ _ Hpriv)).
      rewrite (bind_returns _ _ _ _ _ (deferReply_run _ _ _)).
      erewrite try_catch_throws;
        [|exact (conversational_turn_cache_down Slash _ _ text _ _
                  (with_deferred _ (with_trace _ w)) e He)].
      unfold_async. unfold interaction_editReply. unfold_async. simpl_world.
      split; [reflexivity|]. split; [reflexivity|].
      split; [repeat split|eexists; reflexivity].
    + unfold SlashCommandHandler.handleAskCommand.
      rewrite (bind_returns _ _ _ _ _ (getString_required_run _ _ _ _ Hopt)).
      rewrite (bind_returns _ _ _ _ _ (deferReply_run _ _ _)).
      erewrite try_catch_throws;
        [|exact (conversational_turn_cache_down Slash _ _ text _ _
                  (with_deferred _ (with_trace _ w)) e He)].
      unfold_async. unfold interaction_editReply. unfold_async. simpl_world.
      split; [reflexivity|]. split; [reflexivity|].
      split; [repeat split|eexists; reflexivity].
    + unfold SlashCommandHandler.handleSearchCommand.
      rewrite (bind_returns _ _ _ _ _ (getString_required_run _ _ _ _ Hopt)).
      rewrite (bind_returns _ _ _ _ _ (deferReply_run _ _ _)).
      erewrite try_catch_throws;
        [|exact (conversational_turn_cache_down Slash _ _ text _ _
                  (with_deferred _ (with_trace _ w)) e He)].
      unfold_async. unfold interaction_editReply. unfold_async. simpl_world.
      split; [reflexivity|]. split; [reflexivity|].
      split; [repeat split|eexists; reflexivity].
Qed.

Lemma cache_down_apology_witness :
  hd None (redis_faults world_redis_down) = Some connection_refused
  /\ fst (MessageHandler.handleConversationMessage hello_message "hello again"
            world_redis_down) = Returns tt
  /\ http_requests
       (trace (snd (MessageHandler.handleConversationMessage hello_message "hello again"
                      world_redis_down))) = [].
Proof.
  destruct (cache_down_apology world_redis_down connection_refused eq_refl) as [H _].
  destruct (H hello_message "hello again") as (H1 & H2 & _).
  split; [reflexivity|]. split; [exact H1|exact H2].
Defined.

(* ===================================================================== *)
(** ** Preferences through the routers                                 *)
(* ===================================================================== *)

(** A successful [updateUserPreferences], with both stores available. *)
Lemma updateUserPreferences_ok (u : string) (p : PartialUserPreferences) (w : World) :
  redis_up w -> pg_up w ->
  exists w',
    updateUserPreferences u p w = (Returns tt, w')
    /\ redis w' !! preferences_key u
       = Some {| re_value := JsonPreferences (merge_preferences (current_preferences u w) p);
                 re_expiresAt := clock w + PREFERENCES_TTL * 1000 |}
    /\ clock w' = clock w /\ redis_up w'
    /\ exists t, trace w' = Log LInfo ("Updated preferences for user " +:+ u) :: t.
Proof.
  intros Hr Hp.
  pose proof (getUserPreferences_current u w Hr) as Hv.
  destruct (getUserPreferences_frame u w) as (Hr2 & Hclock & _).
  specialize (Hr2 Hr). pose proof (getUserPreferences_pg_up u w Hp) as Hp2.
  apply redis_up_hd in Hr2 as Hr2h. apply pg_up_hd in Hp2.
  unfold updateUserPreferences. unfold_async.
  destruct (getUserPreferences u w) as [r w2]. simpl in Hv, Hr2h, Hp2, Hclock |- *.
  rewrite Hv. simpl_world. rewrite Hp2. simpl_world. rewrite Hr2h. simpl_world.
  eexists. split; [reflexivity|]. simpl_world.
  split; [rewrite lookup_insert_eq, Hclock; reflexivity|].
  split; [exact Hclock|]. split; [|eexists; reflexivity].
  unfold redis_up. simpl_world. apply up_tl_up. exact Hr2.
Qed.

(** Reading the preferences settles them in the cache. *)
Lemma getUserPreferences_settles (u : string) (w : World) :
  redis_up w -> pg_up w -> well_keyed w ->
  exists w1,
    getUserPreferences u w = (Returns (current_preferences u w), w1)
    /\ current_preferences u w1 = current_preferences u w
    /\ redis_up w1 /\ pg_up w1 /\ clock w1 = clock w.
Proof.
  intros Hr Hp Hk. unfold current_preferences at 1 3.
  destruct (cached (preferences_key u) w) as [[k|p]|] eqn:Hc.
  - exfalso. exact (well_keyed_preferences_entry u w k Hk Hc).
  - rewrite (getUserPreferences_hit_run u w p (redis_up_hd w Hr) Hc).
    eexists. split; [reflexivity|].
    split; [unfold current_preferences, cached in *; simpl_world; rewrite Hc; reflexivity|].
    split; [apply redis_up_tl, Hr|]. split; [exact Hp|reflexivity].
  - rewrite (pg_up_hd w Hp). destruct (users w !! u) as [p|] eqn:Hu.
    + destruct (getUserPreferences_stored_run u w p Hr Hp Hc Hu)
        as (w' & Hrun & Hredis & Hclock & Hr' & Hp' & _).
      rewrite Hrun. eexists. split; [reflexivity|].
      split; [|repeat split; assumption].
      unfold current_preferences, cached. rewrite Hredis, lookup_insert_eq. simpl.
      rewrite Hclock. replace (clock w) with (clock w + 0) at 1 by lia.
      rewrite live_fresh by (unfold PREFERENCES_TTL; lia). reflexivity.
    + rewrite (getUserPreferences_rowless_run u w (redis_up_hd w Hr) (pg_up_hd w Hp)
                 Hc Hu).
      eexists. split; [reflexivity|]. split.
      * unfold current_preferences, cached in *. simpl_world. rewrite Hc.
        rewrite (up_hd _ (up_tl_up _ (up_tl_up _ Hp))), Hu. reflexivity.
      * split; [apply redis_up_tl, Hr|].
        split; [unfold pg_up; simpl_world; apply up_tl_up, up_tl_up, Hp|reflexivity].
Qed.

Lemma merge_whole (cur p : UserPreferences) :
  voiceModel p = voiceModel cur ->
  merge_preferences cur (SlashCommandHandler.whole p) = p.
Proof.
  intros H. destruct p as [l v t a n]. simpl in *. subst v.
  unfold merge_preferences. simpl. destruct (voiceModel cur); reflexivity.
Qed.

Lemma getString_run (name : string) (s : option string) (i : Interaction) (w : World) :
  ix_options i !! name = OString <$> s ->
  getString name i w = (Returns s, w).
Proof. intros H. unfold getString. rewrite H. destruct s; reflexivity. Qed.

(** X16.  [/settings update], with both stores available and a cache written
    by the service: the handler returns and confirms; for the next 24 hours
    the user's preferences are the ones they had, with the language replaced
    when a non-empty one is given and the auto-join flag replaced when one
    is given ([false] included); the other fields are unchanged. *)
Theorem settings_update_read_back (i : Interaction) (w : World) (d : Z)
    (lang : option string) (auto : option bool) :
  ix_subcommand i = Some "update" ->
  ix_options i !! "language" = OString <$> lang ->
  ix_options i !! "auto_join_voice" = OBoolean <$> auto ->
  redis_up w -> pg_up w -> well_keyed w ->
  0 <= d < PREFERENCES_TTL * 1000 ->
  let p := current_preferences (ix_user i) w in
  let w' := snd (SlashCommandHandler.handleSettingsCommand i w) in
  fst (SlashCommandHandler.handleSettingsCommand i w) = Returns tt
  /\ fst (getUserPreferences (ix_user i) (advance d w'))
     = Returns {| language := or_string lang (language p);
                  voiceModel := voiceModel p;
                  textModel := textModel p;
                  autoJoinVoice := default (autoJoinVoice p) auto;
                  notificationSettings := notificationSettings p |}
  /\ exists t,
       trace w'
       = InteractionReply (ix_id i) (Text "✅ Your settings have been updated!") true :: t.
Proof.
  intros Hsub Hlang Hauto Hr Hp Hk Hd. cbv zeta.
  destruct (getUserPreferences_settles (ix_user i) w Hr Hp Hk)
    as (w1 & Hget & Hcur & Hr1 & Hp1 & Hc1).
  set (p := current_preferences (ix_user i) w) in *.
  set (p' := {| language := or_string lang (language p);
                voiceModel := voiceModel p;
                textModel := textModel p;
                autoJoinVoice := default (autoJoinVoice p) auto;
                notificationSettings := notificationSettings p |}).
  destruct (updateUserPreferences_ok (ix_user i) (SlashCommandHandler.whole p') w1 Hr1 Hp1)
    as (w2 & Hupd & Hredis & Hc2 & Hr2 & t2 & Ht2).
  rewrite Hcur, (merge_whole p p' eq_refl) in Hredis.
  assert (Hrun : SlashCommandHandler.handleSettingsCommand i w
                 = interaction_reply i (Text "✅ Your settings have been updated!") true w2).
  { unfold SlashCommandHandler.handleSettingsCommand, getSubcommand. rewrite Hsub.
    unfold ret at 1. unfold bind at 1. cbn [String.eqb Ascii.eqb Bool.eqb].
    rewrite (bind_returns _ _ _ _ _ (getString_run _ _ _ _ Hlang)).
    rewrite (bind_returns _ _ _ _ _ (getBoolean_run _ _ _ _ Hauto)).
    apply try_catch_returns.
    rewrite (bind_returns _ _ _ _ _ Hget). fold p'.
    rewrite (bind_returns _ _ _ _ _ Hupd). reflexivity. }
  rewrite Hrun. unfold interaction_reply. unfold_async. simpl_world.
  split; [reflexivity|]. split; [|eexists; reflexivity].
  rewrite (getUserPreferences_hit_run (ix_user i) _ p'); [reflexivity| |].
  - simpl_world. apply redis_up_hd, Hr2.
  - unfold cached. simpl_world. rewrite Hredis. simpl. rewrite Hc2, Hc1.
    apply live_fresh. exact Hd.
Qed.

Lemma settings_update_read_back_witness :
  ix_subcommand settings_invocation = Some "update"
  /\ redis_up (empty_world 0) /\ pg_up (empty_world 0)
  /\ 0 <= 1000 < PREFERENCES_TTL * 1000
  /\ fst (getUserPreferences "u1"
            (advance 1000
               (snd (SlashCommandHandler.handleSettingsCommand settings_invocation
                       (empty_world 0)))))
     = Returns {| language := "es"; voiceModel := None; textModel := "gpt-4";
                  autoJoinVoice := true;
                  notificationSettings :=
                    {| reminders := true; mentions := true; dms := true |} |}.
Proof.
  assert (Hr : redis_up (empty_world 0)) by constructor.
  assert (Hp : pg_up (empty_world 0)) by constructor.
  assert (Hd : 0 <= 1000 < PREFERENCES_TTL * 1000) by (unfold PREFERENCES_TTL; lia).
  split; [reflexivity|]. split; [exact Hr|]. split; [exact Hp|]. split; [exact Hd|].
  exact (proj1 (proj2 (settings_update_read_back settings_invocation (empty_world 0) 1000
                         (Some "es") None eq_refl eq_refl eq_refl Hr Hp
                         (well_keyed_empty 0) Hd))).
Defined.

(** X17.  [updateUserPreferences] reads the current preferences through
    [getUserPreferences], which answers a failed durable read with the
    defaults. So when that read fails and the update that follows succeeds,
    the stored preferences of the user are replaced by the defaults
    overridden by the fields given: what the user had stored in the other
    fields is lost, and the call returns normally. *)
Theorem updateUserPreferences_after_failed_read (u : string) (p : PartialUserPreferences)
    (w : World) (e : Error) (stored : UserPreferences) :
  redis_up w ->
  cached (preferences_key u) w = None ->
  users w !! u = Some stored ->
  hd None (pg_faults w) = Some e ->
  hd None (tl (pg_faults w)) = None ->
  fst (updateUserPreferences u p w) = Returns tt
  /\ users (snd (updateUserPreferences u p w)) !! u
     = Some (merge_preferences defaultPreferences p)
  /\ cached (preferences_key u) (snd (updateUserPreferences u p w))
     = Some (JsonPreferences (merge_preferences defaultPreferences p)).
Proof.
  intros Hr Hc Hu He Hp2. unfold cached in Hc.
  pose proof (redis_up_hd w Hr) as Hr1.
  pose proof (up_hd _ (redis_up_tl w Hr)) as Hr2.
  unfold updateUserPreferences, getUserPreferences. unfold_async. simpl_world.
  rewrite Hr1. simpl_world. rewrite Hc. simpl_world. rewrite He. simpl_world.
  rewrite Hp2. simpl_world. rewrite Hr2. simpl_world. rewrite Hu.
  split; [reflexivity|]. split; [apply lookup_insert_eq|].
  unfold cached. simpl_world. rewrite lookup_insert_eq. simpl.
  replace (clock w) with (clock w + 0) at 1 by lia.
  apply live_fresh. unfold PREFERENCES_TTL. lia.
Qed.

Lemma updateUserPreferences_after_failed_read_witness :
  users world_stored_user_pg_down !! "u2" = Some (merge_preferences defaultPreferences spanish)
  /\ hd None (pg_faults world_stored_user_pg_down) = Some connection_refused
  /\ users (snd (updateUserPreferences "u2"
                   {| p_language := None; p_voiceModel := None; p_textModel := None;
                      p_autoJoinVoice := Some false; p_notificationSettings := None |}
                   world_stored_user_pg_down)) !! "u2"
     = Some {| language := "en"; voiceModel := None; textModel := "gpt-4";
               autoJoinVoice := false;
               notificationSettings :=
                 {| reminders := true; mentions := true; dms := true |} |}.
Proof.
  assert (Hr : redis_up world_stored_user_pg_down) by constructor.
  destruct (updateUserPreferences_after_failed_read "u2"
              {| p_language := None; p_voiceModel := None; p_textModel := None;
                 p_autoJoinVoice := Some false; p_notificationSettings := None |}
              world_stored_user_pg_down connection_refused
              (merge_preferences defaultPreferences spanish)
              Hr eq_refl eq_refl eq_refl eq_refl) as (_ & H2 & _).
  split; [reflexivity|]. split; [reflexivity|]. exact H2.
Defined.

(* ===================================================================== *)
(** ** Cache management                                                *)
(* ===================================================================== *)

Lemma append_nil_l (b : string) : "" +:+ b = b.
Proof. reflexivity. Qed.

Lemma append_cons (x : ascii) (a b : string) : String x a +:+ b = String x (a +:+ b).
Proof. reflexivity. Qed.

Lemma glob_any (p s : string) :
  glob (String star p) s = true <-> exists a b, s = a +:+ b /\ glob p b = true.
Proof.
  change (glob (String star p) s)
    with ((fix any (s : string) : bool :=
             glob p s || match s with EmptyString => false | String _ s' => any s' end) s).
  induction s as [|d s IH].
  - split.
    + intros H. rewrite orb_false_r in H. exists "", "". split; [reflexivity|exact H].
    + intros (a & b & Hs & Hb). destruct a; [|rewrite append_cons in Hs; discriminate].
      rewrite append_nil_l in Hs. subst b. rewrite Hb. reflexivity.
  - split.
    + intros H. apply orb_true_iff in H as [H|H].
      * exists "", (String d s). split; [reflexivity|exact H].
      * apply IH in H as (a & b & -> & Hb). exists (String d a), b. split; [reflexivity|exact Hb].
    + intros (a & b & Hs & Hb). apply orb_true_iff. destruct a as [|x a].
      * left. rewrite append_nil_l in Hs. subst b. exact Hb.
      * right. rewrite append_cons in Hs. inversion Hs; subst.
        apply IH. exists a, b. split; [reflexivity|exact Hb].
Qed.

Lemma glob_literal (lit p s : string) :
  glob_plain lit = true ->
  glob (lit +:+ p) s = true <-> exists b, s = lit +:+ b /\ glob p b = true.
Proof.
  revert s. induction lit as [|c lit IH]; intros s Hl.
  - split; [intros H; exists s; split; [reflexivity|exact H]|].
    intros (b & -> & Hb). exact Hb.
  - simpl in Hl. repeat (apply andb_true_iff in Hl as [Hl ?]).
    apply negb_true_iff in Hl.
    change (String c lit +:+ p) with (String c (lit +:+ p)).
    cbn [glob]. rewrite Hl. destruct s as [|d s].
    + split; [discriminate|]. intros (b & Hs & _). rewrite append_cons in Hs. discriminate.
    + split.
      * intros H'. apply andb_true_iff in H' as [Hc Hrest].
        apply Ascii.eqb_eq in Hc. subst d.
        apply IH in Hrest as (b & -> & Hb); [|assumption].
        exists b. split; [reflexivity|exact Hb].
      * intros (b & Hs & Hb). rewrite append_cons in Hs.
        inversion Hs; subst. rewrite Ascii.eqb_refl. simpl.
        apply IH; [assumption|]. exists b. split; [reflexivity|exact Hb].
Qed.

Lemma glob_all (s : string) : glob (String star "") s = true.
Proof.
  apply glob_any. exists s, "". split; [|reflexivity].
  induction s as [|c s IH]; [reflexivity|].
  change (String c s = String c (s +:+ "")). rewrite <- IH. reflexivity.
Qed.

Lemma append_assoc (a b c : string) : (a +:+ b) +:+ c = a +:+ (b +:+ c).
Proof.
  induction a as [|x a IH]; [reflexivity|].
  change (String x ((a +:+ b) +:+ c) = String x (a +:+ (b +:+ c))). rewrite IH. reflexivity.
Qed.

(** The keys [clearUserCache] asks for: those with the id between two
    colons. *)
Lemma glob_user_pattern (u k : string) :
  glob_plain u = true ->
  glob ("*:" +:+ u +:+ ":*") k = true
  <-> exists a b, k = a +:+ ":" +:+ u +:+ ":" +:+ b.
Proof.
  intros Hu.
  assert (Hp : glob_plain (":" +:+ u +:+ ":") = true).
  { change (glob_plain (String colon (u +:+ ":")) = true). cbn [glob_plain].
    change (glob_plain (u +:+ ":") = true).
    induction u as [|c u IH]; [reflexivity|].
    change (glob_plain (String c (u +:+ ":")) = true). cbn [glob_plain] in Hu |- *.
    apply andb_true_iff in Hu as [Hc Hu]. rewrite Hc. exact (IH Hu). }
  change ("*:" +:+ u +:+ ":*") with (String star (":" +:+ (u +:+ ":*"))).
  rewrite glob_any. split.
  - intros (a & b & -> & Hb).
    replace (":" +:+ (u +:+ ":*")) with ((":" +:+ u +:+ ":") +:+ "*") in Hb
      by (rewrite !append_assoc; reflexivity).
    apply (glob_literal _ _ _ Hp) in Hb as (b' & -> & _).
    exists a, b'. rewrite !append_assoc. reflexivity.
  - intros (a & b & ->). exists a, (":" +:+ u +:+ ":" +:+ b). split; [reflexivity|].
    replace (":" +:+ (u +:+ ":*")) with ((":" +:+ u +:+ ":") +:+ "*")
      by (rewrite !append_assoc; reflexivity).
    apply (glob_literal _ _ _ Hp). exists b.
    split; [rewrite !append_assoc; reflexivity|apply glob_all].
Qed.

Lemma colons_append (a b : string) : colons (a +:+ b) = (colons a + colons b)%nat.
Proof.
  induction a as [|x a IH]; [reflexivity|].
  change (colons (String x (a +:+ b)) = (colons (String x a) + colons b)%nat).
  cbn [colons]. rewrite IH. lia.
Qed.

Lemma colon_free_colons (s : string) : colon_free s = true <-> colons s = 0%nat.
Proof.
  induction s as [|c s IH]; [split; reflexivity|].
  cbn [colon_free colons]. destruct (Ascii.eqb c colon); simpl.
  - split; [discriminate|lia].
  - exact IH.
Qed.

Lemma glob_context_key (u c : string) :
  glob_plain u = true -> glob ("*:" +:+ u +:+ ":*") (context_key u c) = true.
Proof.
  intros Hu. apply (glob_user_pattern u _ Hu). exists "context", c. reflexivity.
Qed.

Lemma glob_preferences_key (u v : string) :
  glob_plain u = true -> colon_free v = true ->
  glob ("*:" +:+ u +:+ ":*") (preferences_key v) = false.
Proof.
  intros Hu Hv. apply not_true_is_false. intros H.
  apply (glob_user_pattern u _ Hu) in H as (a & b & H).
  apply (f_equal colons) in H. unfold preferences_key in H.
  rewrite !colons_append in H. apply colon_free_colons in Hv. rewrite Hv in H.
  simpl in H. lia.
Qed.

Lemma glob_other_context_key (u v c : string) :
  glob_plain u = true -> colon_free u = true ->
  colon_free v = true -> colon_free c = true -> v <> u ->
  glob ("*:" +:+ u +:+ ":*") (context_key v c) = false.
Proof.
  intros Hp Hu Hv Hc Hne. apply not_true_is_false. intros H.
  apply (glob_user_pattern u _ Hp) in H as (a & b & H).
  pose proof (f_equal colons H) as Hn. unfold context_key in Hn.
  rewrite !colons_append in Hn.
  apply colon_free_colons in Hu as Hu0. apply colon_free_colons in Hv as Hv0.
  apply colon_free_colons in Hc as Hc0. rewrite Hu0, Hv0, Hc0 in Hn. simpl in Hn.
  assert (Ha : colon_free a = true) by (apply colon_free_colons; lia).
  unfold context_key in H.
  change ("context:" +:+ v +:+ ":" +:+ c)
    with ("context" +:+ String colon (v +:+ String colon c)) in H.
  change (a +:+ ":" +:+ u +:+ ":" +:+ b)
    with (a +:+ String colon (u +:+ String colon b)) in H.
  assert (Hctx : colon_free "context" = true) by reflexivity.
  destruct (colon_free_split _ _ _ _ Hctx Ha H) as [_ H'].
  destruct (colon_free_split _ _ _ _ Hv Hu H') as [Hvu _]. contradiction.
Qed.

Lemma lookup_foldr_delete_in (m : gmap string RedisEntry) (ks : list string) (k : string) :
  k ∈ ks -> foldr delete m ks !! k = None.
Proof.
  induction ks as [|k0 ks IH]; intros Hin; [inversion Hin|].
  simpl. destruct (decide (k0 = k)) as [->|Hne].
  - apply lookup_delete_eq.
  - rewrite lookup_delete_ne by exact Hne. apply IH.
    inversion Hin; subst; [contradiction|assumption].
Qed.

Lemma lookup_foldr_delete_out (m : gmap string RedisEntry) (ks : list string) (k : string) :
  k ∉ ks -> foldr delete m ks !! k = m !! k.
Proof.
  induction ks as [|k0 ks IH]; intros Hout; [reflexivity|].
  simpl. rewrite lookup_delete_ne.
  - apply IH. intros Hin. apply Hout. right. exact Hin.
  - intros ->. apply Hout. left.
Qed.

(** What [clearUserCache] does to a key, with the cache available. *)
Lemma clearUserCache_key (u k : string) (w : World) :
  redis_up w ->
  fst (clearUserCache u w) = Returns tt
  /\ cached k (snd (clearUserCache u w))
     = if glob ("*:" +:+ u +:+ ":*") k then None else cached k w.
Proof.
  intros Hr.
  pose proof (redis_up_hd w Hr) as Hr1.
  pose proof (up_hd _ (redis_up_tl w Hr)) as Hr2.
  set (pattern := "*:" +:+ u +:+ ":*").
  set (keys := keys_matching pattern (clock w) (redis w)).
  assert (Hkeys : forall k', k' ∈ keys <->
            exists e, redis w !! k' = Some e /\ is_Some (live (clock w) e)
                      /\ glob pattern k' = true).
  { intros k'. subst keys. unfold keys_matching. rewrite list_elem_of_omap. split.
    - intros ([k0 e] & Hin & Hf). apply elem_of_map_to_list in Hin. cbn [fst snd] in Hf.
      destruct (live (clock w) e) eqn:Hl; [|discriminate].
      destruct (glob pattern k0) eqn:Hg; [|discriminate].
      inversion Hf; subst. exists e. rewrite Hl. eauto.
    - intros (e & He & [v Hl] & Hg). exists (k', e). split.
      + apply elem_of_map_to_list. exact He.
      + cbn [fst snd]. rewrite Hl, Hg. reflexivity. }
  assert (Hcached : cached k (with_redis (foldr delete (redis w) keys) w)
                    = if glob pattern k then None else cached k w).
  { unfold cached. simpl_world. destruct (glob pattern k) eqn:Hg.
    - destruct (redis w !! k) as [e|] eqn:He.
      + destruct (live (clock w) e) eqn:Hl.
        * rewrite lookup_foldr_delete_in; [reflexivity|].
          apply Hkeys. exists e. rewrite Hl. eauto.
        * rewrite lookup_foldr_delete_out, He; [simpl; exact Hl|].
          intros Hin. apply Hkeys in Hin as (e' & He' & [v Hv] & _).
          rewrite He in He'. inversion He'; subst. rewrite Hl in Hv. discriminate.
      + rewrite lookup_foldr_delete_out, He; [reflexivity|].
        intros Hin. apply Hkeys in Hin as (e' & He' & _). rewrite He in He'. discriminate.
    - rewrite lookup_foldr_delete_out; [reflexivity|].
      intros Hin. apply Hkeys in Hin as (_ & _ & _ & Hg'). rewrite Hg in Hg'. discriminate. }
  unfold clearUserCache, redis_keys, redis_del_keys. fold pattern.
  unfold_async. simpl_world. rewrite Hr1. simpl_world. fold keys.
  destruct (Nat.ltb 0 (length keys)) eqn:Hlen; simpl_world.
  - rewrite Hr2. simpl_world. split; [reflexivity|]. exact Hcached.
  - split; [reflexivity|].
    assert (keys = []) as Hnil.
    { destruct keys; [reflexivity|]. simpl in Hlen. discriminate. }
    rewrite Hnil in Hcached. simpl in Hcached. exact Hcached.
Qed.

(** X18.  With the cache available, [clearUserCache] returns and leaves no
    cached context of the user, in any channel. For ids without colon it
    removes nothing else: the contexts of the other users stay, and so do
    all cached preferences, those of the user included (the pattern
    [*:<user>:*] does not match [preferences:<user>]). *)
Theorem clearUserCache_scope (u : string) (w : World) :
  redis_up w -> glob_plain u = true -> colon_free u = true ->
  let w' := snd (clearUserCache u w) in
  fst (clearUserCache u w) = Returns tt
  /\ (forall c, cached (context_key u c) w' = None)
  /\ (forall v, colon_free v = true ->
        cached (preferences_key v) w' = cached (preferences_key v) w)
  /\ (forall v c, colon_free v = true -> colon_free c = true -> v <> u ->
        cached (context_key v c) w' = cached (context_key v c) w).
Proof.
  intros Hr Hp Hu. cbv zeta.
  split; [apply (clearUserCache_key u "" w Hr)|]. split; [|split].
  - intros c. rewrite (proj2 (clearUserCache_key u _ w Hr)).
    rewrite (glob_context_key u c Hp). reflexivity.
  - intros v Hv. rewrite (proj2 (clearUserCache_key u _ w Hr)).
    rewrite (glob_preferences_key u v Hp Hv). reflexivity.
  - intros v c Hv Hc Hne. rewrite (proj2 (clearUserCache_key u _ w Hr)).
    rewrite (glob_other_context_key u v c Hp Hu Hv Hc Hne). reflexivity.
Qed.

Lemma clearUserCache_scope_witness :
  redis_up world_of_two_keys
  /\ is_Some (cached (context_key "u1" "c1") world_of_two_keys)
  /\ fst (clearUserCache "u1" world_of_two_keys) = Returns tt
  /\ cached (context_key "u1" "c1") (snd (clearUserCache "u1" world_of_two_keys)) = None
  /\ cached (preferences_key "u1") (snd (clearUserCache "u1" world_of_two_keys))
     = Some (JsonPreferences defaultPreferences).
Proof.
  assert (Hr : redis_up world_of_two_keys) by constructor.
  destruct (clearUserCache_scope "u1" world_of_two_keys Hr eq_refl eq_refl)
    as (H1 & H2 & H3 & _).
  split; [exact Hr|]. split; [vm_compute; eexists; reflexivity|].
  split; [exact H1|]. split; [apply H2|].
  rewrite (H3 "u1" eq_refl). vm_compute. reflexivity.
Defined.

Lemma glob_prefix (lit k : string) :
  glob_plain lit = true ->
  glob (lit +:+ "*") k = String.prefix lit k.
Proof.
  intros Hl. revert k. induction lit as [|c lit IH]; intros k.
  - rewrite append_nil_l, glob_all. symmetry. apply prefix_empty.
  - cbn [glob_plain] in Hl. repeat (apply andb_true_iff in Hl as [Hl ?]).
    apply negb_true_iff in Hl. rewrite append_cons. cbn [glob]. rewrite Hl.
    destruct k as [|d k]; [reflexivity|]. cbn [String.prefix].
    rewrite IH by assumption.
    destruct (Ascii.eqb_spec c d) as [->|Hne].
    + destruct (ascii_dec d d); [reflexivity|contradiction].
    + destruct (ascii_dec c d); [contradiction|reflexivity].
Qed.

Lemma length_omap_split {A B} (f g h : A -> option B) (l : list A) :
  (forall x, x ∈ l ->
     match f x with
     | Some _ => (is_Some (g x) /\ h x = None) \/ (g x = None /\ is_Some (h x))
     | None => g x = None /\ h x = None
     end) ->
  length (omap f l) = (length (omap g l) + length (omap h l))%nat.
Proof.
  induction l as [|x l IH]; intros H; [reflexivity|].
  assert (Hx := H x (list_elem_of_here _ _)).
  assert (Hl : forall y, y ∈ l -> _) by (intros y Hy; exact (H y (list_elem_of_further _ _ _ Hy))).
  specialize (IH Hl).
  change (omap f (x :: l)) with (match f x with Some y => y :: omap f l | None => omap f l end).
  change (omap g (x :: l)) with (match g x with Some y => y :: omap g l | None => omap g l end).
  change (omap h (x :: l)) with (match h x with Some y => y :: omap h l | None => omap h l end).
  destruct (f x).
  - destruct Hx as [[[y Hg] Hh]|[Hg [y Hh]]]; rewrite Hg, Hh; simpl; rewrite IH; lia.
  - destruct Hx as [Hg Hh]. rewrite Hg, Hh. exact IH.
Qed.

(** X19.  With the cache available and every key written by the service
    (contexts under [context:], preferences under [preferences:]),
    [getCacheStats] returns, and the total is the number of context keys
    plus the number of preference keys; expired keys are not counted. *)
Theorem getCacheStats_adds_up (w : World) :
  redis_up w -> well_keyed w ->
  exists s,
    fst (getCacheStats w) = Returns s
    /\ totalKeys s = (contextKeys s + preferenceKeys s)%nat
    /\ contextKeys s = length (keys_matching "context:*" (clock w) (redis w))
    /\ preferenceKeys s = length (keys_matching "preferences:*" (clock w) (redis w)).
Proof.
  intros Hr Hk.
  pose proof (redis_up_hd w Hr) as Hr1.
  pose proof (up_hd _ (redis_up_tl w Hr)) as Hr2.
  pose proof (up_hd _ (up_tl_up _ (redis_up_tl w Hr))) as Hr3.
  unfold getCacheStats, redis_keys. unfold_async. simpl_world.
  rewrite Hr1. simpl_world. rewrite Hr2. simpl_world. rewrite Hr3. simpl_world.
  eexists. split; [reflexivity|]. cbn [totalKeys contextKeys preferenceKeys].
  split; [|split; reflexivity].
  unfold keys_matching. apply length_omap_split. intros [k e] Hin. apply elem_of_map_to_list in Hin.
  specialize (Hk k e Hin). unfold well_keyed_entry in Hk. cbn [fst snd].
  destruct (live (clock w) e); [|split; reflexivity].
  pose proof (glob_all k) as Hall. change (String star "") with "*" in Hall.
  rewrite Hall.
  pose proof (glob_prefix "context:" k eq_refl) as Hctx.
  pose proof (glob_prefix "preferences:" k eq_refl) as Hprf.
  change ("context:" +:+ "*") with "context:*" in Hctx.
  change ("preferences:" +:+ "*") with "preferences:*" in Hprf.
  rewrite Hctx, Hprf.
  destruct (re_value e).
  - left. rewrite Hk. split; [eexists; reflexivity|].
    destruct k as [|a k]; [discriminate|]. cbn [String.prefix] in Hk |- *.
    destruct (ascii_dec _ a); [|discriminate]. subst a.
    destruct (ascii_dec _ _); [discriminate|reflexivity].
  - right. rewrite Hk. split; [|eexists; reflexivity].
    destruct k as [|a k]; [discriminate|]. cbn [String.prefix] in Hk |- *.
    destruct (ascii_dec _ a); [|discriminate]. subst a.
    destruct (ascii_dec _ _); [discriminate|reflexivity].
Qed.

Lemma getCacheStats_adds_up_witness :
  redis_up world_of_two_keys
  /\ exists s,
       fst (getCacheStats world_of_two_keys) = Returns s
       /\ totalKeys s = (contextKeys s + preferenceKeys s)%nat.
Proof.
  assert (Hr : redis_up world_of_two_keys) by constructor.
  assert (Hk0 : well_keyed (with_users {["u1" := defaultPreferences]} (empty_world 0)))
    by (intros k e H; simpl in H; rewrite lookup_empty in H; discriminate).
  assert (Hk : well_keyed world_of_two_keys)
    by exact (well_keyed_getContext "u1" "c1" _ Hk0).
  split; [exact Hr|].
  destruct (getCacheStats_adds_up world_of_two_keys Hr Hk) as (s & H1 & H2 & _).
  exists s. split; [exact H1|exact H2].
Defined.

(* ===================================================================== *)
(** ** Cooldowns, user by user                                         *)
(* ===================================================================== *)

Lemma length_append (a b : string) :
  String.length (a +:+ b) = (String.length a + String.length b)%nat.
Proof. induction a as [|x a IH]; simpl; [reflexivity|]. rewrite IH. reflexivity. Qed.

Lemma append_inj_suffix (a b s : string) : a +:+ s = b +:+ s -> a = b.
Proof.
  revert b. induction a as [|x a IH]; intros [|y b] H.
  - reflexivity.
  - exfalso. apply (f_equal String.length) in H.
    rewrite !length_append in H. simpl in H. lia.
  - exfalso. apply (f_equal String.length) in H.
    rewrite !length_append in H. simpl in H. lia.
  - change (String x (a +:+ s) = String y (b +:+ s)) in H.
    inversion H; subst. f_equal. apply IH. assumption.
Qed.

Lemma commands_get_In (commands : list SlashCommand) (name : string) (c : SlashCommand) :
  commands_get commands name = Some c -> In c commands.
Proof.
  induction commands as [|c0 rest IH]; simpl; [discriminate|].
  destruct (String.eqb (cmd_name c0) name).
  - intros H; inversion H; subst. left. reflexivity.
  - intros H. right. apply IH, H.
Qed.

Lemma last_dispatch_other (i i' : Interaction) (now : Z) (w : World) :
  ~ same_invoker i i' ->
  last_dispatch i'
    (with_cooldowns
       (<[commandName i :=
            <[SlashCommandHandler.cooldown_key i := now]>
              (default ∅ (cooldowns w !! commandName i))]> (cooldowns w)) w)
  = last_dispatch i' w.
Proof.
  intros Hne. unfold last_dispatch at 1. simpl_world.
  destruct (decide (commandName i = commandName i')) as [Hc|Hc].
  - rewrite Hc, lookup_insert_eq. simpl.
    rewrite lookup_insert_ne.
    + apply last_dispatch_lookup.
    + unfold SlashCommandHandler.cooldown_key. rewrite Hc. intros Hk.
      apply append_inj_suffix in Hk. apply Hne. split; congruence.
  - rewrite lookup_insert_ne by exact Hc. reflexivity.
Qed.

(** X20.  An invocation changes the cooldown of its own user and command
    only: for any other user, and for the same user on any other command,
    the recorded instant of the last dispatch is what it was. *)
Theorem cooldown_isolated (i i' : Interaction) (w : World) :
  ~ same_invoker i i' ->
  last_dispatch i'
    (snd (SlashCommandHandler.handleInteraction SlashCommandHandler.loadCommands i w))
  = last_dispatch i' w.
Proof.
  intros Hne.
  assert (Hkeep : forall A (m : Async A) w0,
            keeps_cooldowns m -> last_dispatch i' (snd (m w0)) = last_dispatch i' w0).
  { intros A m w0 Hm. unfold last_dispatch. rewrite Hm. reflexivity. }
  unfold SlashCommandHandler.handleInteraction.
  destruct (commands_get SlashCommandHandler.loadCommands (commandName i))
    as [command|] eqn:Hget.
  - pose proof (keeps_dispatch command i
                  (keeps_loadCommands command i (commands_get_In _ _ _ Hget))) as Hd.
    destruct (truthy_number (cooldown command)); [|apply Hkeep, Hd].
    unfold bind at 1. unfold Date_now at 1. unfold bind at 1.
    unfold SlashCommandHandler.cooldowns_get at 1. cbv beta iota.
    assert (Hrec :
      last_dispatch i'
        (snd ((SlashCommandHandler.cooldowns_record (commandName i)
                 (SlashCommandHandler.cooldown_key i) (clock w) ;;;
               SlashCommandHandler.dispatch command i) w))
      = last_dispatch i' w).
    { unfold bind, SlashCommandHandler.cooldowns_record.
      rewrite (Hkeep _ _ _ Hd). apply last_dispatch_other, Hne. }
    destruct (_ !! SlashCommandHandler.cooldown_key i) as [last|]; [|exact Hrec].
    destruct (Z.ltb _ _); [|exact Hrec].
    apply Hkeep, keeps_interaction_reply.
  - apply Hkeep. keeps_handler.
Qed.

Lemma cooldown_isolated_witness :
  ~ same_invoker (weather_invocation "i1") chat_invocation
  /\ last_dispatch chat_invocation world_after_weather = None.
Proof.
  assert (Hne : ~ same_invoker (weather_invocation "i1") chat_invocation).
  { intros [_ H]. discriminate H. }
  split; [exact Hne|].
  exact (cooldown_isolated (weather_invocation "i1") chat_invocation world_of_weather Hne).
Defined.

(* ===================================================================== *)
(** ** The commands of the message router                              *)
(* ===================================================================== *)

Lemma word_is_ascii (ch : list ascii) :
  is_word ch = true ->
  exists c, ch = [c] /\ is_continuation c = false /\ is_space [c] = false.
Proof.
  destruct ch as [|c [|d ch]]; try discriminate.
  intros H. exists c. split; [reflexivity|]. revert H.
  destruct c as [[] [] [] [] [] [] [] []]; vm_compute; intros H;
    first [split; reflexivity | discriminate H].
Qed.

Lemma word_not_space (ch : list ascii) : is_word ch = true -> is_space ch = false.
Proof. intros H. destruct (word_is_ascii ch H) as (c & -> & _ & Hs). exact Hs. Qed.

Lemma take_word_split (s w rest : list (list ascii)) :
  take_word s = (w, rest) ->
  s = (w ++ rest)%list /\ forallb is_word w = true
  /\ match rest with c :: _ => is_word c = false | [] => True end.
Proof.
  revert w rest. induction s as [|c s IH]; intros w rest H; simpl in H.
  - inversion H; subst. repeat split.
  - destruct (is_word c) eqn:Hc.
    + destruct (take_word s) as [w' rest'] eqn:Ht. inversion H; subst.
      destruct (IH w' rest eq_refl) as (Hs & Hw & Hr).
      split; [simpl; rewrite <- Hs; reflexivity|].
      split; [simpl; rewrite Hc, Hw; reflexivity|exact Hr].
    + inversion H; subst. repeat split. exact Hc.
Qed.

Lemma split_spaces_from_word (w cur rest : list (list ascii)) :
  forallb is_word w = true ->
  split_spaces_from cur false (w ++ rest)
  = split_spaces_from (rev w ++ cur) false rest.
Proof.
  revert cur. induction w as [|c w IH]; intros cur H; simpl in *; [reflexivity|].
  apply andb_prop in H as [Hc Hw].
  rewrite (word_not_space c Hc), (IH _ Hw), <- app_assoc. reflexivity.
Qed.

Lemma spaces_then_rest_head (rest : list (list ascii)) :
  spaces_then_rest rest = true ->
  exists c s', rest = c :: s' /\ is_space c = true.
Proof.
  destruct rest as [|c s']; simpl; [discriminate|].
  intros H. apply andb_prop in H as [Hc _]. eauto.
Qed.

(** A word is cut into the characters it was made of. *)
Lemma characters_of_word (w : list (list ascii)) :
  forallb is_word w = true -> characters_of (concat w) = w.
Proof.
  induction w as [|ch w IH]; [reflexivity|].
  cbn [forallb]. intros H. apply andb_prop in H as [Hc Hw].
  destruct (word_is_ascii ch Hc) as (c & -> & _ & _).
  cbn [concat app characters_of]. rewrite (IH Hw).
  destruct w as [|ch' w']; [reflexivity|].
  cbn [forallb] in Hw. apply andb_prop in Hw as [Hc' _].
  destruct (word_is_ascii ch' Hc') as (d & -> & Hd & _).
  rewrite Hd. reflexivity.
Qed.

Lemma commandPattern_first_token (content word : string) :
  commandPattern_match content = Some word ->
  hd "" (split_spaces content) = word
  /\ forallb is_word (characters word) = true.
Proof.
  unfold commandPattern_match, split_spaces.
  destruct (take_word (characters content)) as [w rest] eqn:Ht.
  destruct (take_word_split _ _ _ Ht) as (Hs & Hw & _).
  destruct w as [|c w]; [discriminate|].
  assert (Hhd : hd "" (split_spaces_from [] false (characters content))
                = string_of_characters (c :: w)
                \/ rest <> [] /\ spaces_then_rest rest = false).
  { rewrite Hs, (split_spaces_from_word _ _ _ Hw), app_nil_r.
    destruct rest as [|r rest'].
    - left. cbn [split_spaces_from hd]. rewrite List.rev_involutive. reflexivity.
    - destruct (spaces_then_rest (r :: rest')) eqn:Hsp;
        [|right; split; [discriminate|reflexivity]].
      left. destruct (spaces_then_rest_head _ Hsp) as (c' & s' & Heq & Hc').
      inversion Heq; subst. cbn [split_spaces_from]. rewrite Hc'. cbn [hd].
      rewrite List.rev_involutive. reflexivity. }
  assert (Hword : forallb is_word (characters (string_of_characters (c :: w))) = true).
  { unfold characters, string_of_characters.
    rewrite list_ascii_of_string_of_list_ascii, (characters_of_word _ Hw). exact Hw. }
  destruct rest as [|r rest'].
  - intros H. inversion H; subst. destruct Hhd as [Hhd|[Hne _]]; [|contradiction].
    split; [exact Hhd|exact Hword].
  - destruct (spaces_then_rest (r :: rest')) eqn:Hsp; [|discriminate].
    intros H. inversion H; subst. destruct Hhd as [Hhd|[_ Hf]]; [|discriminate].
    split; [exact Hhd|exact Hword].
Qed.

(** X21.  Whatever [isCommand] accepts, [handleCommandMessage] knows: the
    first word that [content.split(/\s+/)] gives is made of ASCII letters,
    digits and underscores; in lower case it is not empty, is one of the
    eleven valid commands, and passes one of the tests of the switch. So
    from [handleMessage] the [default] branch of the switch (the
    unknown-command reply) is never reached.  The white space of both
    patterns is that of ECMAScript, the no-break space and the other
    Unicode spaces included. *)
Theorem isCommand_first_token (content : string) :
  MessageHandler.isCommand content = true ->
  let token := hd "" (split_spaces content) in
  let command := toLowerCase token in
  forallb is_word (characters token) = true
  /\ command ∈ MessageHandler.validCommands
  /\ truthy_string command = true
  /\ (String.eqb command "help" || String.eqb command "ping"
      || String.eqb command "info" || String.eqb command "status"
      || String.eqb command "clear" || String.eqb command "reset"
      || String.eqb command "remind" || String.eqb command "time"
      || String.eqb command "weather" || String.eqb command "search"
      || String.eqb command "translate") = true.
Proof.
  unfold MessageHandler.isCommand.
  destruct (commandPattern_match content) as [word|] eqn:Hm; [|discriminate].
  destruct (commandPattern_first_token content word Hm) as (-> & Hword).
  cbv zeta. destruct (truthy_string _); [|discriminate].
  intros H. apply bool_decide_eq_true in H. split; [exact Hword|]. split; [exact H|].
  unfold MessageHandler.validCommands in H.
  repeat (apply elem_of_cons in H as [->|H]); try (split; reflexivity).
  inversion H.
Qed.

Lemma isCommand_first_token_witness :
  MessageHandler.isCommand weather_no_break_space = true
  /\ hd "" (split_spaces weather_no_break_space) = "Weather"
  /\ toLowerCase (hd "" (split_spaces weather_no_break_space))
     ∈ MessageHandler.validCommands.
Proof.
  assert (H : MessageHandler.isCommand weather_no_break_space = true)
    by (vm_compute; reflexivity).
  split; [exact H|]. split; [vm_compute; reflexivity|].
  exact (proj1 (proj2 (isCommand_first_token weather_no_break_space H))).
Defined.

(* ===================================================================== *)
(** ** What the routers send                                           *)
(* ===================================================================== *)

Section OnlyEmits.

Context (P : Event -> Prop).

Lemma only_emits_ret {A} (a : A) : only_emits P (ret a).
Proof. intros w. exists []. split; [reflexivity|constructor]. Qed.

Lemma only_emits_throw {A} (e : Error) : only_emits P (@throw A e).
Proof. intros w. exists []. split; [reflexivity|constructor]. Qed.

Lemma only_emits_Date_now : only_emits P Date_now.
Proof. intros w. exists []. split; [reflexivity|constructor]. Qed.

Lemma only_emits_emit (e : Event) : P e -> only_emits P (emit e).
Proof. intros H w. exists [e]. split; [reflexivity|]. constructor; [exact H|constructor]. Qed.

Lemma only_emits_bind {A B} (m : Async A) (k : A -> Async B) :
  only_emits P m -> (forall a, only_emits P (k a)) -> only_emits P (bind m k).
Proof.
  intros Hm Hk w. unfold bind. destruct (Hm w) as (n1 & H1 & F1).
  destruct (m w) as [[a|e] w']; cbn [snd] in *.
  - destruct (Hk a w') as (n2 & H2 & F2). exists (n2 ++ n1)%list.
    rewrite H2, H1, app_assoc. split; [reflexivity|]. apply Forall_app; split; assumption.
  - exists n1. split; assumption.
Qed.

Lemma only_emits_try_catch {A} (m : Async A) (h : Error -> Async A) :
  only_emits P m -> (forall e, only_emits P (h e)) -> only_emits P (try_catch m h).
Proof.
  intros Hm Hh w. unfold try_catch. destruct (Hm w) as (n1 & H1 & F1).
  destruct (m w) as [[a|e] w']; cbn [snd] in *.
  - exists n1. split; assumption.
  - destruct (Hh e w') as (n2 & H2 & F2). exists (n2 ++ n1)%list.
    rewrite H2, H1, app_assoc. split; [reflexivity|]. apply Forall_app; split; assumption.
Qed.

Lemma only_emits_redis_call {A} (op : World -> A * World) :
  (forall w, trace (snd (op w)) = trace w) -> only_emits P (redis_call op).
Proof.
  intros H w. exists []. split; [|constructor]. unfold redis_call.
  destruct (hd None (redis_faults w)); [reflexivity|].
  specialize (H (with_redis_faults (tl (redis_faults w)) w)).
  destruct (op _); simpl in *. exact H.
Qed.

Lemma only_emits_pg_call {A} (op : World -> A * World) :
  (forall w, trace (snd (op w)) = trace w) -> only_emits P (pg_call op).
Proof.
  intros H w. exists []. split; [|constructor]. unfold pg_call.
  destruct (hd None (pg_faults w)); [reflexivity|].
  specialize (H (with_pg_faults (tl (pg_faults w)) w)).
  destruct (op _); simpl in *. exact H.
Qed.

Lemma only_emits_state {A} (f : World -> Completion A * World) :
  (forall w, trace (snd (f w)) = trace w) -> only_emits P f.
Proof. intros H w. exists []. split; [apply H|constructor]. Qed.

Lemma only_emits_client_call {A} (script : World -> list (HttpOutcome A))
    with_script method url rq :
  (forall s w, trace (with_script s w) = trace w) ->
  (forall l s, P (Log l s)) -> P (Http rq) ->
  only_emits P (client_call script with_script method url rq).
Proof.
  intros H Hlog Hrq w. unfold client_call. unfold_async. simpl_world.
  destruct (script _) as [|o rest]; simpl_world.
  - eexists [_; _; _]. split; [reflexivity|]. repeat constructor; auto.
  - destruct (outcome o); simpl_world; rewrite H; simpl_world;
      (eexists [_; _; _]; split; [reflexivity|]; repeat constructor; auto).
Qed.

End OnlyEmits.

Lemma only_emits_mono {A} (P Q : Event -> Prop) (m : Async A) :
  (forall e, P e -> Q e) -> only_emits P m -> only_emits Q m.
Proof.
  intros H Hm w. destruct (Hm w) as (new & Ht & F). exists new. split; [exact Ht|].
  eapply Forall_impl; eassumption.
Qed.

Ltac only_emits :=
  repeat first
    [ apply only_emits_ret | apply only_emits_throw | apply only_emits_Date_now
    | apply only_emits_emit; exact I
    | apply only_emits_redis_call; intros; reflexivity
    | apply only_emits_pg_call; intros; reflexivity
    | apply only_emits_client_call; [intros; reflexivity | intros; exact I | exact I]
    | assumption
    | apply only_emits_bind | apply only_emits_try_catch
    | match goal with
      | |- only_emits _ (match ?x with _ => _ end) => destruct x
      | |- only_emits _ (if ?x then _ else _) => destruct x
      | |- forall _, _ => intro
      end ].

Lemma service_getUserPreferences u : only_emits service_event (getUserPreferences u).
Proof.
  unfold getUserPreferences, logger_error, redis_get, redis_setEx,
    pg_select_preferences, pg_insert_user. only_emits.
Qed.

Lemma service_getContext u c : only_emits service_event (getContext u c).
Proof.
  pose proof (service_getUserPreferences u).
  unfold getContext, logger_error, redis_get, redis_setEx. only_emits.
Qed.

Lemma service_updateContext ctx : only_emits service_event (updateContext ctx).
Proof.
  unfold updateContext, storeContextInDatabase, logger_error, redis_setEx,
    pg_upsert_context. only_emits.
Qed.

Lemma service_clearContext u c : only_emits service_event (clearContext u c).
Proof.
  unfold clearContext, logger_error, logger_info, redis_del, pg_delete_context.
  only_emits.
Qed.

Lemma service_updateUserPreferences u p :
  only_emits service_event (updateUserPreferences u p).
Proof.
  pose proof (service_getUserPreferences u).
  unfold updateUserPreferences, logger_error, logger_info, redis_setEx,
    pg_update_preferences. only_emits.
Qed.

Lemma service_processMessage m ctx : only_emits service_event (processMessage m ctx).
Proof. unfold processMessage, post_process, logger_error. only_emits. Qed.

Lemma service_getStatus : only_emits service_event getStatus.
Proof. unfold getStatus, get_health, logger_error. only_emits. Qed.

Lemma service_no_tool_call (e : Event) : service_event e -> no_tool_call e.
Proof. destruct e as [| [] | | | | | | |]; simpl; auto. Qed.

Ltac routers_emit :=
  unfold getString_required, getString, getBoolean, getSubcommand,
    logger_error, logger_info, logger_warn, message_reply,
    interaction_reply, interaction_deferReply, interaction_editReply,
    interaction_followUp, replied_or_deferred;
  repeat first
    [ apply (only_emits_mono _ _ _ service_no_tool_call);
        first [ apply service_getContext | apply service_updateContext
              | apply service_clearContext
              | apply service_getUserPreferences | apply service_updateUserPreferences
              | apply service_processMessage | apply service_getStatus ]
    | apply only_emits_state; intros; reflexivity
    | progress only_emits ].

Lemma no_tool_call_loadCommands (command : SlashCommand) (i : Interaction) :
  In command SlashCommandHandler.loadCommands ->
  only_emits no_tool_call (execute command i).
Proof.
  unfold SlashCommandHandler.loadCommands. simpl.
  intros [<-|[<-|[<-|[<-|[<-|[<-|[<-|[<-|[]]]]]]]]]; cbn [execute].
  - unfold SlashCommandHandler.handleChatCommand. routers_emit.
  - unfold SlashCommandHandler.handleReminderCommand. routers_emit.
  - unfold SlashCommandHandler.handleTimeCommand. routers_emit.
  - unfold SlashCommandHandler.handleWeatherCommand. routers_emit.
  - unfold SlashCommandHandler.handleHelpCommand. routers_emit.
  - unfold SlashCommandHandler.handleSettingsCommand. routers_emit.
  - unfold SlashCommandHandler.handleAskCommand. routers_emit.
  - unfold SlashCommandHandler.handleSearchCommand. routers_emit.
Qed.

Lemma no_tool_call_handleInteraction (i : Interaction) :
  only_emits no_tool_call
    (SlashCommandHandler.handleInteraction SlashCommandHandler.loadCommands i).
Proof.
  unfold SlashCommandHandler.handleInteraction.
  destruct (commands_get SlashCommandHandler.loadCommands (commandName i))
    as [command|] eqn:Hget; [|routers_emit].
  pose proof (no_tool_call_loadCommands command i (commands_get_In _ _ _ Hget)) as Hx.
  unfold SlashCommandHandler.dispatch, SlashCommandHandler.cooldowns_get,
    SlashCommandHandler.cooldowns_record.
  routers_emit.
Qed.

Lemma no_tool_call_handleMessage (prefix id : string) (m : DiscordMessage) :
  only_emits no_tool_call (MessageHandler.handleMessage prefix id m).
Proof.
  unfold MessageHandler.handleMessage, MessageHandler.handleCommandMessage,
    MessageHandler.handleConversationMessage,
    MessageHandler.handleHelpCommand, MessageHandler.handlePingCommand,
    MessageHandler.handleInfoCommand, MessageHandler.handleStatusCommand,
    MessageHandler.handleClearCommand, MessageHandler.handleRemindCommand,
    MessageHandler.handleTimeCommand, MessageHandler.handleWeatherCommand,
    MessageHandler.handleSearchCommand, MessageHandler.handleTranslateCommand.
  routers_emit.
Qed.

(** X22.  Neither router ever calls a tool: whatever the message or the
    invocation, and whatever fails, no [POST /tools/execute] is among the
    requests sent. The weather, time, reminder, search and translate
    commands all go through [POST /process]. *)
Theorem routers_never_call_tools (prefix id : string) (m : DiscordMessage)
    (i : Interaction) (w : World) :
  (exists new,
     trace (snd (MessageHandler.handleMessage prefix id m w)) = (new ++ trace w)%list
     /\ forall tool parameters, ~ In (Http (PostToolsExecute tool parameters)) new)
  /\ (exists new,
        trace (snd (SlashCommandHandler.handleInteraction
                      SlashCommandHandler.loadCommands i w)) = (new ++ trace w)%list
        /\ forall tool parameters, ~ In (Http (PostToolsExecute tool parameters)) new).
Proof.
  split.
  - destruct (no_tool_call_handleMessage prefix id m w) as (new & Ht & F).
    exists new. split; [exact Ht|]. intros tool p Hin.
    rewrite List.Forall_forall in F. exact (F _ Hin).
  - destruct (no_tool_call_handleInteraction i w) as (new & Ht & F).
    exists new. split; [exact Ht|]. intros tool p Hin.
    rewrite List.Forall_forall in F. exact (F _ Hin).
Qed.

Lemma message_replies_app (new t : list Event) :
  message_replies (new ++ t) = (message_replies new + message_replies t)%nat.
Proof.
  induction new as [|e new IH]; [reflexivity|].
  destruct e; simpl; rewrite IH; reflexivity.
Qed.

Lemma service_quiet {A} (m : Async A) : only_emits service_event m -> quiet m.
Proof.
  intros H w. destruct (H w) as (new & Ht & F). rewrite Ht, message_replies_app.
  assert (Hz : message_replies new = 0%nat).
  { clear Ht. induction F as [|e new He _ IH]; [reflexivity|].
    destruct e; simpl in *; try contradiction; exact IH. }
  rewrite Hz. reflexivity.
Qed.

Lemma quiet_bind {A B} (m : Async A) (k : A -> Async B) :
  quiet m -> (forall a, quiet (k a)) -> quiet (bind m k).
Proof.
  intros Hm Hk w. unfold bind. specialize (Hm w).
  destruct (m w) as [[a|e] w']; cbn [snd] in *; [|exact Hm].
  rewrite (Hk a w'). exact Hm.
Qed.

Lemma replies_after {A B} (m : Async A) (k : A -> Async B) :
  quiet m -> (forall a, replies_on_return (k a)) -> replies_on_return (bind m k).
Proof.
  intros Hm Hk w. unfold bind. specialize (Hm w).
  destruct (m w) as [[a|e] w']; cbn [fst snd] in *; [|exact Hm].
  rewrite (Hk a w'), Hm. reflexivity.
Qed.

Lemma replies_then {A B} (m : Async A) (k : A -> Async B) :
  replies_on_return m ->
  (forall a, quiet (k a) /\ forall w, exists b, fst (k a w) = Returns b) ->
  replies_on_return (bind m k).
Proof.
  intros Hm Hk w. unfold bind. specialize (Hm w).
  destruct (m w) as [[a|e] w']; cbn [fst snd] in *; [|exact Hm].
  destruct (Hk a) as (Hq & Hr). destruct (Hr w') as (b & Hb).
  rewrite (Hq w'), Hb. exact Hm.
Qed.

Lemma replies_once_on_return {A} (m : Async A) : replies_once m -> replies_on_return m.
Proof. intros H w. destruct (H w) as ((a & ->) & ->). reflexivity. Qed.

Lemma replies_once_try_catch {A} (m : Async A) (h : Error -> Async A) :
  replies_on_return m -> (forall e, replies_once (h e)) -> replies_once (try_catch m h).
Proof.
  intros Hm Hh w. unfold try_catch. specialize (Hm w).
  destruct (m w) as [[a|e] w']; cbn [fst snd] in *.
  - split; [eexists; reflexivity|exact Hm].
  - destruct (Hh e w') as (Hr & Hc). split; [exact Hr|]. rewrite Hc, Hm. reflexivity.
Qed.

Lemma replies_once_message_reply (m : DiscordMessage) (c : ReplyContent) :
  replies_once (message_reply m c).
Proof. intros w. split; [eexists; reflexivity|reflexivity]. Qed.

Lemma replies_once_apology (m : DiscordMessage) (line : string) (c : ReplyContent) :
  replies_once (logger_error line ;;; message_reply m c).
Proof. intros w. split; [eexists; reflexivity|reflexivity]. Qed.

Ltac replies :=
  repeat first
    [ apply replies_once_apology
    | apply replies_once_message_reply
    | apply replies_once_try_catch
    | apply replies_after;
        [ apply service_quiet;
          first [ apply service_getContext | apply service_updateContext
                | apply service_clearContext | apply service_processMessage
                | apply service_getStatus | apply only_emits_Date_now ] |]
    | apply replies_once_on_return
    | match goal with
      | |- forall _, _ => intro
      | |- replies_once (if ?x then _ else _) => destruct x
      | |- replies_on_return (if ?x then _ else _) => destruct x
      end ].

Lemma replies_once_handleConversationMessage (m : DiscordMessage) (text : string) :
  replies_once (MessageHandler.handleConversationMessage m text).
Proof.
  unfold MessageHandler.handleConversationMessage.
  apply replies_once_try_catch; [|replies].
  apply replies_after; [destruct (m_canSendTyping m); intros w; reflexivity|].
  intros _. apply replies_after; [apply service_quiet, service_getContext|].
  intros c0. apply replies_after; [intros w; reflexivity|].
  intros now. apply replies_after; [apply service_quiet, service_processMessage|].
  intros r. apply replies_after; [intros w; reflexivity|].
  intros now2. apply replies_after; [apply service_quiet, service_updateContext|].
  intros _. apply replies_then; [apply replies_once_on_return, replies_once_message_reply|].
  intros _. split; [intros w; reflexivity|]. intros w. eexists. reflexivity.
Qed.

Lemma replies_once_commands (prefix : string) (m : DiscordMessage) (args command : string) :
  replies_once
    (if String.eqb command "help" then MessageHandler.handleHelpCommand prefix m args
     else if String.eqb command "ping" then MessageHandler.handlePingCommand m
     else if String.eqb command "info" then MessageHandler.handleInfoCommand m
     else if String.eqb command "status" then MessageHandler.handleStatusCommand m
     else if String.eqb command "clear" || String.eqb command "reset"
          then MessageHandler.handleClearCommand m
     else if String.eqb command "remind" then MessageHandler.handleRemindCommand prefix m args
     else if String.eqb command "time" then MessageHandler.handleTimeCommand m args
     else if String.eqb command "weather" then MessageHandler.handleWeatherCommand prefix m args
     else if String.eqb command "search" then MessageHandler.handleSearchCommand prefix m args
     else if String.eqb command "translate"
          then MessageHandler.handleTranslateCommand prefix m args
     else
       message_reply m
         (Text ("Unknown command: `" +:+ command +:+ "`. Use `" +:+ prefix
                +:+ "help` to see available commands."))).
Proof.
  unfold MessageHandler.handleHelpCommand, MessageHandler.handlePingCommand,
    MessageHandler.handleInfoCommand, MessageHandler.handleStatusCommand,
    MessageHandler.handleClearCommand, MessageHandler.handleRemindCommand,
    MessageHandler.handleTimeCommand, MessageHandler.handleWeatherCommand,
    MessageHandler.handleSearchCommand, MessageHandler.handleTranslateCommand.
  repeat match goal with
         | |- replies_once (if ?x then _ else _) => destruct x
         end; try (solve [replies]).
  all: try (intros w; split; [eexists; reflexivity|reflexivity]).
Qed.

(** X23.  [handleMessage] never throws, whatever the stores and the text
    service do; and either it ignores the message and leaves the world as it
    is, or it sends exactly one reply to it. *)
Theorem one_reply_per_message (prefix id : string) (m : DiscordMessage) (w : World) :
  let w' := snd (MessageHandler.handleMessage prefix id m w) in
  fst (MessageHandler.handleMessage prefix id m w) = Returns tt
  /\ (w' = w \/ message_replies (trace w') = S (message_replies (trace w))).
Proof.
  cbv zeta.
  assert (Hskip : fst (ret tt w) = Returns tt
                  /\ (snd (ret tt w) = w
                      \/ message_replies (trace (snd (ret tt w)))
                         = S (message_replies (trace w))))
    by (split; [reflexivity|left; reflexivity]).
  assert (Honce : forall h : Async unit, replies_once h ->
            fst (h w) = Returns tt
            /\ (snd (h w) = w
                \/ message_replies (trace (snd (h w))) = S (message_replies (trace w)))).
  { intros h Hh. destruct (Hh w) as (([] & Hr) & Hc). split; [exact Hr|right; exact Hc]. }
  unfold MessageHandler.handleMessage.
  repeat match goal with
         | |- context [if ?x then ret tt else _] => destruct x; [exact Hskip|]
         end.
  destruct (MessageHandler.isCommand _).
  - unfold MessageHandler.handleCommandMessage.
    destruct (negb _); [exact Hskip|].
    apply Honce, replies_once_try_catch; [|replies].
    apply replies_once_on_return, replies_once_commands.
  - apply Honce, replies_once_handleConversationMessage.
Qed.

(* ===================================================================== *)
(** ** The first response to an interaction                            *)
(* ===================================================================== *)

Lemma keeps_answered_ret {A} (a : A) : keeps_answered (ret a).
Proof. intros w. split; reflexivity. Qed.

Lemma keeps_answered_throw {A} (e : Error) : keeps_answered (@throw A e).
Proof. intros w. split; reflexivity. Qed.

Lemma keeps_answered_bind {A B} (m : Async A) (k : A -> Async B) :
  keeps_answered m -> (forall a, keeps_answered (k a)) -> keeps_answered (bind m k).
Proof.
  intros Hm Hk w. unfold bind. specialize (Hm w).
  destruct (m w) as [[a|e] w']; cbn [snd] in *; [|exact Hm].
  destruct (Hk a w') as (-> & ->). exact Hm.
Qed.

Lemma keeps_answered_try_catch {A} (m : Async A) (h : Error -> Async A) :
  keeps_answered m -> (forall e, keeps_answered (h e)) -> keeps_answered (try_catch m h).
Proof.
  intros Hm Hh w. unfold try_catch. specialize (Hm w).
  destruct (m w) as [[a|e] w']; cbn [snd] in *; [exact Hm|].
  destruct (Hh e w') as (-> & ->). exact Hm.
Qed.

Lemma keeps_answered_emit (e : Event) : keeps_answered (emit e).
Proof. intros w. split; reflexivity. Qed.

Lemma keeps_answered_Date_now : keeps_answered Date_now.
Proof. intros w. split; reflexivity. Qed.

Lemma keeps_answered_redis_call {A} (op : World -> A * World) :
  (forall w, replied (snd (op w)) = replied w /\ deferred (snd (op w)) = deferred w) ->
  keeps_answered (redis_call op).
Proof.
  intros H w. unfold redis_call. destruct (hd None (redis_faults w)); [split; reflexivity|].
  specialize (H (with_redis_faults (tl (redis_faults w)) w)).
  destruct (op _); simpl in *. exact H.
Qed.

Lemma keeps_answered_pg_call {A} (op : World -> A * World) :
  (forall w, replied (snd (op w)) = replied w /\ deferred (snd (op w)) = deferred w) ->
  keeps_answered (pg_call op).
Proof.
  intros H w. unfold pg_call. destruct (hd None (pg_faults w)); [split; reflexivity|].
  specialize (H (with_pg_faults (tl (pg_faults w)) w)).
  destruct (op _); simpl in *. exact H.
Qed.

Lemma keeps_answered_client_call {A} (script : World -> list (HttpOutcome A))
    with_script method url rq :
  (forall s w, replied (with_script s w) = replied w
               /\ deferred (with_script s w) = deferred w) ->
  keeps_answered (client_call script with_script method url rq).
Proof.
  intros H w. unfold client_call. unfold_async. simpl_world.
  destruct (script _) as [|o rest]; simpl_world; [split; reflexivity|].
  destruct (outcome o); simpl_world;
    match goal with
    | |- replied (with_script ?s ?x) = _ /\ _ => destruct (H s x) as [-> ->]
    end; split; reflexivity.
Qed.

Ltac keeps_answered :=
  repeat first
    [ apply keeps_answered_ret | apply keeps_answered_throw | apply keeps_answered_emit
    | apply keeps_answered_Date_now
    | apply keeps_answered_redis_call; intros; split; reflexivity
    | apply keeps_answered_pg_call; intros; split; reflexivity
    | apply keeps_answered_client_call; intros; split; reflexivity
    | assumption
    | apply keeps_answered_bind | apply keeps_answered_try_catch
    | match goal with
      | |- keeps_answered (match ?x with _ => _ end) => destruct x
      | |- keeps_answered (if ?x then _ else _) => destruct x
      | |- forall _, _ => intro
      end ].

Lemma keeps_answered_getUserPreferences u : keeps_answered (getUserPreferences u).
Proof.
  unfold getUserPreferences, logger_error, redis_get, redis_setEx,
    pg_select_preferences, pg_insert_user. keeps_answered.
Qed.

Lemma keeps_answered_getContext u c : keeps_answered (getContext u c).
Proof.
  pose proof (keeps_answered_getUserPreferences u).
  unfold getContext, logger_error, redis_get, redis_setEx. keeps_answered.
Qed.

Lemma keeps_answered_updateUserPreferences u p :
  keeps_answered (updateUserPreferences u p).
Proof.
  pose proof (keeps_answered_getUserPreferences u).
  unfold updateUserPreferences, logger_error, logger_info, redis_setEx,
    pg_update_preferences. keeps_answered.
Qed.

Lemma keeps_answered_processMessage m ctx : keeps_answered (processMessage m ctx).
Proof. unfold processMessage, post_process, logger_error. keeps_answered. Qed.

Lemma acknowledgements_app (new t : list Event) :
  acknowledgements (new ++ t) = (acknowledgements new + acknowledgements t)%nat.
Proof.
  induction new as [|e new IH]; [reflexivity|].
  destruct e; simpl; rewrite IH; reflexivity.
Qed.

Lemma no_acknowledgement_count {A} (m : Async A) (w : World) :
  only_emits no_acknowledgement m ->
  acknowledgements (trace (snd (m w))) = acknowledgements (trace w).
Proof.
  intros H. destruct (H w) as (new & Ht & F). rewrite Ht, acknowledgements_app.
  assert (Hz : acknowledgements new = 0%nat).
  { clear Ht. induction F as [|e new He _ IH]; [reflexivity|].
    destruct e; simpl in *; try contradiction; exact IH. }
  rewrite Hz. reflexivity.
Qed.

Lemma service_no_acknowledgement (e : Event) : service_event e -> no_acknowledgement e.
Proof. destruct e as [| [] | | | | | | |]; simpl; auto. Qed.

Lemma before_answer_service {A} (m : Async A) :
  only_emits service_event m -> keeps_answered m -> before_answer m.
Proof.
  intros He Hk w. split; [|apply Hk].
  apply no_acknowledgement_count.
  exact (only_emits_mono _ _ _ service_no_acknowledgement He).
Qed.

Lemma before_answer_state {A} (f : World -> Completion A * World) :
  (forall w, trace (snd (f w)) = trace w /\ replied (snd (f w)) = replied w
             /\ deferred (snd (f w)) = deferred w) ->
  before_answer f.
Proof. intros H w. destruct (H w) as (-> & -> & ->). repeat split. Qed.

Lemma answers_after {A B} (i : Interaction) (m : Async A) (k : A -> Async B) :
  before_answer m -> (forall a, answers_on_return i (k a)) ->
  answers_on_return i (bind m k).
Proof.
  intros Hm Hk w Hw. unfold bind. destruct (Hm w) as (Ha & Hr & Hd).
  assert (Hw' : unanswered i (snd (m w))).
  { destruct Hw as [H1 H2]. split; [rewrite Hr|rewrite Hd]; assumption. }
  destruct (m w) as [[a|e] w']; cbn [fst snd] in *.
  - specialize (Hk a w' Hw'). destruct (fst (k a w')).
    + rewrite Hk, Ha. reflexivity.
    + destruct Hk as [Hk1 Hk2]. rewrite Hk1, Ha. split; [reflexivity|exact Hk2].
  - split; assumption.
Qed.

Lemma answers_once_on_return {A} (i : Interaction) (m : Async A) :
  answers_once i m -> answers_on_return i m.
Proof. intros H w Hw. destruct (H w Hw) as ((a & ->) & Hc). exact Hc. Qed.

Lemma answers_once_then {A B} (i : Interaction) (m : Async A) (k : A -> Async B) :
  answers_once i m -> (forall a, settled (k a)) -> answers_once i (bind m k).
Proof.
  intros Hm Hk w Hw. unfold bind. destruct (Hm w Hw) as ((a & Ha) & Hc).
  destruct (m w) as [r w']; cbn [fst snd] in *. subst r.
  destruct (Hk a w') as (Hr & Hs). split; [exact Hr|]. rewrite Hs. exact Hc.
Qed.

Lemma answers_once_after {A B} (i : Interaction) (m : Async A) (k : A -> Async B) :
  before_answer m -> (forall w, exists a, fst (m w) = Returns a) ->
  (forall a, answers_once i (k a)) -> answers_once i (bind m k).
Proof.
  intros Hm Ht Hk w Hw. unfold bind. destruct (Hm w) as (Ha & Hr & Hd).
  assert (Hw' : unanswered i (snd (m w))).
  { destruct Hw as [H1 H2]. split; [rewrite Hr|rewrite Hd]; assumption. }
  destruct (Ht w) as (a & Hret).
  destruct (m w) as [r w']; cbn [fst snd] in *. subst r.
  destruct (Hk a w' Hw') as (Hx & Hc). split; [exact Hx|]. rewrite Hc, Ha. reflexivity.
Qed.

Lemma answers_once_try_catch {A} (i : Interaction) (m : Async A) (h : Error -> Async A) :
  answers_on_return i m -> (forall e, answers_once i (h e)) ->
  answers_once i (try_catch m h).
Proof.
  intros Hm Hh w Hw. unfold try_catch. specialize (Hm w Hw).
  destruct (m w) as [[a|e] w']; cbn [fst snd] in *.
  - split; [eexists; reflexivity|exact Hm].
  - destruct Hm as [Hc Hw']. destruct (Hh e w' Hw') as (Hr & Hc').
    split; [exact Hr|]. rewrite Hc', Hc. reflexivity.
Qed.

Lemma settled_try_catch {A} (m : Async A) (h : Error -> Async A) :
  only_emits no_acknowledgement m -> (forall e, settled (h e)) ->
  settled (try_catch m h).
Proof.
  intros Hm Hh w. unfold try_catch.
  pose proof (no_acknowledgement_count m w Hm) as Hc.
  destruct (m w) as [[a|e] w']; cbn [fst snd] in *.
  - split; [eexists; reflexivity|exact Hc].
  - destruct (Hh e w') as (Hr & Hc'). split; [exact Hr|]. rewrite Hc', Hc. reflexivity.
Qed.

Lemma answers_once_reply (i : Interaction) (c : ReplyContent) (e : bool) :
  answers_once i (interaction_reply i c e).
Proof. intros w _. split; [eexists; reflexivity|reflexivity]. Qed.

Lemma answers_once_deferReply (i : Interaction) (e : bool) :
  answers_once i (interaction_deferReply i e).
Proof. intros w _. split; [eexists; reflexivity|reflexivity]. Qed.

Lemma answers_once_apology (i : Interaction) (line : string) (c : ReplyContent) (e : bool) :
  answers_once i (logger_error line ;;; interaction_reply i c e).
Proof. intros w _. split; [eexists; reflexivity|reflexivity]. Qed.

Lemma settled_apology (i : Interaction) (line : string) (c : ReplyContent) :
  settled (logger_error line ;;; interaction_editReply i c).
Proof. intros w. split; [eexists; reflexivity|reflexivity]. Qed.

Lemma before_answer_getContext u c : before_answer (getContext u c).
Proof. apply before_answer_service; [apply service_getContext|apply keeps_answered_getContext]. Qed.

Lemma before_answer_getUserPreferences u : before_answer (getUserPreferences u).
Proof.
  apply before_answer_service;
    [apply service_getUserPreferences|apply keeps_answered_getUserPreferences].
Qed.

Lemma before_answer_updateUserPreferences u p : before_answer (updateUserPreferences u p).
Proof.
  apply before_answer_service;
    [apply service_updateUserPreferences|apply keeps_answered_updateUserPreferences].
Qed.

Lemma before_answer_processMessage m ctx : before_answer (processMessage m ctx).
Proof.
  apply before_answer_service;
    [apply service_processMessage|apply keeps_answered_processMessage].
Qed.

Lemma before_answer_getString_required name i : before_answer (getString_required name i).
Proof.
  unfold getString_required. destruct (ix_options i !! name) as [[]|];
    apply before_answer_state; intros; repeat split.
Qed.

Lemma before_answer_getString name i : before_answer (getString name i).
Proof.
  unfold getString. destruct (ix_options i !! name) as [[]|];
    apply before_answer_state; intros; repeat split.
Qed.

Lemma before_answer_getBoolean name i : before_answer (getBoolean name i).
Proof.
  unfold getBoolean. destruct (ix_options i !! name) as [[]|];
    apply before_answer_state; intros; repeat split.
Qed.

(** The part of a handler that comes after [deferReply]. *)
Ltac settled_tail :=
  apply settled_try_catch; [|intros; apply settled_apology];
  unfold logger_info, interaction_editReply;
  repeat first
    [ apply (only_emits_mono _ _ _ service_no_acknowledgement);
        first [ apply service_getContext | apply service_updateContext
              | apply service_processMessage ]
    | apply only_emits_state; intros; reflexivity
    | progress only_emits ].

Ltac answers :=
  repeat first
    [ apply answers_once_apology
    | apply answers_once_reply
    | apply answers_once_try_catch
    | apply answers_after;
        [ first [ apply before_answer_getContext | apply before_answer_processMessage
                | apply before_answer_getUserPreferences
                | apply before_answer_updateUserPreferences
                | apply before_answer_getString_required
                | apply before_answer_getString | apply before_answer_getBoolean ] |]
    | apply answers_once_on_return
    | match goal with
      | |- forall _, _ => intro
      | |- answers_once _ (if ?x then _ else _) => destruct x
      | |- answers_on_return _ (if ?x then _ else _) => destruct x
      | |- answers_once _ (match ?x with _ => _ end) => destruct x
      | |- answers_on_return _ (match ?x with _ => _ end) => destruct x
      end ].

Lemma answers_handleChatCommand i :
  answers_on_return i (SlashCommandHandler.handleChatCommand i).
Proof.
  unfold SlashCommandHandler.handleChatCommand.
  apply answers_after; [apply before_answer_getString_required|]. intros message.
  apply answers_after; [apply before_answer_getBoolean|]. intros priv.
  apply answers_once_on_return, answers_once_then; [apply answers_once_deferReply|].
  intros _. settled_tail.
Qed.

Lemma answers_handleAskCommand i :
  answers_on_return i (SlashCommandHandler.handleAskCommand i).
Proof.
  unfold SlashCommandHandler.handleAskCommand.
  apply answers_after; [apply before_answer_getString_required|]. intros message.
  apply answers_once_on_return, answers_once_then; [apply answers_once_deferReply|].
  intros _. settled_tail.
Qed.

Lemma answers_handleSearchCommand i :
  answers_on_return i (SlashCommandHandler.handleSearchCommand i).
Proof.
  unfold SlashCommandHandler.handleSearchCommand.
  apply answers_after; [apply before_answer_getString_required|]. intros message.
  apply answers_once_on_return, answers_once_then; [apply answers_once_deferReply|].
  intros _. settled_tail.
Qed.

Lemma answers_handleReminderCommand i :
  answers_on_return i (SlashCommandHandler.handleReminderCommand i).
Proof.
  unfold SlashCommandHandler.handleReminderCommand.
  apply answers_after; [apply before_answer_getString_required|]. intros message.
  apply answers_after; [apply before_answer_getString_required|]. intros time.
  apply answers_once_on_return, answers_once_then; [apply answers_once_deferReply|].
  intros _. settled_tail.
Qed.

Lemma answers_handleWeatherCommand i :
  answers_on_return i (SlashCommandHandler.handleWeatherCommand i).
Proof.
  unfold SlashCommandHandler.handleWeatherCommand.
  apply answers_after; [apply before_answer_getString_required|]. intros location.
  apply answers_after; [apply before_answer_getString|]. intros units.
  apply answers_once_on_return, answers_once_then; [apply answers_once_deferReply|].
  intros _. settled_tail.
Qed.

Lemma answers_handleTimeCommand i :
  answers_on_return i (SlashCommandHandler.handleTimeCommand i).
Proof. unfold SlashCommandHandler.handleTimeCommand. answers. Qed.

Lemma answers_handleHelpCommand i :
  answers_on_return i
    (SlashCommandHandler.handleHelpCommand SlashCommandHandler.registered i).
Proof. unfold SlashCommandHandler.handleHelpCommand. answers. Qed.

Lemma answers_handleSettingsCommand i :
  (forall s, ix_subcommand i = Some s -> s = "view" \/ s = "update") ->
  answers_on_return i (SlashCommandHandler.handleSettingsCommand i).
Proof.
  intros Hs. unfold SlashCommandHandler.handleSettingsCommand, getSubcommand.
  destruct (ix_subcommand i) as [s|].
  - destruct (Hs s eq_refl) as [->| ->].
    + change (answers_on_return i
        (try_catch
           (preferences <- getUserPreferences (ix_user i) ;;
            interaction_reply i
              (Text ("**Your Settings:**" +:+ nl
                 +:+ "• Language: " +:+ language preferences +:+ nl
                 +:+ "• Text Model: " +:+ textModel preferences +:+ nl
                 +:+ "• Auto-join Voice: " +:+ SlashCommandHandler.yes_no (autoJoinVoice preferences) +:+ nl
                 +:+ "• Reminders: "
                 +:+ SlashCommandHandler.enabled_disabled (reminders (notificationSettings preferences)) +:+ nl
                 +:+ "• Mentions: "
                 +:+ SlashCommandHandler.enabled_disabled (mentions (notificationSettings preferences)) +:+ nl
                 +:+ "• DMs: " +:+ SlashCommandHandler.enabled_disabled (dms (notificationSettings preferences))))
              true)
           (fun error =>
              logger_error "Error viewing settings:" ;;;
              interaction_reply i
                (Text "Sorry, I encountered an error loading your settings.") true))).
      answers.
    + match goal with
      | |- answers_on_return i (bind (ret "update") ?k) =>
          change (answers_on_return i (k "update"))
      end.
      cbv beta. cbn [String.eqb Ascii.eqb Bool.eqb].
      answers.
  - intros w Hw. split; [reflexivity|exact Hw].
Qed.

Lemma answers_loadCommands (command : SlashCommand) (i : Interaction) :
  (commandName i = "settings" ->
   forall s, ix_subcommand i = Some s -> s = "view" \/ s = "update") ->
  commands_get SlashCommandHandler.loadCommands (commandName i) = Some command ->
  answers_on_return i (execute command i).
Proof.
  intros Hs Hget. unfold SlashCommandHandler.loadCommands in Hget.
  cbn [commands_get cmd_name] in Hget.
  repeat match type of Hget with
         | (if String.eqb ?a ?b then _ else _) = _ =>
             destruct (String.eqb_spec a b) as [Heq|Hne];
               [inversion Hget; subst command; cbn [execute] | clear Hne]
         end; try discriminate.
  - apply answers_handleChatCommand.
  - apply answers_handleReminderCommand.
  - apply answers_handleTimeCommand.
  - apply answers_handleWeatherCommand.
  - apply answers_handleHelpCommand.
  - apply answers_handleSettingsCommand. apply Hs. symmetry. exact Heq.
  - apply answers_handleAskCommand.
  - apply answers_handleSearchCommand.
Qed.

Lemma answers_once_dispatch (command : SlashCommand) (i : Interaction) :
  answers_on_return i (execute command i) ->
  answers_once i (SlashCommandHandler.dispatch command i).
Proof.
  intros Hx. unfold SlashCommandHandler.dispatch.
  apply answers_once_try_catch; [exact Hx|].
  intros e w [Hr Hd]. unfold_async. unfold replied_or_deferred. simpl_world.
  rewrite (bool_decide_eq_false_2 _ Hr), (bool_decide_eq_false_2 _ Hd).
  split; [eexists; reflexivity|reflexivity].
Qed.

(** X24.  Every invocation of a registered or unknown command gets one first
    response, whatever the stores and the text service do and whether the
    command runs, is on cooldown or throws: [handleInteraction] returns, and
    exactly one [reply] or [deferReply] is sent. ([/settings] with a
    subcommand other than [view] and [update] would get none; Discord sends
    only the two.) *)
Theorem interaction_acknowledged_once (i : Interaction) (w : World) :
  unanswered i w ->
  (commandName i = "settings" ->
   forall s, ix_subcommand i = Some s -> s = "view" \/ s = "update") ->
  let w' := snd (SlashCommandHandler.handleInteraction
                   SlashCommandHandler.loadCommands i w) in
  fst (SlashCommandHandler.handleInteraction SlashCommandHandler.loadCommands i w)
  = Returns tt
  /\ acknowledgements (trace w') = S (acknowledgements (trace w)).
Proof.
  intros Hw Hs. cbv zeta.
  assert (Honce : forall h : Async unit, answers_once i h ->
            fst (h w) = Returns tt
            /\ acknowledgements (trace (snd (h w))) = S (acknowledgements (trace w))).
  { intros h Hh. destruct (Hh w Hw) as (([] & Hr) & Hc). split; assumption. }
  unfold SlashCommandHandler.handleInteraction.
  destruct (commands_get SlashCommandHandler.loadCommands (commandName i))
    as [command|] eqn:Hget.
  - pose proof (answers_once_dispatch command i (answers_loadCommands command i Hs Hget))
      as Hd.
    destruct (truthy_number (cooldown command)); [|apply Honce, Hd].
    assert (Hrec : forall now, answers_once i
              (SlashCommandHandler.cooldowns_record (commandName i)
                 (SlashCommandHandler.cooldown_key i) now ;;;
               SlashCommandHandler.dispatch command i)).
    { intros now. apply answers_once_after; [| |intros _; exact Hd].
      - apply before_answer_state. intros; repeat split.
      - intros w0. eexists. reflexivity. }
    apply Honce.
    apply answers_once_after;
      [apply before_answer_state; intros; repeat split
      |intros w0; eexists; reflexivity|].
    intros now.
    apply answers_once_after;
      [apply before_answer_state; intros; repeat split
      |intros w0; eexists; reflexivity|].
    intros timestamps.
    destruct (timestamps !! SlashCommandHandler.cooldown_key i) as [last|];
      [|apply Hrec].
    destruct (Z.ltb _ _); [|apply Hrec].
    apply answers_once_reply.
  - apply Honce. intros w0 _. split; [eexists; reflexivity|reflexivity].
Qed.

Lemma interaction_acknowledged_once_witness :
  unanswered chat_invocation world_of_weather
  /\ acknowledgements
       (trace (snd (SlashCommandHandler.handleInteraction SlashCommandHandler.loadCommands
                      chat_invocation world_of_weather))) = 1%nat.
Proof.
  assert (Hw : unanswered chat_invocation world_of_weather).
  { split; apply not_elem_of_empty. }
  assert (Hs : commandName chat_invocation = "settings" ->
               forall s, ix_subcommand chat_invocation = Some s ->
                         s = "view" \/ s = "update").
  { intros H. discriminate H. }
  split; [exact Hw|].
  exact (proj2 (interaction_acknowledged_once chat_invocation world_of_weather Hw Hs)).
Defined.

(* ===================================================================== *)
(** ** The commands that only ask and answer                            *)
(* ===================================================================== *)

Lemma same_stores_refl (w : World) : same_stores w w.
Proof. repeat split. Qed.

Lemma keeps_stores_processMessage m ctx : keeps_stores (processMessage m ctx).
Proof.
  intros w. unfold_gateway. unfold_async. simpl_world.
  destruct (process_script w) as [|o rest]; simpl_world; [repeat split|].
  destruct (outcome o); repeat split.
Qed.

(** Ask the text service about the context read, and answer. *)
Lemma ask_and_answer (u c : string) (prompt : string)
    (answer : AIResponse -> Async unit) (apology : Error -> Async unit) (w : World) :
  (forall r, keeps_stores (answer r)) -> (forall e, keeps_stores (apology e)) ->
  same_stores (snd (getContext u c w))
    (snd (try_catch
            (context <- getContext u c ;;
             response <- processMessage prompt context ;;
             answer response)
            apology w)).
Proof.
  intros Ha Hh. unfold try_catch, bind.
  destruct (getContext u c w) as [[c0|e] w1]; cbn [snd].
  - pose proof (keeps_stores_processMessage prompt c0 w1) as Hp.
    destruct (processMessage prompt c0 w1) as [[r|e] w2]; cbn [snd] in *.
    + pose proof (Ha r w2) as Hr. destruct (answer r w2) as [[a|e] w3]; cbn [snd] in *.
      * exact (same_stores_trans _ _ _ Hp Hr).
      * exact (same_stores_trans _ _ _ (same_stores_trans _ _ _ Hp Hr) (Hh e w3)).
    + exact (same_stores_trans _ _ _ Hp (Hh e w2)).
  - apply Hh.
Qed.

Lemma keeps_stores_message_reply m c : keeps_stores (message_reply m c).
Proof. intros w. repeat split. Qed.

Lemma keeps_stores_message_apology m line c :
  keeps_stores (logger_error line ;;; message_reply m c).
Proof. intros w. repeat split. Qed.

Lemma keeps_stores_reply i c e : keeps_stores (interaction_reply i c e).
Proof. intros w. repeat split. Qed.

Lemma keeps_stores_reply_apology i line c e :
  keeps_stores (logger_error line ;;; interaction_reply i c e).
Proof. intros w. repeat split. Qed.

Lemma keeps_stores_editReply_apology i line c :
  keeps_stores (logger_error line ;;; interaction_editReply i c).
Proof. intros w. repeat split. Qed.

Lemma keeps_stores_editReply i c : keeps_stores (interaction_editReply i c).
Proof. intros w. repeat split. Qed.

Lemma keeps_stores_editReply_logged i c note :
  keeps_stores (interaction_editReply i c ;;; logger_info note).
Proof. intros w. repeat split. Qed.

(** The tool commands of the message router. *)
Lemma message_tool_command_stores (prefix : string)
    (h : DiscordMessage -> string -> Async unit) (m : DiscordMessage) (args : string)
    (w : World) :
  In h (message_tool_commands prefix) ->
  stores_of_a_read (m_author m) (m_channelId m) w (snd (h m args w)).
Proof.
  unfold message_tool_commands. simpl.
  intros [<-|[<-|[<-|[<-|[<-|[]]]]]].
  - unfold MessageHandler.handleRemindCommand.
    destruct (negb (truthy_string args)); [left; repeat split|right].
    apply ask_and_answer; intros; [apply keeps_stores_message_reply|
                                   apply keeps_stores_message_apology].
  - unfold MessageHandler.handleTimeCommand. right.
    apply ask_and_answer; intros; [apply keeps_stores_message_reply|
                                   apply keeps_stores_message_apology].
  - unfold MessageHandler.handleWeatherCommand.
    destruct (negb (truthy_string args)); [left; repeat split|right].
    apply ask_and_answer; intros; [apply keeps_stores_message_reply|
                                   apply keeps_stores_message_apology].
  - unfold MessageHandler.handleSearchCommand.
    destruct (negb (truthy_string args)); [left; repeat split|right].
    apply ask_and_answer; intros; [apply keeps_stores_message_reply|
                                   apply keeps_stores_message_apology].
  - unfold MessageHandler.handleTranslateCommand.
    destruct (negb (truthy_string args)); [left; repeat split|right].
    apply ask_and_answer; intros; [apply keeps_stores_message_reply|
                                   apply keeps_stores_message_apology].
Qed.

Lemma after_deferral (u c : string) (d : gset string) (t : list Event) (w w' : World) :
  same_stores (snd (getContext u c (with_deferred d (with_trace t w)))) w' ->
  same_stores (snd (getContext u c w)) w'.
Proof.
  intros H. refine (same_stores_trans _ _ _ _ H).
  destruct (getContext_ignores_deferral u c d t w) as (t' & ->). repeat split.
Qed.

Lemma slash_tool_command_stores (h : Interaction -> Async unit) (i : Interaction)
    (w : World) :
  In h slash_tool_commands ->
  stores_of_a_read (ix_user i) (ix_channelId i) w (snd (h i w)).
Proof.
  unfold slash_tool_commands. simpl. intros [<-|[<-|[<-|[]]]].
  - unfold SlashCommandHandler.handleReminderCommand, getString_required.
    destruct (ix_options i !! "message") as [[message|]|]; try solve [left; repeat split].
    destruct (ix_options i !! "time") as [[time|]|]; try solve [left; repeat split].
    right. unfold ret at 1 2. unfold bind at 1 2.
    rewrite (bind_returns _ _ _ _ _ (deferReply_run _ _ _)).
    eapply after_deferral.
    apply (ask_and_answer (ix_user i) (ix_channelId i) _
             (fun response =>
                interaction_editReply i
                  (Text ("✅ Reminder set: " +:+ dq +:+ message +:+ dq +:+ " - "
                         +:+ content response)) ;;;
                logger_info ("Reminder command executed for user " +:+ ix_user i)));
      intros; [apply keeps_stores_editReply_logged|apply keeps_stores_editReply_apology].
  - unfold SlashCommandHandler.handleTimeCommand, getString.
    destruct (ix_options i !! "timezone") as [[tz|]|]; try solve [left; repeat split];
      right; unfold ret at 1; unfold bind at 1;
      apply (ask_and_answer (ix_user i) (ix_channelId i) _
               (fun response => interaction_reply i (Text (content response)) false));
      intros; [apply keeps_stores_reply|apply keeps_stores_reply_apology
              |apply keeps_stores_reply|apply keeps_stores_reply_apology].
  - unfold SlashCommandHandler.handleWeatherCommand, getString_required, getString.
    destruct (ix_options i !! "location") as [[location|]|]; try solve [left; repeat split].
    destruct (ix_options i !! "units") as [[units|]|]; try solve [left; repeat split];
      right; unfold ret at 1 2; unfold bind at 1 2;
      rewrite (bind_returns _ _ _ _ _ (deferReply_run _ _ _));
      eapply after_deferral;
      apply (ask_and_answer (ix_user i) (ix_channelId i) _
               (fun response => interaction_editReply i (Text (content response))));
      intros; [apply keeps_stores_editReply|apply keeps_stores_editReply_apology
              |apply keeps_stores_editReply|apply keeps_stores_editReply_apology].
Qed.

(** X25.  The reminder, time, weather, search and translate commands of the
    message router, and [/remind], [/time] and [/weather], record nothing,
    whatever fails: the cache and the durable store are as they were, or as
    a mere [getContext] on the user and channel leaves them. No turn is
    appended and no reminder is stored. *)
Theorem tool_commands_record_nothing (prefix : string) (w : World) :
  (forall h m args,
     In h (message_tool_commands prefix) ->
     stores_of_a_read (m_author m) (m_channelId m) w (snd (h m args w)))
  /\ (forall h i,
        In h slash_tool_commands ->
        stores_of_a_read (ix_user i) (ix_channelId i) w (snd (h i w))).
Proof.
  split.
  - intros h m args Hin. exact (message_tool_command_stores prefix h m args w Hin).
  - intros h i Hin. exact (slash_tool_command_stores h i w Hin).
Qed.

Lemma tool_commands_record_nothing_witness :
  In (MessageHandler.handleWeatherCommand "!") (message_tool_commands "!")
  /\ stores_of_a_read "u1" "c1" world_before_weather
       (snd (MessageHandler.handleWeatherCommand "!" weather_message "San Francisco"
               world_before_weather)).
Proof.
  assert (Hin : In (MessageHandler.handleWeatherCommand "!") (message_tool_commands "!"))
    by (right; right; left; reflexivity).
  split; [exact Hin|].
  exact (proj1 (tool_commands_record_nothing "!" world_before_weather)
           (MessageHandler.handleWeatherCommand "!") weather_message "San Francisco" Hin).
Defined.

(** [getStatus] always returns, and leaves the cache alone. *)
Lemma getStatus_returns (w : World) :
  exists st w1,
    getStatus w = (Returns st, w1)
    /\ redis w1 = redis w /\ redis_faults w1 = redis_faults w
    /\ (forall e, next_outcome (health_script w) = inl e -> status st = Unhealthy)
    /\ (forall data, next_outcome (health_script w) = inr data -> status st = status data).
Proof.
  unfold next_outcome. unfold_gateway. unfold_async. simpl_world.
  destruct (health_script w) as [|o rest]; simpl_world.
  - eexists _, _. split; [reflexivity|]. simpl_world. repeat split; try reflexivity.
    intros data H. discriminate.
  - destruct (outcome o) as [e|data]; simpl_world;
      (eexists _, _; split; [reflexivity|]; simpl_world; repeat split; try reflexivity).
    + intros data H. discriminate.
    + intros e H. discriminate.
    + intros data' H. inversion H; subst. reflexivity.
Qed.

(** X26.  The status command never fails because the text service is down:
    with the cache available, [getStatus] returns, [handleStatusCommand]
    returns and replies with the status the health check gave ([unhealthy]
    when the check failed) and with the number of turns in the cached
    history of the author and channel. *)
Theorem status_command_reports (m : DiscordMessage) (w : World) :
  redis_up w -> keyed_by_owner w ->
  exists st,
    fst (getStatus w) = Returns st
    /\ (forall e, next_outcome (health_script w) = inl e -> status st = Unhealthy)
    /\ (forall data, next_outcome (health_script w) = inr data ->
                     status st = status data)
    /\ fst (MessageHandler.handleStatusCommand m w) = Returns tt
    /\ exists t,
         trace (snd (MessageHandler.handleStatusCommand m w))
         = MessageReply (m_id m)
             (StatusReport (status st)
                (length (cached_history (m_author m) (m_channelId m) (snd (getStatus w)))))
           :: t.
Proof.
  intros Hr Hk.
  destruct (getStatus_returns w) as (st & w1 & Hs & Hredis & Hf & Hdown & Hup).
  assert (Hr1 : redis_up w1) by (unfold redis_up; rewrite Hf; exact Hr).
  assert (Hk1 : keyed_by_owner w1) by (unfold keyed_by_owner; rewrite Hredis; exact Hk).
  destruct (getContext_ok (m_author m) (m_channelId m) w1 Hr1 Hk1)
    as (c0 & w2 & Hg & _ & Hh & _).
  exists st. rewrite Hs. cbn [fst snd].
  split; [reflexivity|]. split; [exact Hdown|]. split; [exact Hup|].
  unfold MessageHandler.handleStatusCommand.
  erewrite try_catch_returns;
    [|rewrite (bind_returns _ _ _ _ _ Hs), (bind_returns _ _ _ _ _ Hg); reflexivity].
  cbn [fst snd]. split; [reflexivity|]. simpl_world. rewrite Hh. eexists. reflexivity.
Qed.

Lemma status_command_reports_witness :
  redis_up world_health_down
  /\ next_outcome (health_script world_health_down) = inl network_error
  /\ fst (MessageHandler.handleStatusCommand hello_message world_health_down) = Returns tt
  /\ exists t,
       trace (snd (MessageHandler.handleStatusCommand hello_message world_health_down))
       = MessageReply "m2" (StatusReport Unhealthy 0) :: t.
Proof.
  assert (Hr : redis_up world_health_down) by constructor.
  destruct (status_command_reports hello_message world_health_down Hr
              (keyed_by_owner_empty 0))
    as (st & _ & Hdown & _ & H1 & t & Ht).
  split; [exact Hr|]. split; [reflexivity|]. split; [exact H1|].
  exists t. rewrite Ht, (Hdown network_error eq_refl). reflexivity.
Defined.

(* ===================================================================== *)
(** ** The stream of the text service                                  *)
(* ===================================================================== *)

Lemma stream_lines_app (JSON_parse : string -> option json) (a b : list string) :
  stream_lines JSON_parse (a ++ b)
  = if snd (stream_lines JSON_parse a) then stream_lines JSON_parse a
    else ((fst (stream_lines JSON_parse a) ++ fst (stream_lines JSON_parse b))%list,
          snd (stream_lines JSON_parse b)).
Proof.
  induction a as [|l a IH]; simpl.
  - destruct (stream_lines JSON_parse b). reflexivity.
  - destruct (stream_line JSON_parse l) as [ys|]; [|reflexivity].
    rewrite IH. destruct (stream_lines JSON_parse a) as [zs [|]]; simpl; [reflexivity|].
    destruct (stream_lines JSON_parse b) as [zs' f]. simpl. rewrite app_assoc. reflexivity.
Qed.

Lemma createStreamIterator_lines (JSON_parse : string -> option json)
    (chunks : list string) :
  createStreamIterator JSON_parse chunks
  = fst (stream_lines JSON_parse (concat (map split_lines chunks))).
Proof.
  induction chunks as [|chunk rest IH]; simpl; [reflexivity|].
  rewrite stream_lines_app.
  destruct (stream_lines JSON_parse (split_lines chunk)) as [ys [|]]; simpl; [reflexivity|].
  rewrite IH. reflexivity.
Qed.

Lemma stream_lines_done (JSON_parse : string -> option json)
    (before after : list string) :
  stream_lines JSON_parse (before ++ "data: [DONE]" :: after)
  = stream_lines JSON_parse (before ++ ["data: [DONE]"]).
Proof.
  rewrite !stream_lines_app. destruct (snd (stream_lines JSON_parse before)); [reflexivity|].
  simpl. reflexivity.
Qed.

Lemma list_ascii_of_string_append (a b : string) :
  list_ascii_of_string (a +:+ b) = (list_ascii_of_string a ++ list_ascii_of_string b)%list.
Proof.
  induction a as [|x a IH]; [reflexivity|].
  change (x :: list_ascii_of_string (a +:+ b)
          = x :: (list_ascii_of_string a ++ list_ascii_of_string b)%list).
  rewrite IH. reflexivity.
Qed.

Lemma split_lines_from_join (cur l1 l2 : list ascii) :
  split_lines_from cur (l1 ++ ascii_of_nat 10 :: l2)
  = (split_lines_from cur l1 ++ split_lines_from [] l2)%list.
Proof.
  revert cur. induction l1 as [|c l1 IH]; intros cur.
  - cbn [app split_lines_from]. rewrite Ascii.eqb_refl. reflexivity.
  - cbn [app split_lines_from]. destruct (Ascii.eqb c (ascii_of_nat 10)).
    + rewrite IH. reflexivity.
    + apply IH.
Qed.

Lemma split_lines_join (c1 c2 : string) :
  split_lines (c1 +:+ nl +:+ c2) = (split_lines c1 ++ split_lines c2)%list.
Proof.
  unfold split_lines. rewrite list_ascii_of_string_append.
  change (list_ascii_of_string (nl +:+ c2)) with (ascii_of_nat 10 :: list_ascii_of_string c2).
  apply split_lines_from_join.
Qed.

(** X27.  [createStreamIterator] reads its stream line by line: cutting a
    chunk in two at a line feed changes nothing of what is yielded; and once
    a chunk has the line [data: [DONE]], nothing of the chunks after it is
    yielded. *)
Theorem stream_stops_at_done (JSON_parse : string -> option json)
    (before after : list string) (chunk : string) :
  (forall c1 c2,
     createStreamIterator JSON_parse (before ++ (c1 +:+ nl +:+ c2) :: after)
     = createStreamIterator JSON_parse (before ++ c1 :: c2 :: after))
  /\ ("data: [DONE]" ∈ split_lines chunk ->
      createStreamIterator JSON_parse (before ++ chunk :: after)
      = createStreamIterator JSON_parse (before ++ [chunk])).
Proof.
  split.
  { intros c1 c2. rewrite !createStreamIterator_lines, !map_app, !concat_app.
    cbn [map concat]. rewrite split_lines_join, <- app_assoc. reflexivity. }
  intros Hin. apply list_elem_of_split in Hin as (l1 & l2 & Hl).
  rewrite !createStreamIterator_lines, !map_app, !concat_app.
  cbn [map concat]. rewrite Hl, app_nil_r.
  set (B := concat (map split_lines before)).
  set (A := concat (map split_lines after)).
  replace (B ++ (l1 ++ "data: [DONE]" :: l2) ++ A)%list
    with ((B ++ l1) ++ "data: [DONE]" :: (l2 ++ A))%list
    by (rewrite <- !app_assoc; reflexivity).
  replace (B ++ l1 ++ "data: [DONE]" :: l2)%list
    with ((B ++ l1) ++ "data: [DONE]" :: l2)%list
    by (rewrite <- !app_assoc; reflexivity).
  rewrite (stream_lines_done JSON_parse (B ++ l1) (l2 ++ A)).
  rewrite (stream_lines_done JSON_parse (B ++ l1) l2). reflexivity.
Qed.

Lemma stream_stops_at_done_witness :
  "data: [DONE]" ∈ split_lines ("data: [DONE]" +:+ nl +:+ "data: {}")
  /\ createStreamIterator parse_hello
       ["data: {}"; "data: [DONE]" +:+ nl +:+ "data: {}"; "data: {}"]
     = [JStr "hello"].
Proof.
  assert (Hin : "data: [DONE]" ∈ split_lines ("data: [DONE]" +:+ nl +:+ "data: {}"))
    by (vm_compute; left).
  split; [exact Hin|].
  exact (eq_trans
           (proj2 (stream_stops_at_done parse_hello ["data: {}"] ["data: {}"]
                     ("data: [DONE]" +:+ nl +:+ "data: {}")) Hin)
           eq_refl).
Defined.
